(** * Covasim plotting layer and vaccination sub-targeting helpers

    A shallow embedding of [covasim/plotting.py] and of the two helper
    functions at the end of [tests/devtests/test_variants.py], together
    with the properties that the specification states about them.

    Conventions of the embedding:
    - Python exceptions are values of [exn]; a computation that may raise
      returns a [result].
    - Python integers are [Z]; a finite float is the rational [Q] it
      denotes. The one float that the code computes itself, the quotient
      of two integers, is rounded as binary64 rounds it.
    - Calls into pylab, matplotlib and sciris are recorded in a trace;
      what those libraries answer (whether a call raises, axis limits,
      the axes of a figure, a normalised file path) is a parameter.
      Plotly figures are values.
    - The [defaults] module of the package is not part of the embedded
      sources: its two plot tables are parameters. *)

From Stdlib Require Import ZArith QArith Qround String Ascii List Lia DecimalString Sorted.
From stdpp Require Import gmap strings list.

Open Scope Z_scope.

(** ** Python values, exceptions and results *)

Module Py.

Inductive exn : Type :=
| NotImplementedError (msg : string)
| ValueError (msg : string)
| KeyError (key : string)
| IndexError
| ZeroDivisionError
| NameError (name : string)
| AttributeError (attr : string)
| TypeError
| OverflowError.

Inductive result (A : Type) : Type :=
| Ok (a : A)
| Raise (e : exn).
Arguments Ok {A} a.
Arguments Raise {A} e.

Definition rbind {A B} (r : result A) (k : A -> result B) : result B :=
  match r with
  | Ok a => k a
  | Raise e => Raise e
  end.

(** Values that travel through keyword-argument dictionaries and flags. *)
Inductive pyval : Type :=
| PNone
| PBool (b : bool)
| PInt (z : Z)
| PFloat (q : Q)
| PStr (s : string)
| PTuple (a b : pyval).

(** Truth value testing, as [if x:] does it. *)
Definition truthy (v : pyval) : bool :=
  match v with
  | PNone => false
  | PBool b => b
  | PInt z => negb (z =? 0)
  | PFloat q => negb (Qeq_bool q 0)
  | PStr s => negb (String.eqb s "")
  | PTuple _ _ => true
  end.

(** [str(z)] for an integer, as an f-string renders it. *)
Definition str_of_Z (z : Z) : string := NilZero.string_of_int (Z.to_int z).

(** The double-quote character, for messages that quote a word. *)
Definition dquote : string := String "034"%char EmptyString.

(** [enumerate(l)] *)
Fixpoint enumerate_from {A} (i : nat) (l : list A) : list (nat * A) :=
  match l with
  | [] => []
  | x :: l' => (i, x) :: enumerate_from (S i) l'
  end.

Definition enumerate {A} (l : list A) : list (nat * A) := enumerate_from 0 l.

(** [l[i]] for a non-negative index. *)
Definition getitem {A} (l : list A) (i : nat) : result A :=
  match l !! i with
  | Some x => Ok x
  | None => Raise IndexError
  end.

(** *** Floats

    A Python float is a binary64 number: 53 binary digits, the last of
    which is worth at least [2 ^ -1074], and a magnitude below
    [2 ^ 1024]. *)

(** [x * 2 ^ k] for [k >= 0], and [x] otherwise: one side of a scaling by
    a power of two that keeps numerator and denominator integers. *)
Definition shl (x k : Z) : Z := x * 2 ^ Z.max 0 k.

(** The integer nearest to [n / d], for [d > 0]; of two equally near ones,
    the even one. *)
Definition round_half_even (n d : Z) : Z :=
  let q := n / d in
  match 2 * (n mod d) ?= d with
  | Lt => q
  | Eq => if Z.even q then q else q + 1
  | Gt => q + 1
  end.

(** The exponent [e] of the leading binary digit of [n / d], for positive
    [n] and [d]: [2 ^ e <= n / d < 2 ^ (e + 1)]. *)
Definition log2_quot (n d : Z) : Z :=
  let k := Z.log2 n - Z.log2 d in
  if shl d k <=? shl n (- k) then k else k - 1.

(** The exponent of the last digit that a binary64 number next to [n / d]
    has. *)
Definition last_digit (n d : Z) : Z := Z.max (log2_quot n d - 52) (-1074).

(** The binary64 number nearest to [n / d], for positive [n] and [d]:
    the quotient is rounded to a multiple of [2 ^ last_digit]. [None]
    when the rounded quotient is no binary64 number any more. *)
Definition to_binary64 (n d : Z) : option Q :=
  let u := last_digit n d in
  let m := round_half_even (shl n (- u)) (shl d u) in
  if shl m u <? shl (2 ^ 1024) (- u)
  then Some (shl m u # Z.to_pos (shl 1 (- u)))
  else None.

(** [a / b] on integers: true division. The result is the float nearest
    to the quotient; a quotient too small for a float becomes zero, one
    too large raises. *)
Definition truediv (a b : Z) : result Q :=
  if b =? 0 then Raise ZeroDivisionError
  else if a =? 0 then Ok 0%Q
  else match to_binary64 (Z.abs a) (Z.abs b) with
       | Some x => Ok (if Z.sgn a * Z.sgn b <? 0 then (- x)%Q else x)
       | None => Raise OverflowError
       end.

(** *** Arrays *)

(** An elementwise operation of numpy on two one-dimensional arrays:
    arrays of equal length are combined position by position, an array of
    length one is stretched to the length of the other, and other shapes
    are refused. *)
Definition broadcast {A B C} (f : A -> B -> C) (xs : list A) (ys : list B)
  : result (list C) :=
  if Nat.eqb (length xs) (length ys) then Ok (zip_with f xs ys)
  else match xs, ys with
       | [x], _ => Ok (map (f x) ys)
       | _, [y] => Ok (map (fun x => f x y) xs)
       | _, _ => Raise (ValueError "operands could not be broadcast together")
       end.

End Py.
Export Py.

(** ** tests/devtests/test_variants.py: vaccination sub-targeting *)

Module test_variants.

(** One iteration of the loop of [get_ind_of_min_value]. *)
Definition min_value_step (time : Z) (ind : option nat) (pt : nat * Z) : option nat :=
  let '(place, t) := pt in
  if time >=? t then Some place else ind.

Definition min_value_loop (list : list Z) (time : Z) : option nat :=
  fold_left (min_value_step time) (enumerate list) None.

Definition not_within_msg (time : Z) : string :=
  str_of_Z time +:+ " is not within the list of times".

Definition get_ind_of_min_value (list : list Z) (time : Z) : result nat :=
  match min_value_loop list time with
  | None => Raise (ValueError (not_within_msg time))
  | Some ind => Ok ind
  end.

(** [sim.vxsubtarg] *)
Record vxsubtarg_t : Type := {
  vx_age : list Q;
  vx_prob : list Q;
  vx_days : list Z
}.

(** [sim.people], as far as [vacc_subtarg] reads it: two parallel arrays. *)
Record people_t : Type := {
  age : list Q;
  vaccinated : list bool
}.

Record sim_t : Type := {
  vxsubtarg : vxsubtarg_t;
  t : Z;
  people : people_t
}.

(** [(people.age >= age) * ~people.vaccinated]: elementwise on the two
    arrays. *)
Definition eligible (p : people_t) (a : Q) : result (list bool) :=
  broadcast (fun x v => Qle_bool a x && negb v) (age p) (vaccinated p).

(** [sc.findinds(mask)]: the positions at which the mask is true. *)
Definition findinds (mask : list bool) : list nat :=
  map fst (filter (fun pb => Is_true (snd pb)) (enumerate mask)).

Record subtarget : Type := {
  inds : list nat;
  vals : list Q
}.

Definition vacc_subtarg (sim : sim_t) : result subtarget :=
  rbind (get_ind_of_min_value (vx_days (vxsubtarg sim)) (t sim)) (fun ind =>
  rbind (getitem (vx_age (vxsubtarg sim)) ind) (fun age =>
  rbind (getitem (vx_prob (vxsubtarg sim)) ind) (fun prob =>
  rbind (eligible (people sim) age) (fun mask =>
  let inds := findinds mask in
  let vals := map (fun one => (prob * one)%Q) (repeat 1%Q (length inds)) in
  Ok {| inds := inds; vals := vals |})))).

End test_variants.

(** ** covasim/plotting.py *)

Module plotting.

(** Keyword-argument dictionaries. *)
Abbreviation kwargs := (gmap string pyval).

(** The quantities to plot: an ordered dictionary from panel title to the
    result keys drawn in that panel. *)
Definition to_plot_t : Type := list (string * list string).

(** *** What the simulation engine hands to the plotting layer *)

(** A result series. *)
Record Result : Type := {
  name : string;
  color : pyval;
  values : list Q;
  low : option (list Q);
  high : option (list Q)
}.

(** An entry of [sim.results]: a result series, or a bare array (as ['t']
    and ['date'] are). *)
Inductive res_entry : Type :=
| Series (r : Result)
| Vector (v : list Q).

(** [sim.data]: a data frame, with its index (dates as day numbers) and
    its columns. *)
Record data_t : Type := {
  index : list Z;
  columns : gmap string (list Q)
}.

(** An intervention, as far as plotting reads it; [days = None] stands for
    an intervention that has no [days] attribute. *)
Record intervention : Type := {
  days : option (list Z);
  do_plot : bool
}.

(** [sim.people], as far as [get_individual_states] reads it: for each date
    quantity one entry per person, [None] where the date is undefined. *)
Abbreviation people_t := (gmap string (list (option Z))).

Record sim_t : Type := {
  results : gmap string res_entry;
  data : option data_t;
  start_day : Z;
  n_days : Z;
  interventions : list intervention;
  people : people_t;
  n : nat;
  npts : nat
}.

(** One scenario's aggregate for one result key. *)
Record scendata_t : Type := {
  scen_name : string;
  best : list Q;
  scen_low : list Q;
  scen_high : list Q
}.

Record scens_t : Type := {
  scen_results : gmap string (list (string * scendata_t));
  sims : gmap string (list sim_t);
  tvec : list Q
}.

(** *** Calls into pylab, matplotlib and sciris *)

(** The position arguments of [pl.subplot]: rows, columns and number (the
    rows reach it as the float that [np.ceil] returns, or as an integer),
    or a three-digit code. *)
Inductive subplot_pos : Type :=
| GridPos (n_rows : pyval) (n_cols num : Z)
| CodePos (code : Z).

Inductive call : Type :=
| Figure (kw : kwargs) (f : nat)
| SubplotsAdjust (kw : kwargs)
| RcParam (key : string) (v : pyval)
| Subplot (pos : subplot_pos) (sharex : option nat) (label : string) (a : nat)
| SetYscale (a : nat) (scale : string)
| Scatter (x : list Z) (y : list Q) (c : pyval) (kw : kwargs)
| ScatterLegend (label : string) (kw : kwargs)
| InterventionPlot (i : intervention) (a : nat)
| Legend (a : nat) (kw : kwargs)
| SetTitle (a : nat) (title : string)
| Grid (a : nat) (b : bool)
| SetYlimBottom (a : nat) (bottom : Z)
| Commaticks
| SetXticks (a : nat) (start stop : Q) (step : pyval)
| SetDateFormatter (a : nat) (start : Z)
| SetIntegerLocator (a : nat)
| FillBetween (a : nat) (x : res_entry) (lo hi : list Q) (c : pyval) (kw : kwargs)
| Plot (a : nat) (x : res_entry) (y : list Q) (label : string) (c : pyval) (kw : kwargs)
| ScenFillBetween (a : nat) (x lo hi : list Q) (c : pyval) (kw : kwargs)
| ScenPlot (a : nat) (x y : list Q) (label : string) (c : pyval) (kw : kwargs)
| FramePlot (key : string) (cells : list (Z * pyval)) (a : nat)
| PlLegend
| SaveFig (path : string)
| Show
| Close (f : option nat).

(** The libraries around the plotting layer. [get_sim_plots] and
    [get_scen_plots] are the two tables of the package's [defaults]
    module; [makefilepath] and [gridcolors] are sciris' (the first makes
    a path valid and creates its folder, or raises); the others are
    what the charting libraries answer, given the calls made so far
    (newest first): [lib_error] is the exception with which a call ends,
    if it ends with one (a keyword that the library does not know, a value
    that it refuses, a file that cannot be written); [fig_axes] is the
    axes of a figure with their labels, and [get_ylim] and [get_xlim] are
    the limits of an axes. [missing_attribute] is the exception with
    which the people object of the package, whose class is not among
    these sources, answers a name that it does not have. *)
Class Libs : Type := {
  get_sim_plots : to_plot_t;
  get_scen_plots : to_plot_t;
  makefilepath : string -> result string;
  gridcolors : nat -> list pyval;
  lib_error : list call -> call -> option exn;
  missing_attribute : string -> exn;
  fig_axes : list call -> nat -> list (nat * string);
  get_ylim : list call -> nat -> Q * Q;
  get_xlim : list call -> nat -> Q * Q
}.

(** *** The state of pylab and the monad of plotting code *)

(** Besides the figures, the axes and the calls made, the state holds the
    one dictionary that the plotting code modifies in place: the legend
    arguments that [title_grid_legend] works on, as that function has last
    left them. *)
Record pl_state : Type := {
  next_fig : nat;
  next_ax : nat;
  trace : list call;
  legend_dict : kwargs
}.

Definition M (A : Type) : Type := pl_state -> result A * pl_state.

Definition ret {A} (a : A) : M A := fun st => (Ok a, st).

Definition raise {A} (e : exn) : M A := fun st => (Raise e, st).

Definition bind {A B} (m : M A) (k : A -> M B) : M B :=
  fun st =>
    match m st with
    | (Ok a, st') => k a st'
    | (Raise e, st') => (Raise e, st')
    end.

Definition lift {A} (r : result A) : M A := fun st => (r, st).

Notation "x <- m ;; k" := (bind m (fun x => k))
  (at level 100, m at next level, right associativity).
Notation "m ;;; k" := (bind m (fun _ => k))
  (at level 100, right associativity).

Definition get_trace : M (list call) := fun st => (Ok (trace st), st).

(** An assignment to an entry of the legend dictionary, or the removal of
    one, leaves the dictionary [d]. *)
Definition set_legend_dict (d : kwargs) : M unit :=
  fun st => (Ok tt, {| next_fig := next_fig st; next_ax := next_ax st;
                       trace := trace st; legend_dict := d |}).

(** [f(..., key=value, **kw)]: Python evaluates the arguments and refuses
    the call when [kw] repeats a keyword that is given by name. *)
Definition no_repeat (given : list string) (kw : kwargs) : M unit :=
  if forallb (fun key => bool_decide (kw !! key = None)) given
  then ret tt else raise TypeError.

Definition when (b : bool) (m : M unit) : M unit := if b then m else ret tt.

(** [for x in l: s = body(s, x)] *)
Fixpoint for_each {A S} (body : S -> A -> M S) (l : list A) (s : S) : M S :=
  match l with
  | [] => ret s
  | x :: l' => s' <- body s x ;; for_each body l' s'
  end.

(** The state after one more call. *)
Definition called (c : call) (st : pl_state) : pl_state :=
  {| next_fig := next_fig st; next_ax := next_ax st; trace := c :: trace st;
     legend_dict := legend_dict st |}.

Section calls.
Context `{Libs}.

(** What a call into a library returns: its value, unless the library
    raises. *)
Definition answer {A} (tr : list call) (c : call) (a : A) : result A :=
  match lib_error tr c with
  | Some e => Raise e
  | None => Ok a
  end.

(** A call into a library, made for its effect. *)
Definition emit (c : call) : M unit :=
  fun st => (answer (trace st) c tt, called c st).

(** [pl.figure] with keyword arguments [kw]: a new figure. *)
Definition pl_figure (kw : kwargs) : M nat :=
  fun st =>
    let f := next_fig st in
    (answer (trace st) (Figure kw f) f,
     {| next_fig := S f; next_ax := next_ax st; trace := Figure kw f :: trace st;
        legend_dict := legend_dict st |}).

(** [pl.subplot(...)]: a new axes. *)
Definition pl_subplot (pos : subplot_pos) (sharex : option nat) (label : string) : M nat :=
  fun st =>
    let a := next_ax st in
    (answer (trace st) (Subplot pos sharex label a) a,
     {| next_fig := next_fig st; next_ax := S a; trace := Subplot pos sharex label a :: trace st;
        legend_dict := legend_dict st |}).

End calls.

(** [d[key]] on a dictionary. *)
Definition dict_get {V} (d : gmap string V) (key : string) : result V :=
  match d !! key with
  | Some v => Ok v
  | None => Raise (KeyError key)
  end.

(** Attribute access on an entry of [sim.results]. *)
Definition attr {A} (field : Result -> A) (attr_name : string) (e : res_entry) : result A :=
  match e with
  | Series r => Ok (field r)
  | Vector _ => Raise (AttributeError attr_name)
  end.


(** *** Plotting helper functions *)

Section helpers.
Context `{Libs}.

(** [sc.mergedicts(defaults, user)]: later dictionaries win, [None] is
    skipped. *)
Definition mergedicts (defaults : kwargs) (user : option kwargs) : kwargs :=
  match user with
  | None => defaults
  | Some u => u ∪ defaults
  end.

Record args_t : Type := {
  args_fig : kwargs;
  args_plot : kwargs;
  args_scatter : kwargs;
  args_axis : kwargs;
  args_fill : kwargs;
  args_legend : kwargs
}.

Definition default_axis_args : kwargs :=
  <["left" := PFloat (10 # 100)]> (<["bottom" := PFloat (5 # 100)]> (
  <["right" := PFloat (95 # 100)]> (<["top" := PFloat (97 # 100)]> (
  <["wspace" := PFloat (25 # 100)]> (<["hspace" := PFloat (25 # 100)]> ∅))))).

Definition handle_args (fig_args plot_args scatter_args axis_args fill_args legend_args : option kwargs) : args_t :=
  {| args_fig := mergedicts (<["figsize" := PTuple (PInt 16) (PInt 14)]> ∅) fig_args;
     args_plot := mergedicts (<["lw" := PInt 3]> (<["alpha" := PFloat (7 # 10)]> ∅)) plot_args;
     args_scatter := mergedicts (<["s" := PInt 70]> (<["marker" := PStr "s"]> ∅)) scatter_args;
     args_axis := mergedicts default_axis_args axis_args;
     args_fill := mergedicts (<["alpha" := PFloat (2 # 10)]> ∅) fill_args;
     args_legend := mergedicts (<["loc" := PStr "best"]> ∅) legend_args |}.

Definition which_msg (which : string) : string :=
  dquote +:+ "which" +:+ dquote +:+ " must be " +:+ dquote +:+ "sim" +:+ dquote
  +:+ " or " +:+ dquote +:+ "scens" +:+ dquote +:+ ", not " +:+ dquote +:+ which +:+ dquote.

(** [sc.dcp]: a deep copy has the value of the original. *)
Definition dcp (to_plot : to_plot_t) : to_plot_t := to_plot.

(** [sc.odict]: the ordered dictionary with the items of the argument. *)
Definition odict (to_plot : to_plot_t) : to_plot_t := to_plot.

(** [np.ceil]: the result is a float again. *)
Definition np_ceil (q : Q) : Q := inject_Z (Qceiling q).

Definition handle_to_plot (which : string) (to_plot : option to_plot_t) (n_cols : Z)
  : result (to_plot_t * Q) :=
  rbind (match to_plot with
         | None =>
             if String.eqb which "sim" then Ok get_sim_plots
             else if String.eqb which "scens" then Ok get_scen_plots
             else Raise (NotImplementedError (which_msg which))
         | Some tp => Ok tp
         end) (fun to_plot =>
  let to_plot := odict (dcp to_plot) in
  rbind (truediv (Z.of_nat (length to_plot)) n_cols) (fun q =>
  let n_rows := np_ceil q in
  Ok (to_plot, n_rows))).

Definition create_figs (args : args_t) (font_size : pyval) (font_family : pyval)
    (sep_figs : bool) (fig : option nat)
  : M (option nat * option (list nat) * option nat) :=
  ff <-
    (if sep_figs then ret (None, Some [])
     else
       fig <- match fig with
              | None => f <- pl_figure (args_fig args) ;; ret (Some f)
              | Some f => ret (Some f)
              end ;;
       ret (fig, None)) ;;
  emit (SubplotsAdjust (args_axis args)) ;;;
  emit (RcParam "font.size" font_size) ;;;
  when (truthy font_family) (emit (RcParam "font.family" font_family)) ;;;
  let '(fig, figs) := ff in
  ret (fig, figs, None).

(** The value of the [log_scale] argument: a flag, or a list of the titles
    of the panels to put on a logarithmic scale. *)
Inductive log_scale_t : Type :=
| LogFlag (b : bool)
| LogList (titles : list string).

Definition ax_label (pnum : nat) : string := "ax" +:+ str_of_Z (Z.of_nat pnum + 1).

(** The search for an axes of [fig] that carries the label; any failure
    inside it (such as [fig] being [None]) is swallowed. *)
Definition find_axes (tr : list call) (fig : option nat) (label : string) : option nat :=
  match fig with
  | None => None
  | Some f => fst <$> List.find (fun al => String.eqb (snd al) label) (fig_axes tr f)
  end.

Definition create_subplots (figs : option (list nat)) (fig : option nat) (shareax : option nat)
    (n_rows : Q) (n_cols : Z) (pnum : nat) (fig_args : kwargs) (sep_figs : bool)
    (log_scale : log_scale_t) (title : string)
  : M (nat * option (list nat)) :=
  let label := ax_label pnum in
  tr <- get_trace ;;
  let ax := find_axes tr fig label in
  af <-
    (if sep_figs then
       match figs with
       | None => raise (AttributeError "append")
       | Some fs =>
           f <- pl_figure fig_args ;;
           let figs := Some (fs ++ [f]) in
           match ax with
           | None => a <- pl_subplot (CodePos 111) None label ;; ret (a, figs)
           | Some a => ret (a, figs)
           end
       end
     else
       match ax with
       | None => a <- pl_subplot (GridPos (PFloat n_rows) n_cols (Z.of_nat pnum + 1)) shareax label ;; ret (a, figs)
       | Some a => ret (a, figs)
       end) ;;
  let '(ax, figs) := af in
  match log_scale with
  | LogList titles =>
      when (match titles with [] => false | _ => true end)
        (when (existsb (String.eqb title) titles) (emit (SetYscale ax "log")))
  | LogFlag b => when b (emit (SetYscale ax "log"))
  end ;;;
  ret (ax, figs).

Definition plot_data (sim : sim_t) (key : string) (scatter_args : kwargs) : M unit :=
  match data sim with
  | None => ret tt
  | Some d =>
      match columns d !! key with
      | None => ret tt
      | Some col =>
          match col with
          | [] => ret tt
          | _ =>
              e <- lift (dict_get (results sim) key) ;;
              this_color <- lift (attr color "color" e) ;;
              let data_t := map (fun day => day - start_day sim) (index d) in
              no_repeat ["c"] scatter_args ;;;
              emit (Scatter data_t col this_color scatter_args) ;;;
              no_repeat ["c"; "label"] scatter_args ;;;
              emit (ScatterLegend "Data" scatter_args)
          end
      end
  end.

Definition plot_interventions (sim : sim_t) (ax : nat) : M unit :=
  for_each (fun _ i => emit (InterventionPlot i ax)) (interventions sim) tt.

(** The dictionary [legend_args] is modified in place: the function gets
    the dictionary as it is at the call and returns it as it is at the
    return, and [legend_dict] follows what the [pop] and the assignment
    make of it, so that it is the dictionary of the caller also when the
    call ends with an exception. *)
Definition title_grid_legend (ax : nat) (title : string) (grid commaticks setylim : bool)
    (legend_args : kwargs) (show_legend : pyval) : M kwargs :=
  let '(show_legend, popped, legend_args) :=
    match legend_args !! "show_legend" with
    | Some v => (v, true, delete "show_legend" legend_args)
    | None => (show_legend, false, legend_args)
    end in
  set_legend_dict legend_args ;;;
  when (truthy show_legend) (emit (Legend ax legend_args)) ;;;
  let legend_args :=
    if popped then <["show_legend" := show_legend]> legend_args else legend_args in
  set_legend_dict legend_args ;;;
  emit (SetTitle ax title) ;;;
  emit (Grid ax grid) ;;;
  when setylim (emit (SetYlimBottom ax 0)) ;;;
  (if commaticks then
     tr <- get_trace ;;
     let ylims := get_ylim tr ax in
     when (Qle_bool 1000 (snd ylims)) (emit Commaticks)
   else ret tt) ;;;
  ret legend_args.

Definition reset_ticks (ax : nat) (sim : sim_t) (interval : pyval) (as_dates : bool) : M unit :=
  (if truthy interval then
     tr <- get_trace ;;
     let '(xmin, xmax) := get_xlim tr ax in
     emit (SetXticks ax xmin (xmax + 1)%Q interval)
   else ret tt) ;;;
  (if as_dates then
     emit (SetDateFormatter ax (start_day sim)) ;;;
     when (negb (truthy interval)) (emit (SetIntegerLocator ax))
   else ret tt).

(** What a plotting entry point hands back: the figure, or the list of
    figures. *)
Inductive fig_result : Type :=
| OneFig (fig : option nat)
| ManyFigs (figs : option (list nat)).

Definition tidy_up (fig : option nat) (figs : option (list nat)) (sep_figs : bool)
    (do_save : pyval) (fig_path : option string) (do_show : bool) (default_name : string)
  : M fig_result :=
  (if truthy do_save then
     let fig_path :=
       match fig_path with
       | None => default_name
       | Some p => p
       end in
     fig_path <- lift (makefilepath fig_path) ;;
     emit (SaveFig fig_path)
   else ret tt) ;;;
  (if do_show then emit Show else emit (Close fig)) ;;;
  if sep_figs then ret (ManyFigs figs) else ret (OneFig fig).

End helpers.


(** *** Core plotting functions *)

(** The keyword arguments of [plot_sim], [plot_scens] and [plot_result]
    ([color_kw] and [label_kw] stand for the [color] and [label] arguments
    of [plot_result]). *)
Record plot_kw : Type := {
  to_plot : option to_plot_t;
  do_save : pyval;
  fig_path : option string;
  fig_args : option kwargs;
  plot_args : option kwargs;
  scatter_args : option kwargs;
  axis_args : option kwargs;
  fill_args : option kwargs;
  legend_args : option kwargs;
  as_dates : bool;
  dateformat : pyval;
  interval : pyval;
  n_cols : Z;
  font_size : pyval;
  font_family : pyval;
  grid : bool;
  commaticks : bool;
  setylim : bool;
  log_scale : log_scale_t;
  colors : option (gmap string pyval);
  labels : option (gmap string string);
  color_kw : option pyval;
  label_kw : option string;
  do_show : bool;
  sep_figs : bool;
  fig : option nat
}.

(** The defaults of the signatures. *)
Definition default_kw : plot_kw :=
  {| to_plot := None; do_save := PNone; fig_path := None;
     fig_args := None; plot_args := None; scatter_args := None;
     axis_args := None; fill_args := None; legend_args := None;
     as_dates := true; dateformat := PNone; interval := PNone; n_cols := 1;
     font_size := PInt 18; font_family := PNone; grid := false;
     commaticks := true; setylim := true; log_scale := LogFlag false;
     colors := None; labels := None; color_kw := None; label_kw := None;
     do_show := true; sep_figs := false; fig := None |}.

Section core.
Context `{Libs}.

(** The loop variables of the panel loop: the current axes, the list of
    figures, and the legend dictionary (which [title_grid_legend]
    modifies in place). *)
Definition panel_state : Type := option nat * option (list nat) * kwargs.

(** The body of [for reskey in keylabels] in [plot_sim]. *)
Definition plot_sim_key (sim : sim_t) (kw : plot_kw) (args : args_t) (ax : nat)
    (_ : unit) (reskey : string) : M unit :=
  res <- lift (dict_get (results sim) reskey) ;;
  res_t <- lift (dict_get (results sim) "t") ;;
  color <- match colors kw with
           | Some cs => lift (dict_get cs reskey)
           | None => lift (attr color "color" res)
           end ;;
  label <- match labels kw with
           | Some ls => lift (dict_get ls reskey)
           | None => lift (attr name "name" res)
           end ;;
  lo <- lift (attr low "low" res) ;;
  match lo with
  | None => ret tt
  | Some lo =>
      hi <- lift (attr high "high" res) ;;
      match hi with
      | None => ret tt
      | Some hi =>
          no_repeat ["color"] (args_fill args) ;;;
          emit (FillBetween ax res_t lo hi color (args_fill args))
      end
  end ;;;
  vals <- lift (attr values "values" res) ;;
  no_repeat ["label"; "c"] (args_plot args) ;;;
  emit (Plot ax res_t vals label color (args_plot args)) ;;;
  plot_data sim reskey (args_scatter args) ;;;
  reset_ticks ax sim (interval kw) (as_dates kw).

(** The body of the panel loop of [plot_sim]. *)
Definition plot_sim_panel (sim : sim_t) (kw : plot_kw) (args : args_t) (fig : option nat)
    (n_rows : Q) (s : panel_state) (item : nat * (string * list string)) : M panel_state :=
  let '(ax, figs, legend) := s in
  let '(pnum, (title, keylabels)) := item in
  af <- create_subplots figs fig ax n_rows (n_cols kw) pnum (args_fig args)
          (sep_figs kw) (log_scale kw) title ;;
  let '(ax, figs) := af in
  for_each (plot_sim_key sim kw args ax) keylabels tt ;;;
  plot_interventions sim ax ;;;
  legend <- title_grid_legend ax title (grid kw) (commaticks kw) (setylim kw) legend (PBool true) ;;
  ret (Some ax, figs, legend).

Definition plot_sim (sim : sim_t) (kw : plot_kw) : M fig_result :=
  let args := handle_args (fig_args kw) (plot_args kw) (scatter_args kw)
                (axis_args kw) (fill_args kw) (legend_args kw) in
  tn <- lift (handle_to_plot "sim" (to_plot kw) (n_cols kw)) ;;
  let '(to_plot, n_rows) := tn in
  ffa <- create_figs args (font_size kw) (font_family kw) (sep_figs kw) (fig kw) ;;
  let '(fig, figs, ax) := ffa in
  s <- for_each (plot_sim_panel sim kw args fig n_rows) (enumerate to_plot)
         (ax, figs, args_legend args) ;;
  let '(_, figs, _) := s in
  tidy_up fig figs (sep_figs kw) (do_save kw) (fig_path kw) (do_show kw) "covasim.png".

(** The body of [for snum,scenkey,scendata in resdata.enumitems()]. *)
Definition plot_scens_scen (scens : scens_t) (kw : plot_kw) (args : args_t)
    (default_colors : list pyval) (ax : nat) (reskey : string)
    (_ : unit) (item : nat * (string * scendata_t)) : M unit :=
  let '(snum, (scenkey, scendata)) := item in
  scen_sims <- lift (dict_get (sims scens) scenkey) ;;
  sim <- lift (getitem scen_sims 0) ;;
  let res_y := best scendata in
  color <- match colors kw with
           | Some cs => lift (dict_get cs scenkey)
           | None => lift (getitem default_colors snum)
           end ;;
  label <- match labels kw with
           | Some ls => lift (dict_get ls scenkey)
           | None => ret (scen_name scendata)
           end ;;
  no_repeat ["color"] (args_fill args) ;;;
  emit (ScenFillBetween ax (tvec scens) (scen_low scendata) (scen_high scendata) color (args_fill args)) ;;;
  no_repeat ["label"; "c"] (args_plot args) ;;;
  emit (ScenPlot ax (tvec scens) res_y label color (args_plot args)) ;;;
  plot_data sim reskey (args_scatter args) ;;;
  plot_interventions sim ax ;;;
  reset_ticks ax sim (interval kw) (as_dates kw).

(** The body of [for reskey in reskeys] in [plot_scens]. *)
Definition plot_scens_key (scens : scens_t) (kw : plot_kw) (args : args_t)
    (default_colors : list pyval) (ax : nat) (_ : unit) (reskey : string) : M unit :=
  resdata <- lift (dict_get (scen_results scens) reskey) ;;
  for_each (plot_scens_scen scens kw args default_colors ax reskey) (enumerate resdata) tt.

(** The body of the panel loop of [plot_scens]. *)
Definition plot_scens_panel (scens : scens_t) (kw : plot_kw) (args : args_t)
    (default_colors : list pyval) (fig : option nat) (n_rows : Q)
    (s : panel_state) (item : nat * (string * list string)) : M panel_state :=
  let '(ax, figs, legend) := s in
  let '(pnum, (title, reskeys)) := item in
  af <- create_subplots figs fig ax n_rows (n_cols kw) pnum (args_fig args)
          (sep_figs kw) (log_scale kw) title ;;
  let '(ax, figs) := af in
  for_each (plot_scens_key scens kw args default_colors ax) reskeys tt ;;;
  legend <- title_grid_legend ax title (grid kw) (commaticks kw) (setylim kw) legend
              (PBool (Nat.eqb pnum 0)) ;;
  ret (Some ax, figs, legend).

Definition plot_scens (scens : scens_t) (kw : plot_kw) : M fig_result :=
  let args := handle_args (fig_args kw) (plot_args kw) (scatter_args kw)
                (axis_args kw) (fill_args kw) (legend_args kw) in
  tn <- lift (handle_to_plot "scens" (to_plot kw) (n_cols kw)) ;;
  let '(to_plot, n_rows) := tn in
  ffa <- create_figs args (font_size kw) (font_family kw) (sep_figs kw) (fig kw) ;;
  let '(fig, figs, ax) := ffa in
  let default_colors := gridcolors (size (sims scens)) in
  s <- for_each (plot_scens_panel scens kw args default_colors fig n_rows) (enumerate to_plot)
         (ax, figs, args_legend args) ;;
  let '(_, figs, _) := s in
  tidy_up fig figs (sep_figs kw) (do_save kw) (fig_path kw) (do_show kw) "covasim_scenarios.png".

(** The reuse of the first axes of the figure in [plot_result], when it
    carries the label; any failure inside is swallowed. *)
Definition reuse_axes (tr : list call) (fig : option nat) (ax : option nat) : option nat :=
  match fig with
  | None => ax
  | Some f =>
      match fig_axes tr f with
      | (a, lbl) :: _ => if String.eqb lbl "plot_result" then Some a else ax
      | [] => ax
      end
  end.

Definition plot_result (sim : sim_t) (key : string) (kw : plot_kw) : M (option nat) :=
  let fig_args := mergedicts (<["figsize" := PTuple (PInt 16) (PInt 8)]> ∅) (fig_args kw) in
  let axis_args := mergedicts (<["top" := PFloat (95 # 100)]> ∅) (axis_args kw) in
  let args := handle_args (Some fig_args) (plot_args kw) (scatter_args kw) (Some axis_args) None None in
  ffa <- create_figs args (font_size kw) (font_family kw) false (fig kw) ;;
  let '(fig, figs, ax) := ffa in
  res <- lift (dict_get (results sim) key) ;;
  res_t <- lift (dict_get (results sim) "t") ;;
  res_y <- lift (attr values "values" res) ;;
  color <- match color_kw kw with
           | None => lift (attr color "color" res)
           | Some c => ret c
           end ;;
  tr <- get_trace ;;
  let ax := reuse_axes tr fig ax in
  ax <- match ax with
        | None => pl_subplot (CodePos 111) None "plot_result"
        | Some a => ret a
        end ;;
  label <- match label_kw kw with
           | None => lift (attr name "name" res)
           | Some l => ret l
           end ;;
  no_repeat ["c"; "label"] (args_plot args) ;;;
  emit (Plot ax res_t res_y label color (args_plot args)) ;;;
  plot_data sim key (args_scatter args) ;;;
  plot_interventions sim ax ;;;
  res_name <- lift (attr name "name" res) ;;
  title_grid_legend ax res_name (grid kw) (commaticks kw) (setylim kw) (args_legend args) (PBool true) ;;;
  reset_ticks ax sim (interval kw) (as_dates kw) ;;;
  ret fig.


(** *** Transmission tree *)

(** The names bound at module level: the imports and the definitions of
    [plotting.py]. *)
Definition module_globals : list string :=
  ["np"; "pl"; "sc"; "dt"; "ticker"; "go"; "cvd";
   "handle_args"; "handle_to_plot"; "create_figs"; "create_subplots"; "plot_data";
   "plot_interventions"; "title_grid_legend"; "reset_ticks"; "tidy_up";
   "plot_sim"; "plot_scens"; "plot_result"; "plot_compare"; "plot_transtree";
   "animate_transtree"; "get_individual_states"; "plotly_legend"; "plotly_sim";
   "plotly_people"; "plotly_animate"].

(** The lookup of a module-level name that a function body refers to. *)
Definition global_name (name : string) : M unit :=
  if existsb (String.eqb name) module_globals then ret tt else raise (NameError name).

(** The flags of a person that the transmission tree records. *)
Record person_flags : Type := {
  is_asymp : bool;
  is_presymp : bool;
  is_severe : bool;
  is_critical : bool;
  is_diagnosed : bool;
  is_quarantined : bool
}.

(** An entry of the detailed transmission tree; [tt_source] is [None] for
    a seed infection, and the source and target records are [tt_s] and
    [tt_t]. *)
Record tt_entry : Type := {
  tt_date : Z;
  tt_layer : string;
  tt_source : pyval;
  tt_s : person_flags;
  tt_t : person_flags
}.

Record tdict : Type := {
  td_date : Z;
  td_layer : string;
  s_asymp : bool;
  s_presymp : bool;
  s_sev : bool;
  s_crit : bool;
  s_diag : bool;
  s_quar : bool;
  t_quar : bool
}.

Definition make_tdict (entry : tt_entry) : tdict :=
  {| td_date := tt_date entry;
     td_layer := tt_layer entry;
     s_asymp := is_asymp (tt_s entry);
     s_presymp := is_presymp (tt_s entry);
     s_sev := is_severe (tt_s entry);
     s_crit := is_critical (tt_s entry);
     s_diag := is_diagnosed (tt_s entry);
     s_quar := is_quarantined (tt_s entry);
     t_quar := is_quarantined (tt_t entry) |}.

(** [for entry in self.detailed: if entry and entry.source: ...] *)
Definition make_ttlist (detailed : list (option tt_entry)) : list tdict :=
  flat_map (fun oe =>
              match oe with
              | Some entry => if truthy (tt_source entry) then [make_tdict entry] else []
              | None => []
              end) detailed.

Definition stage (d : tdict) : string :=
  if s_presymp d then "Presymptomatic"
  else if s_asymp d then "Asymptomatic"
  else "Symptomatic".

Definition severity (d : tdict) : string :=
  if s_crit d then "Critical"
  else if s_sev d then "Severe"
  else "Mild".

(** The column of the frame that a panel of [plot_transtree] groups by. *)
Definition frame_column (key : string) (d : tdict) : pyval :=
  if String.eqb key "layer" then PStr (td_layer d)
  else if String.eqb key "Stage" then PStr (stage d)
  else if String.eqb key "s_diag" then PBool (s_diag d)
  else if String.eqb key "s_quar" then PBool (s_quar d)
  else if String.eqb key "t_quar" then PBool (t_quar d)
  else PStr (severity d).

Definition transtree_panels : list (string * string) :=
  [("layer", "Layer"); ("Stage", "Source stage"); ("s_diag", "Source diagnosed");
   ("s_quar", "Source quarantined"); ("t_quar", "Target quarantined");
   ("Severity", "Symptomatic source severity")].

Definition detailed_msg : string :=
  "Please run sim.people.make_detailed_transtree() before calling plotting".

(** [self.detailed] is the only attribute of the receiver that is read. *)
Definition plot_transtree (detailed : option (list (option tt_entry))) : M nat :=
  match detailed with
  | None => raise (ValueError detailed_msg)
  | Some entries =>
      let ttlist := make_ttlist entries in
      global_name "pd" ;;;
      let df := filter (fun d => negb (String.eqb (td_layer d) "seed_infection")) ttlist in
      fig <- pl_figure (<["figsize" := PTuple (PInt 16) (PInt 10)]> ∅) ;;
      for_each (fun _ (item : nat * (string * string)) =>
                  let '(i, (key, title)) := item in
                  let dat := map (fun d => (td_date d, frame_column key d)) df in
                  ax <- pl_subplot (GridPos (PInt 2) 3 (Z.of_nat i + 1)) None "" ;;
                  emit (FramePlot key dat ax) ;;;
                  emit PlLegend ;;;
                  emit (SetTitle ax title))
        (enumerate transtree_panels) tt ;;;
      ret fig
  end.

End core.

(** *** Plotly functions *)

Record state_t : Type := {
  state_name : string;
  quantity : option string;
  state_color : string;
  value : Z
}.

Definition states : list state_t :=
  [ {| state_name := "Healthy"; quantity := None; state_color := "#a6cee3"; value := 0 |};
    {| state_name := "Exposed"; quantity := Some "date_exposed"; state_color := "#ff7f00"; value := 2 |};
    {| state_name := "Infectious"; quantity := Some "date_infectious"; state_color := "#e33d3e"; value := 3 |};
    {| state_name := "Recovered"; quantity := Some "date_recovered"; state_color := "#3e89bc"; value := 4 |};
    {| state_name := "Dead"; quantity := Some "date_dead"; state_color := "#000000"; value := 5 |} ].

(** [row[start:] = v], with Python's reading of a negative start. *)
Definition set_from (start : Z) (v : Z) (row : list Z) : list Z :=
  let len := Z.of_nat (length row) in
  let start := if start <? 0 then Z.max 0 (len + start) else start in
  let k := Z.to_nat start in
  take k row ++ repeat v (length row - k).

(** [people.defined(date)]: the positions at which the date is defined. *)
Definition defined (dates : list (option Z)) : list (nat * Z) :=
  flat_map (fun id => match snd id with Some d => [(fst id, d)] | None => [] end)
    (enumerate dates).

(** [z[ind, int(d):] = v] *)
Definition mark_person (v : Z) (z : list (list Z)) (id : nat * Z) : result (list (list Z)) :=
  let '(ind, d) := id in
  match z !! ind with
  | Some row => Ok (<[ind := set_from d v row]> z)
  | None => Raise IndexError
  end.

Fixpoint rfold {A S} (body : S -> A -> result S) (l : list A) (s : S) : result S :=
  match l with
  | [] => Ok s
  | x :: l' => rbind (body s x) (rfold body l')
  end.

Section individual_states.
Context `{Libs}.

(** [people[key]], which [people.defined(key)] goes through as well. *)
Definition people_getitem (people : people_t) (key : string) : result (list (option Z)) :=
  match people !! key with
  | Some dates => Ok dates
  | None => Raise (missing_attribute key)
  end.

Definition get_individual_states (sim : sim_t) : result (list (list Z) * list state_t) :=
  let z := repeat (repeat 0 (npts sim)) (n sim) in
  rbind (rfold (fun z state =>
                  match quantity state with
                  | None => Ok z
                  | Some date =>
                      rbind (people_getitem (people sim) date) (fun dates =>
                      rfold (mark_person (value state)) (defined dates) z)
                  end) states z) (fun z =>
  Ok (z, states)).

End individual_states.

(** A trace, a line shape and an annotation of a Plotly figure. *)
Record go_trace : Type := {
  tr_x : list Q;
  tr_y : list Q;
  tr_name : string;
  tr_mode : option string;
  tr_color : pyval;
  tr_stackgroup : option string
}.

Record go_shape : Type := {
  sh_type : string;
  sh_xref : string;
  sh_yref : string;
  sh_x0 : Z;
  sh_x1 : Z;
  sh_y0 : Z;
  sh_y1 : Z;
  sh_name : string;
  sh_width : Q;
  sh_dash : string
}.

Record go_annotation : Type := {
  an_x : Z;
  an_y : Q;
  an_text : string
}.

Record go_figure : Type := {
  fig_traces : list go_trace;
  fig_shapes : list go_shape;
  fig_annotations : list go_annotation;
  fig_layout : kwargs
}.

(** [go.Figure()] *)
Definition go_Figure : go_figure :=
  {| fig_traces := []; fig_shapes := []; fig_annotations := []; fig_layout := ∅ |}.

Definition add_trace (fig : go_figure) (tr : go_trace) : go_figure :=
  {| fig_traces := fig_traces fig ++ [tr]; fig_shapes := fig_shapes fig;
     fig_annotations := fig_annotations fig; fig_layout := fig_layout fig |}.

Definition add_shape (fig : go_figure) (sh : go_shape) : go_figure :=
  {| fig_traces := fig_traces fig; fig_shapes := fig_shapes fig ++ [sh];
     fig_annotations := fig_annotations fig; fig_layout := fig_layout fig |}.

(** [fig.update_layout(annotations=...)] replaces the annotations. *)
Definition set_annotations (fig : go_figure) (ans : list go_annotation) : go_figure :=
  {| fig_traces := fig_traces fig; fig_shapes := fig_shapes fig;
     fig_annotations := ans; fig_layout := fig_layout fig |}.

Definition update_layout (fig : go_figure) (kw : kwargs) : go_figure :=
  {| fig_traces := fig_traces fig; fig_shapes := fig_shapes fig;
     fig_annotations := fig_annotations fig; fig_layout := kw ∪ fig_layout fig |}.

Definition plotly_legend : kwargs :=
  <["legend_orientation" := PStr "h"]> (<["legend" := PTuple (PFloat 0) (PFloat (118 # 100))]> ∅).

(** The vertical line drawn at an intervention day. *)
Definition marker_shape (interv_day : Z) : go_shape :=
  {| sh_type := "line"; sh_xref := "x"; sh_yref := "paper";
     sh_x0 := interv_day; sh_x1 := interv_day; sh_y0 := 0; sh_y1 := 1;
     sh_name := "Intervention"; sh_width := 5 # 10; sh_dash := "dash" |}.

Definition marker_annotation (interv_day : Z) : go_annotation :=
  {| an_x := interv_day; an_y := 107 # 100; an_text := "Intervention change" |}.

(** The body of [for interv_day in interv.days]. *)
Definition mark_day (n_days : Z) (fig : go_figure) (interv_day : Z) : go_figure :=
  if (interv_day >? 0) && (interv_day <? n_days)
  then set_annotations (add_shape fig (marker_shape interv_day)) [marker_annotation interv_day]
  else fig.

(** The intervention loop of [plotly_sim]. *)
Definition sim_markers (sim : sim_t) (fig : go_figure) : go_figure :=
  match interventions sim with
  | [] => fig
  | _ =>
      fold_left (fun fig interv =>
                   match days interv with
                   | Some ds => fold_left (mark_day (n_days sim)) ds fig
                   | None => fig
                   end) (interventions sim) fig
  end.

(** The intervention loop of [plotly_people]. *)
Definition people_markers (sim : sim_t) (fig : go_figure) : go_figure :=
  match interventions sim with
  | [] => fig
  | _ =>
      fold_left (fun fig interv =>
                   match days interv with
                   | Some ds =>
                       if do_plot interv then fold_left (mark_day (n_days sim)) ds fig else fig
                   | None => fig
                   end) (interventions sim) fig
  end.

(** [e[:]] on an entry of [sim.results]. *)
Definition slice_all (e : res_entry) : list Q :=
  match e with
  | Series r => values r
  | Vector v => v
  end.

Section plotly.
Context `{Libs}.

(** The body of [for key in keylabels] in [plotly_sim]. *)
Definition plotly_sim_key (sim : sim_t) (fig : go_figure) (key : string) : result go_figure :=
  rbind (dict_get (results sim) key) (fun e =>
  rbind (attr name "name" e) (fun label =>
  rbind (attr color "color" e) (fun this_color =>
  rbind (dict_get (results sim) "date") (fun date =>
  let x := slice_all date in
  let y := slice_all e in
  let fig := add_trace fig {| tr_x := x; tr_y := y; tr_name := label; tr_mode := Some "lines";
                              tr_color := this_color; tr_stackgroup := None |} in
  match data sim with
  | None => Ok fig
  | Some d =>
      match columns d !! key with
      | None => Ok fig
      | Some ydata =>
          rbind (dict_get (columns d) "date") (fun xdata =>
          Ok (add_trace fig {| tr_x := xdata; tr_y := ydata; tr_name := label +:+ " (data)";
                               tr_mode := Some "markers"; tr_color := this_color;
                               tr_stackgroup := None |}))
      end
  end)))).

(** The body of the panel loop of [plotly_sim]. *)
Definition plotly_sim_panel (sim : sim_t) (plots : list go_figure)
    (item : string * list string) : result (list go_figure) :=
  let '(title, keylabels) := item in
  let fig := go_Figure in
  rbind (rfold (plotly_sim_key sim) keylabels fig) (fun fig =>
  let fig := sim_markers sim fig in
  let fig := update_layout fig
               (<["title" := PStr title]> (<["yaxis_title" := PStr "Count"]> (
                <["autosize" := PBool true]> plotly_legend))) in
  Ok (plots ++ [fig])).

Definition plotly_sim (sim : sim_t) : result (list go_figure) :=
  let to_plot := get_sim_plots in
  rfold (plotly_sim_panel sim) to_plot [].

(** [(z == v).sum(axis=0)] *)
Definition count_state (z : list (list Z)) (ncols : nat) (v : Z) : list Q :=
  map (fun j => inject_Z (Z.of_nat (length (filter (fun row => row !! j = Some v) z))))
    (seq 0 ncols).

(** The result is the figure, and whether it was shown. *)
Definition plotly_people (sim : sim_t) (do_show : bool) : result (go_figure * bool) :=
  rbind (get_individual_states sim) (fun zs =>
  let '(z, states) := zs in
  let fig := go_Figure in
  rbind (rfold (fun fig state =>
                  rbind (dict_get (results sim) "date") (fun date =>
                  let x := slice_all date in
                  let y := count_state z (npts sim) (value state) in
                  Ok (add_trace fig {| tr_x := x; tr_y := y; tr_name := state_name state;
                                       tr_mode := None; tr_color := PStr (state_color state);
                                       tr_stackgroup := Some "one" |})))
           (rev states) fig) (fun fig =>
  let fig := people_markers sim fig in
  let fig := update_layout fig (<["yaxis_range" := PTuple (PInt 0) (PInt (Z.of_nat (n sim)))]> ∅) in
  let fig := update_layout fig
               (<["title" := PStr "Numbers of people by health state"]> (
                <["yaxis_title" := PStr "People"]> (<["autosize" := PBool true]> plotly_legend))) in
  Ok (fig, do_show))).

End plotly.

End plotting.

(** ** Notions used by the statements *)

Module statements.
Import plotting.

Section with_libs.
Context `{Libs}.

(** The panels that [plot_sim] draws: the supplied ones, or the default
    table. *)
Definition sim_to_plot (kw : plot_kw) : to_plot_t :=
  match to_plot kw with
  | Some tp => tp
  | None => get_sim_plots
  end.

(** The panels that [plot_scens] draws. *)
Definition scens_to_plot (kw : plot_kw) : to_plot_t :=
  match to_plot kw with
  | Some tp => tp
  | None => get_scen_plots
  end.

(** A result key that [plot_sim] can draw: a series of [sim.results], next
    to a time vector, with a colour and a label when the caller supplies
    colours and labels. *)
Definition sim_key_ok (sim : sim_t) (kw : plot_kw) (key : string) : Prop :=
  (exists r, results sim !! key = Some (Series r))
  /\ is_Some (results sim !! "t")
  /\ (forall cs, colors kw = Some cs -> is_Some (cs !! key))
  /\ (forall ls, labels kw = Some ls -> is_Some (ls !! key)).

(** Data can be overlaid for a key: when the data frame has a non-empty
    column of that name, the key is a series of [sim.results]. *)
Definition data_ok (sim : sim_t) (key : string) : Prop :=
  forall d col, data sim = Some d -> columns d !! key = Some col -> col <> [] ->
    exists r, results sim !! key = Some (Series r).

(** A result key that [plot_scens] can draw: every scenario of the key has
    a first simulation, a colour and a label. *)
Definition scens_key_ok (scens : scens_t) (kw : plot_kw) (key : string) : Prop :=
  exists resdata,
    scen_results scens !! key = Some resdata
    /\ forall snum scenkey sd, resdata !! snum = Some (scenkey, sd) ->
         (exists sim rest, sims scens !! scenkey = Some (sim :: rest) /\ data_ok sim key)
         /\ match colors kw with
            | Some cs => is_Some (cs !! scenkey)
            | None => is_Some (gridcolors (size (sims scens)) !! snum)
            end
         /\ (forall ls, labels kw = Some ls -> is_Some (ls !! scenkey)).

(** The charting libraries carry out every call: none ends with an
    exception. *)
Definition lib_accepts : Prop := forall tr c, lib_error tr c = None.

(** What [tidy_up] has saved when it returns: nothing if saving is not
    asked for, and else the figure under the path that [makefilepath]
    has made of the supplied name, or of the default one. *)
Definition saved_as (do_save : pyval) (fig_path : option string) (default_name : string)
    (saved : list call) : Prop :=
  if truthy do_save
  then exists p, makefilepath (match fig_path with
                               | None => default_name
                               | Some p => p
                               end) = Ok p
                 /\ saved = [SaveFig p]
  else saved = [].

(** Sciris makes every path valid. *)
Definition paths_accepted : Prop := forall name, exists p, makefilepath name = Ok p.

(** A dictionary of the caller, if given, has no entry for the key. *)
Definition lacks (d : option kwargs) (key : string) : Prop :=
  forall u, d = Some u -> u !! key = None.

(** The dictionaries of the caller repeat none of the keywords that the
    plotting functions pass by name to [ax.plot], [ax.fill_between] and
    [pl.scatter]. *)
Definition kw_distinct (kw : plot_kw) : Prop :=
  lacks (plot_args kw) "label" /\ lacks (plot_args kw) "c"
  /\ lacks (fill_args kw) "color"
  /\ lacks (scatter_args kw) "c" /\ lacks (scatter_args kw) "label".

(** The merged dictionaries repeat none of those keywords. *)
Definition args_distinct (args : args_t) : Prop :=
  args_plot args !! "label" = None /\ args_plot args !! "c" = None
  /\ args_fill args !! "color" = None
  /\ args_scatter args !! "c" = None /\ args_scatter args !! "label" = None.

(** The grid of [panels] panels in [n_cols] columns can be computed: at
    least one column, and both numbers in the range in which the float
    division of [handle_to_plot] tells the integers apart. *)
Definition grid_ok (n_cols : Z) (panels : nat) : Prop :=
  0 < n_cols <= 2 ^ 1074 /\ Z.of_nat panels < 2 ^ 53.

(** Nothing stands in the way of the drawing: the libraries carry out
    every call, no keyword is repeated, the grid can be computed, and
    every key of every panel can be drawn. *)
Definition sim_plots_ok (sim : sim_t) (kw : plot_kw) : Prop :=
  lib_accepts /\ kw_distinct kw
  /\ grid_ok (n_cols kw) (length (sim_to_plot kw))
  /\ Forall (fun item : string * list string => Forall (sim_key_ok sim kw) (snd item))
       (sim_to_plot kw).

Definition scens_plots_ok (scens : scens_t) (kw : plot_kw) : Prop :=
  lib_accepts /\ kw_distinct kw
  /\ grid_ok (n_cols kw) (length (scens_to_plot kw))
  /\ Forall (fun item : string * list string => Forall (scens_key_ok scens kw) (snd item))
       (scens_to_plot kw).

(** What one scenario must offer for [plot_scens] to draw it at position
    [snum] of a result key. *)
Definition scen_ok (scens : scens_t) (kw : plot_kw) (key : string)
    (item : nat * (string * scendata_t)) : Prop :=
  (exists sim rest, sims scens !! fst (snd item) = Some (sim :: rest) /\ data_ok sim key)
  /\ match colors kw with
     | Some cs => is_Some (cs !! fst (snd item))
     | None => is_Some (gridcolors (size (sims scens)) !! fst item)
     end
  /\ (forall ls, labels kw = Some ls -> is_Some (ls !! fst (snd item))).

End with_libs.

(** A computation returns normally from a state, with a value and a final
    state that satisfy [P]. *)
Definition runs {A} (m : M A) (st : pl_state) (P : A -> pl_state -> Prop) : Prop :=
  exists a st', m st = (Ok a, st') /\ P a st'.

(** A computation raises [e] from a state. *)
Definition raises {A} (m : M A) (st : pl_state) (e : exn) : Prop :=
  exists st', m st = (Raise e, st').

(** Whenever a computation returns normally from a state, the value and
    the final state satisfy [P]. *)
Definition yields {A} (m : M A) (st : pl_state) (P : A -> pl_state -> Prop) : Prop :=
  forall a st', m st = (Ok a, st') -> P a st'.

(** Whatever the computation does from whatever state, and whether it
    returns or raises, it creates no figure. *)
Definition keeps_figs {A} (m : M A) : Prop :=
  forall st, next_fig (snd (m st)) = next_fig st.

(** What [plot_sim] and [plot_scens] are to hand back when they draw
    [panels] panels from the state [st]: with [sep_figs], the figures
    created one per panel; otherwise the figure of the caller, or the one
    created for the call. *)
Definition expected_figs (kw : plot_kw) (st : pl_state) (panels : nat) : fig_result :=
  if sep_figs kw then ManyFigs (Some (seq (next_fig st) panels))
  else OneFig (Some (match fig kw with
                     | Some f => f
                     | None => next_fig st
                     end)).

(** The list of figures after [count] more panels, the first of which
    gets the figure [first]; and the next free figure after them. *)
Definition grow (sep_figs : bool) (figs : option (list nat)) (first count : nat)
  : option (list nat) :=
  if sep_figs then (fun fs => fs ++ seq first count) <$> figs else figs.

Definition bump (sep_figs : bool) (first count : nat) : nat :=
  if sep_figs then (first + count)%nat else first.

(** The figure and the figures that the panel loops of [plot_sim] and
    [plot_scens] hand to [tidy_up]. *)
Definition body_fig (kw : plot_kw) (st : pl_state) : option nat :=
  if sep_figs kw then None
  else Some (match fig kw with Some f => f | None => next_fig st end).

Definition body_figs (kw : plot_kw) (st : pl_state) (panels : nat) : option (list nat) :=
  if sep_figs kw then Some (seq (next_fig st) panels) else None.

(** The days at which [plotly_sim] ([use_flag = false]) and
    [plotly_people] ([use_flag = true]) are to draw a marker, as the
    specification words it: the days of the interventions that have days
    (and, for [plotly_people], whose [do_plot] flag is set) that lie
    strictly between 0 and [n_days]. *)
Definition marker_days (use_flag : bool) (sim : sim_t) : list Z :=
  flat_map (fun interv =>
              match days interv with
              | Some ds =>
                  if use_flag && negb (do_plot interv) then []
                  else List.filter (fun d => (0 <? d) && (d <? n_days sim)) ds
              | None => []
              end) (interventions sim).

(** *** Concrete inputs *)

Definition demo_to_plot : to_plot_t :=
  [("Total counts", ["cum_infections"; "cum_deaths"]); ("Daily counts", ["new_infections"])].

(** A stand-in for the libraries: every path is valid as it is, no call
    raises, figures have no axes yet, and every axes spans the unit
    square. *)
Definition demo_libs : Libs :=
  {| get_sim_plots := demo_to_plot;
     get_scen_plots := [("Cumulative infections", ["cum_infections"])];
     makefilepath := fun p => Ok p;
     gridcolors := fun k => repeat (PStr "#000000") k;
     lib_error := fun _ _ => None;
     missing_attribute := AttributeError;
     fig_axes := fun _ _ => [];
     get_ylim := fun _ _ => (0, 1)%Q;
     get_xlim := fun _ _ => (0, 1)%Q |}.

Definition demo_series (nm : string) : res_entry :=
  Series {| name := nm; color := PStr "#e33d3e"; values := [1; 2; 4]%Q;
            low := None; high := None |}.

Definition demo_interventions : list intervention :=
  [ {| days := Some [0; 10; 30; 60]; do_plot := true |};
    {| days := Some [20]; do_plot := false |};
    {| days := None; do_plot := true |} ].

Definition demo_sim : sim_t :=
  {| results := <["cum_infections" := demo_series "Cumulative infections"]> (
                <["cum_deaths" := demo_series "Cumulative deaths"]> (
                <["new_infections" := demo_series "New infections"]> (
                <["t" := Vector [0; 1; 2]%Q]> (<["date" := Vector [0; 1; 2]%Q]> ∅))));
     data := None;
     start_day := 0;
     n_days := 60;
     interventions := demo_interventions;
     people := <["date_exposed" := [Some 0; None]]> (
               <["date_infectious" := [Some 1; None]]> (
               <["date_recovered" := [Some 2; None]]> (
               <["date_dead" := [None; None]]> ∅)));
     n := 2;
     npts := 3 |}.

Definition demo_scens : scens_t :=
  {| scen_results :=
       <["cum_infections" :=
           [("baseline", {| scen_name := "Baseline"; best := [1; 2; 4]%Q;
                            scen_low := [1; 1; 3]%Q; scen_high := [1; 3; 5]%Q |})]]> ∅;
     sims := <["baseline" := [demo_sim]]> ∅;
     tvec := [0; 1; 2]%Q |}.

Definition demo_state : pl_state :=
  {| next_fig := 0; next_ax := 0; trace := []; legend_dict := ∅ |}.

(** Keyword arguments that differ from the defaults of the signatures in
    the panels, the saving, the separate figures and the columns. *)
Definition demo_kw (tp : option to_plot_t) (save : pyval) (path : option string)
    (sep show : bool) (cols : Z) : plot_kw :=
  {| to_plot := tp; do_save := save; fig_path := path;
     fig_args := None; plot_args := None; scatter_args := None;
     axis_args := None; fill_args := None; legend_args := None;
     as_dates := true; dateformat := PNone; interval := PNone; n_cols := cols;
     font_size := PInt 18; font_family := PNone; grid := false;
     commaticks := true; setylim := true; log_scale := LogFlag false;
     colors := None; labels := None; color_kw := None; label_kw := None;
     do_show := show; sep_figs := sep; fig := None |}.

(** The defaults of the signatures, with plot arguments. *)
Definition demo_kw_plot_args (args : kwargs) : plot_kw :=
  {| to_plot := None; do_save := PNone; fig_path := None;
     fig_args := None; plot_args := Some args; scatter_args := None;
     axis_args := None; fill_args := None; legend_args := None;
     as_dates := true; dateformat := PNone; interval := PNone; n_cols := 1;
     font_size := PInt 18; font_family := PNone; grid := false;
     commaticks := true; setylim := true; log_scale := LogFlag false;
     colors := None; labels := None; color_kw := None; label_kw := None;
     do_show := true; sep_figs := false; fig := None |}.

(** [demo_libs], with a legend that refuses the location ['nowhere']. *)
Definition demo_libs_strict : Libs :=
  {| get_sim_plots := demo_to_plot;
     get_scen_plots := [("Cumulative infections", ["cum_infections"])];
     makefilepath := fun p => Ok p;
     gridcolors := fun k => repeat (PStr "#000000") k;
     lib_error := fun _ c =>
       match c with
       | Legend _ kw =>
           match kw !! "loc" with
           | Some (PStr loc) =>
               if String.eqb loc "nowhere"
               then Some (ValueError "'nowhere' is not a valid value for loc")
               else None
           | _ => None
           end
       | _ => None
       end;
     missing_attribute := AttributeError;
     fig_axes := fun _ _ => [];
     get_ylim := fun _ _ => (0, 1)%Q;
     get_xlim := fun _ _ => (0, 1)%Q |}.

(** Legend arguments with a ['show_legend'] entry. *)
Definition demo_legend_args (show : bool) (loc : string) : kwargs :=
  <["show_legend" := PBool show]> (<["loc" := PStr loc]> ∅).

(** Panels whose second key is not a result of [demo_sim]. *)
Definition demo_bad_to_plot : to_plot_t :=
  [("Total counts", ["cum_infections"]); ("Daily counts", ["new_infections"; "new_tests"; "cum_deaths"])].

(** *** Notions used by the further properties *)

(** The date of a person for a quantity, [None] when the array is missing,
    too short, or undefined there. *)
Definition person_date (sim : sim_t) (q : string) (i : nat) : option Z :=
  match people sim !! q with
  | Some dates => default None (dates !! i)
  | None => None
  end.

(** What one state does to the row of person [i]: from the day of its
    date on, the state takes the row over. *)
Definition row_step (sim : sim_t) (i : nat) (row : list Z) (state : state_t) : list Z :=
  match quantity state with
  | Some q =>
      match person_date sim q i with
      | Some d => set_from d (value state) row
      | None => row
      end
  | None => row
  end.

(** The row of one person, read off that person's dates alone: healthy on
    every day, then rewritten by each state in turn. *)
Definition person_row (sim : sim_t) (i : nat) : list Z :=
  fold_left (row_step sim i) states (repeat 0 (npts sim)).

(** The date arrays that [get_individual_states] reads are there, and no
    person beyond the population has a date. *)
Definition people_ok (sim : sim_t) : Prop :=
  forall q, q ∈ ["date_exposed"; "date_infectious"; "date_recovered"; "date_dead"] ->
    exists dates,
      people sim !! q = Some dates
      /\ forall i d, dates !! i = Some (Some d) -> (i < n sim)%nat.

(** The height of the stack of a Plotly figure at time point [j]: the sum
    of the traces there. *)
Definition column_total (fig : go_figure) (j : nat) : Q :=
  fold_right Qplus 0%Q (map (fun tr => default 0%Q (tr_y tr !! j)) (fig_traces fig)).

(** The annotation that the marker loops leave on a figure: that of the
    last marked day, if there is one. *)
Definition last_annotation (marked : list Z) (before : list go_annotation)
  : list go_annotation :=
  match last marked with
  | Some d => [marker_annotation d]
  | None => before
  end.

(** A result key that [plotly_sim] can draw: a series of [sim.results],
    next to the dates, and with dates in the data when the data have the
    key. *)
Definition plotly_key_ok (sim : sim_t) (key : string) : Prop :=
  (exists r, results sim !! key = Some (Series r))
  /\ is_Some (results sim !! "date")
  /\ (forall d, data sim = Some d -> is_Some (columns d !! key) ->
        is_Some (columns d !! "date")).

(** A call that draws or configures, as opposed to the three calls that
    end the life of a figure: saving, showing and closing. *)
Definition drawing (c : call) : Prop :=
  match c with
  | SaveFig _ | Show | Close _ => False
  | _ => True
  end.

(** A call that draws on axes that exist or configures them: it neither
    ends the life of a figure nor creates a figure or an axes. *)
Definition plain (c : call) : Prop :=
  match c with
  | SaveFig _ | Show | Close _ | Figure _ _ | Subplot _ _ _ _ => False
  | _ => True
  end.

(** Whatever the computation does from whatever state, and whether it
    returns or raises, the calls it adds all satisfy [P]. *)
Definition only_emits {A} (P : call -> Prop) (m : M A) : Prop :=
  forall st, exists l, trace (snd (m st)) = l ++ trace st /\ Forall P l.

(** *** Further concrete inputs *)

(** The configuration of the vaccination tests, on day 45, with four
    people. *)
Definition demo_vx_sim : test_variants.sim_t :=
  {| test_variants.vxsubtarg :=
       {| test_variants.vx_age := [75; 65; 50; 18]%Q;
          test_variants.vx_prob := [5 # 100; 5 # 100; 5 # 100; 5 # 100]%Q;
          test_variants.vx_days := [20; 40; 60; 80] |};
     test_variants.t := 45;
     test_variants.people :=
       {| test_variants.age := [80; 70; 60; 66]%Q;
          test_variants.vaccinated := [false; false; false; true] |} |}.

(** [demo_sim], with the first person dead on day 2. *)
Definition demo_sim_dead : sim_t :=
  {| results := results demo_sim;
     data := data demo_sim;
     start_day := start_day demo_sim;
     n_days := n_days demo_sim;
     interventions := interventions demo_sim;
     people := <["date_dead" := [Some 2; None]]> (people demo_sim);
     n := n demo_sim;
     npts := npts demo_sim |}.

(** [demo_sim], with the first person exposed on day 1 and infectious on
    day 2, and no other date. *)
Definition demo_sim_late : sim_t :=
  {| results := results demo_sim;
     data := data demo_sim;
     start_day := start_day demo_sim;
     n_days := n_days demo_sim;
     interventions := interventions demo_sim;
     people := <["date_exposed" := [Some 1; None]]> (
               <["date_infectious" := [Some 2; None]]> (
               <["date_recovered" := [None; None]]> (
               <["date_dead" := [None; None]]> ∅)));
     n := n demo_sim;
     npts := npts demo_sim |}.

(** [demo_sim], without the dates of death. *)
Definition demo_sim_no_deaths : sim_t :=
  {| results := results demo_sim;
     data := data demo_sim;
     start_day := start_day demo_sim;
     n_days := n_days demo_sim;
     interventions := interventions demo_sim;
     people := delete "date_dead" (people demo_sim);
     n := n demo_sim;
     npts := npts demo_sim |}.

(** People whose ages are one number, next to four vaccination flags. *)
Definition demo_vx_sim_one_age : test_variants.sim_t :=
  {| test_variants.vxsubtarg := test_variants.vxsubtarg demo_vx_sim;
     test_variants.t := 45;
     test_variants.people :=
       {| test_variants.age := [80]%Q;
          test_variants.vaccinated := [false; true; false; false] |} |}.

(** [demo_libs], with a default table that asks for a key that
    [demo_sim] does not have. *)
Definition demo_libs_bad : Libs :=
  {| get_sim_plots := demo_bad_to_plot;
     get_scen_plots := [("Deaths", ["cum_infections"; "cum_deaths"])];
     makefilepath := fun p => Ok p;
     gridcolors := fun k => repeat (PStr "#000000") k;
     lib_error := fun _ _ => None;
     missing_attribute := AttributeError;
     fig_axes := fun _ _ => [];
     get_ylim := fun _ _ => (0, 1)%Q;
     get_xlim := fun _ _ => (0, 1)%Q |}.

End statements.

(** * Properties *)

(** ** Vaccination sub-targeting *)

Section subtargeting.
Import test_variants.

Lemma enumerate_from_lookup {A} (l : list A) (i j : nat) :
  enumerate_from i l !! j = (fun x => ((i + j)%nat, x)) <$> l !! j.
Proof.
  revert i j. induction l as [|x l IH]; intros i j; simpl.
  - done.
  - destruct j as [|j]; simpl.
    + by rewrite Nat.add_0_r.
    + rewrite IH. by replace (S i + j)%nat with (i + S j)%nat by lia.
Qed.

Lemma enumerate_from_length {A} (l : list A) (i : nat) :
  length (enumerate_from i l) = length l.
Proof. revert i. induction l as [|x l IH]; intros i; simpl; [done|]. by rewrite IH. Qed.

(** The loop of [get_ind_of_min_value], started at position [i] with the
    index [acc] found so far: the outcome is the last position whose
    threshold does not exceed the time, and [acc] when there is none. *)
Lemma min_value_loop_from (time : Z) (l : list Z) (i : nat) (acc : option nat) :
  (Forall (fun t => time < t) l
   /\ fold_left (min_value_step time) (enumerate_from i l) acc = acc)
  \/ (exists j t, l !! j = Some t /\ t <= time
        /\ (forall k t', (j < k)%nat -> l !! k = Some t' -> time < t')
        /\ fold_left (min_value_step time) (enumerate_from i l) acc = Some (i + j)%nat).
Proof.
  revert i acc. induction l as [|x l IH]; intros i acc; simpl.
  - left. split; [constructor | done].
  - destruct (IH (S i) (if time >=? x then Some i else acc)) as [[Hall Hr] | (j & t & Hj & Ht & Hlast & Hr)].
    + rewrite Hr. destruct (Z.geb_spec time x) as [Hge | Hlt].
      * right. exists 0%nat, x. repeat split; [lia | | by rewrite Nat.add_0_r].
        intros [|k] t' Hk Hl; [lia|]. simpl in Hl.
        rewrite Forall_lookup in Hall. by apply (Hall k t').
      * left. split; [constructor; [lia | done] | done].
    + right. exists (S j), t. repeat split; [done | done | |].
      * intros [|k] t' Hk Hl; [lia|]. simpl in Hl. apply (Hlast k t'); [lia | done].
      * rewrite Hr. f_equal. lia.
Qed.

Lemma min_value_loop_spec (thresholds : list Z) (time : Z) :
  (Forall (fun t => time < t) thresholds /\ min_value_loop thresholds time = None)
  \/ (exists ind t, thresholds !! ind = Some t /\ t <= time
        /\ (forall k t', (ind < k)%nat -> thresholds !! k = Some t' -> time < t')
        /\ min_value_loop thresholds time = Some ind).
Proof.
  unfold min_value_loop, enumerate.
  destruct (min_value_loop_from time thresholds 0 None) as [? | (j & t & ? & ? & ? & ?)].
  - by left.
  - right. by exists j, t.
Qed.

Lemma findinds_from_spec (mask : list bool) (i k : nat) :
  k ∈ map fst (filter (fun pb => Is_true (snd pb)) (enumerate_from i mask))
  <-> exists j, k = (i + j)%nat /\ mask !! j = Some true.
Proof.
  revert i. induction mask as [|b mask IH]; intros i.
  - cbn. split; [by intros ?%elem_of_nil | by intros (j & _ & ?)].
  - cbn [enumerate_from]. rewrite filter_cons. cbn [snd]. destruct b.
    + rewrite decide_True by done. cbn [map fst]. rewrite elem_of_cons, IH. split.
      * intros [-> | (j & -> & Hj)]; [exists 0%nat; split; [lia | done]|].
        exists (S j). split; [lia | done].
      * intros ([|j] & -> & Hj); [left; lia|]. right. exists j. split; [lia | done].
    + rewrite decide_False by (simpl; tauto). rewrite IH. split.
      * intros (j & -> & Hj). exists (S j). split; [lia | done].
      * intros ([|j] & -> & Hj); [done|]. exists j. split; [lia | done].
Qed.

Lemma findinds_spec (mask : list bool) (k : nat) :
  k ∈ findinds mask <-> mask !! k = Some true.
Proof.
  unfold findinds, enumerate. rewrite findinds_from_spec. split.
  - by intros (j & -> & Hj).
  - intros Hk. by exists k.
Qed.

(** On arrays of one length, the mask is computed position by position. *)
Lemma eligible_same_length (p : people_t) (a : Q) :
  length (age p) = length (vaccinated p) ->
  eligible p a = Ok (zip_with (fun x v => Qle_bool a x && negb v) (age p) (vaccinated p)).
Proof. intros Hlen. unfold eligible, broadcast. by rewrite Hlen, Nat.eqb_refl. Qed.

Lemma eligible_lookup (p : people_t) (a : Q) (mask : list bool) (i : nat) :
  length (age p) = length (vaccinated p) ->
  eligible p a = Ok mask ->
  mask !! i = Some true
  <-> exists x, age p !! i = Some x /\ vaccinated p !! i = Some false /\ (a <= x)%Q.
Proof.
  intros Hlen. rewrite eligible_same_length by done.
  intros [= <-]. rewrite lookup_zip_with. split.
  - destruct (age p !! i) as [x|]; [|done]. simpl.
    destruct (vaccinated p !! i) as [v|]; [|done]. simpl.
    intros [= Hb]. apply andb_true_iff in Hb as [Hle Hv].
    exists x. repeat split; [|by apply Qle_bool_iff]. by destruct v.
  - intros (x & -> & -> & Hle). simpl. f_equal.
    apply andb_true_iff. split; [by apply Qle_bool_iff | done].
Qed.

(** C1. Whenever some threshold of the list does not exceed the time,
    [get_ind_of_min_value] returns the last position of the list whose
    threshold is less than or equal to the time; and [vacc_subtarg] reads
    the age and the probability at that position: it targets exactly the
    unvaccinated people of at least that age, each with that
    probability. *)
Theorem get_ind_of_min_value_latest (thresholds : list Z) (time : Z) :
  (exists th, th ∈ thresholds /\ th <= time) ->
  exists ind th,
    get_ind_of_min_value thresholds time = Ok ind
    /\ thresholds !! ind = Some th /\ th <= time
    /\ (forall k th', (ind < k)%nat -> thresholds !! k = Some th' -> time < th')
    /\ forall (ages probs : list Q) (p : people_t) (a pr : Q),
         ages !! ind = Some a -> probs !! ind = Some pr ->
         length (age p) = length (vaccinated p) ->
         exists st,
           vacc_subtarg {| vxsubtarg := {| vx_age := ages; vx_prob := probs; vx_days := thresholds |};
                           t := time; people := p |} = Ok st
           /\ (forall i, i ∈ inds st
                 <-> exists x, age p !! i = Some x /\ vaccinated p !! i = Some false /\ (a <= x)%Q)
           /\ length (vals st) = length (inds st)
           /\ Forall (fun v => (v == pr)%Q) (vals st).
Proof.
  intros (th0 & Hin & Hle).
  destruct (min_value_loop_spec thresholds time) as [[Hall _] | (ind & th & Hind & Hth & Hlast & Hloop)].
  - rewrite Forall_forall in Hall. specialize (Hall th0 Hin). lia.
  - exists ind, th. repeat split; try done.
    + unfold get_ind_of_min_value. by rewrite Hloop.
    + intros ages probs p a pr Ha Hpr Hlen.
      unfold vacc_subtarg, get_ind_of_min_value, getitem. simpl.
      rewrite Hloop. simpl. rewrite Ha. simpl. rewrite Hpr. simpl.
      destruct (eligible p a) as [mask|e] eqn:Hel.
      2:{ by rewrite eligible_same_length in Hel. }
      simpl. eexists. split; [done|]. simpl. repeat split.
      * rewrite findinds_spec. by apply eligible_lookup.
      * rewrite findinds_spec. by apply eligible_lookup.
      * by rewrite length_map, repeat_length.
      * apply Forall_map, Forall_forall. intros one Hone.
        apply list_elem_of_In, repeat_spec in Hone. subst one. simpl. apply Qmult_1_r.
Qed.

(** C2. When the time is strictly smaller than every threshold of the list
    (in particular when the list is empty), [get_ind_of_min_value] raises a
    [ValueError] whose message begins with the time; in every other case
    it returns an index. *)
Theorem get_ind_of_min_value_raises (thresholds : list Z) (time : Z) :
  (Forall (fun th => time < th) thresholds
   /\ get_ind_of_min_value thresholds time
      = Raise (ValueError (str_of_Z time +:+ " is not within the list of times")))
  \/ (Exists (fun th => th <= time) thresholds
      /\ exists ind, get_ind_of_min_value thresholds time = Ok ind).
Proof.
  unfold get_ind_of_min_value.
  destruct (min_value_loop_spec thresholds time) as [[Hall Hloop] | (ind & th & Hind & Hth & _ & Hloop)].
  - left. by rewrite Hloop.
  - right. rewrite Hloop. split; [|by exists ind].
    apply Exists_exists. exists th. split; [|done]. by apply list_elem_of_lookup_2 in Hind.
Qed.

End subtargeting.

(** ** Float division

    [handle_to_plot] divides the number of panels by the number of
    columns in floating point and rounds the quotient up. The rounding of
    the division moves the quotient across no integer as long as the
    dividend is below [2 ^ 53] and the divisor is at most [2 ^ 1074]. *)

Section float_facts.
Import plotting.

Lemma shl_nonneg x k : 0 <= k -> shl x k = x * 2 ^ k.
Proof. intros Hk. unfold shl. rewrite Z.max_r by lia; reflexivity. Qed.

Lemma shl_neg x k : k <= 0 -> shl x k = x.
Proof. intros Hk. unfold shl. rewrite Z.max_l by lia. simpl. lia. Qed.

(** The lower bound of [log2_quot]: [2 ^ e <= n / d]. *)
Lemma log2_quot_lower (n d : Z) :
  0 < n -> 0 < d -> shl d (log2_quot n d) <= shl n (- log2_quot n d).
Proof.
  intros Hn Hd. unfold log2_quot.
  set (k := Z.log2 n - Z.log2 d).
  destruct (Z.leb_spec (shl d k) (shl n (- k))) as [Hle|Hgt]; [exact Hle|].
  destruct (Z.log2_spec n Hn) as [Hn1 Hn2].
  destruct (Z.log2_spec d Hd) as [Hd1 Hd2].
  pose proof (Z.log2_nonneg n) as Hln. pose proof (Z.log2_nonneg d) as Hld.
  destruct (Z_lt_le_dec (k - 1) 0) as [Hneg|Hpos].
  - rewrite shl_neg by lia. rewrite shl_nonneg by lia.
    replace (- (k - 1)) with (Z.log2 d + 1 - Z.log2 n) by (unfold k; lia).
    assert (Hpow : 2 ^ Z.log2 n * 2 ^ (Z.log2 d + 1 - Z.log2 n) = 2 ^ Z.succ (Z.log2 d)).
    { rewrite <- Z.pow_add_r by (unfold k in *; lia). f_equal. lia. }
    assert (0 < 2 ^ (Z.log2 d + 1 - Z.log2 n)) by (apply Z.pow_pos_nonneg; unfold k in *; lia).
    nia.
  - rewrite shl_nonneg by lia. rewrite shl_neg by lia.
    assert (Hpow : 2 ^ Z.succ (Z.log2 d) * 2 ^ (k - 1) = 2 ^ Z.log2 n).
    { rewrite <- Z.pow_add_r by lia. f_equal. unfold k. lia. }
    assert (0 < 2 ^ (k - 1)) by (apply Z.pow_pos_nonneg; lia).
    nia.
Qed.

Lemma round_half_even_bounds (n d : Z) :
  0 < d -> n / d <= round_half_even n d <= n / d + 1.
Proof.
  intros Hd. unfold round_half_even.
  destruct (2 * (n mod d) ?= d); [destruct (Z.even (n / d))| |]; lia.
Qed.

(** Rounding does not cross a multiple [N] of the unit when the quotient
    is at least one numerator step [g] away from it and the denominator is
    below [2 * g]. *)
Lemma round_half_even_above (n d g N : Z) :
  0 < d -> d < 2 * g -> N * d + g <= n -> N < round_half_even n d.
Proof.
  intros Hd Hg Hn. pose proof (Z.div_mod n d ltac:(lia)) as Hdm.
  pose proof (Z.mod_pos_bound n d Hd) as Hr.
  assert (Hq : N <= n / d) by (apply Z.div_le_lower_bound; lia).
  unfold round_half_even.
  destruct (Z.compare_spec (2 * (n mod d)) d) as [Heq|Hlt|Hgt];
    [destruct (Z.even (n / d))| |]; try lia; nia.
Qed.

Lemma round_half_even_below (n d g N : Z) :
  0 < d -> d < 2 * g -> n + g <= N * d -> round_half_even n d < N.
Proof.
  intros Hd Hg Hn. pose proof (Z.div_mod n d ltac:(lia)) as Hdm.
  pose proof (Z.mod_pos_bound n d Hd) as Hr.
  assert (Hq : n / d < N) by (apply Z.div_lt_upper_bound; lia).
  unfold round_half_even.
  destruct (Z.compare_spec (2 * (n mod d)) d) as [Heq|Hlt|Hgt];
    [destruct (Z.even (n / d))| |]; try lia; nia.
Qed.

Lemma round_half_even_le (n d N : Z) :
  0 < d -> n <= N * d -> round_half_even n d <= N.
Proof.
  intros Hd Hn. pose proof (Z.div_mod n d ltac:(lia)) as Hdm.
  pose proof (Z.mod_pos_bound n d Hd) as Hr.
  unfold round_half_even.
  destruct (Z.compare_spec (2 * (n mod d)) d) as [Heq|Hlt|Hgt];
    [destruct (Z.even (n / d))| |]; nia.
Qed.

Lemma round_half_even_ge (n d N : Z) :
  0 < d -> N * d <= n -> N <= round_half_even n d.
Proof.
  intros Hd Hn. pose proof (round_half_even_bounds n d Hd).
  assert (N <= n / d) by (apply Z.div_le_lower_bound; lia). lia.
Qed.

(** For a numerator below [2 ^ 53] and a denominator up to [2 ^ 1074],
    rounding the quotient to binary64 moves it across no integer. *)
Lemma to_binary64_between (a b : Z) :
  0 < a < 2 ^ 53 -> 0 < b <= 2 ^ 1074 ->
  exists m s,
    0 <= s /\ to_binary64 a b = Some (m # Z.to_pos (2 ^ s))
    /\ forall k, (k * b <= a -> k * 2 ^ s <= m) /\ (a <= k * b -> m <= k * 2 ^ s)
              /\ (k * b < a -> k * 2 ^ s < m) /\ (a < k * b -> m < k * 2 ^ s).
Proof.
  intros Ha Hb. unfold to_binary64, last_digit. cbv zeta.
  pose proof (log2_quot_lower a b ltac:(lia) ltac:(lia)) as Hlow.
  set (e := log2_quot a b) in *.
  assert (He : e <= 52).
  { destruct (Z_lt_le_dec 52 e) as [Hbig|]; [|lia]. exfalso.
    rewrite shl_nonneg, shl_neg in Hlow by lia.
    assert (2 ^ 53 <= 2 ^ e) by (apply Z.pow_le_mono_r; lia). nia. }
  set (u := Z.max (e - 52) (-1074)).
  assert (Hu : -1074 <= u <= 0) by lia.
  set (s := - u). assert (Hs : 0 <= s <= 1074) by lia.
  assert (Hps : 0 < 2 ^ s) by (apply Z.pow_pos_nonneg; lia).
  assert (Hbs : b < 2 * 2 ^ s).
  { destruct (Z.max_spec (e - 52) (-1074)) as [[_ Hm]|[_ Hm]]; fold u in Hm.
    - replace s with 1074 by lia.
      change (2 * 2 ^ 1074) with (2 ^ 1075).
      assert (2 ^ 1074 < 2 ^ 1075) by (apply Z.pow_lt_mono_r; lia). lia.
    - replace s with (52 - e) by lia.
      destruct (Z_lt_le_dec e 0) as [Hneg|Hpos].
      + rewrite shl_neg, shl_nonneg in Hlow by lia.
        assert (Hpow : 2 ^ 53 * 2 ^ (- e) = 2 * 2 ^ (52 - e)).
        { rewrite <- Z.pow_add_r by lia. rewrite <- Z.pow_succ_r by lia. f_equal. lia. }
        assert (0 < 2 ^ (- e)) by (apply Z.pow_pos_nonneg; lia). nia.
      + rewrite shl_nonneg, shl_neg in Hlow by lia.
        assert (Hpow : 2 * 2 ^ (52 - e) * 2 ^ e = 2 ^ 53).
        { rewrite <- Z.pow_succ_r by lia. rewrite <- Z.pow_add_r by lia. f_equal. lia. }
        assert (0 < 2 ^ e) by (apply Z.pow_pos_nonneg; lia).
        assert (0 < 2 ^ (52 - e)) by (apply Z.pow_pos_nonneg; lia). nia. }
  rewrite (shl_neg b u), (shl_nonneg a s) by lia.
  set (m := round_half_even (a * 2 ^ s) b).
  assert (Hfacts : forall k, (k * b <= a -> k * 2 ^ s <= m) /\ (a <= k * b -> m <= k * 2 ^ s)
              /\ (k * b < a -> k * 2 ^ s < m) /\ (a < k * b -> m < k * 2 ^ s)).
  { intros k. repeat split; intros Hk.
    - apply round_half_even_ge; [lia|nia].
    - apply round_half_even_le; [lia|nia].
    - apply (round_half_even_above _ _ (2 ^ s)); [lia|lia|nia].
    - apply (round_half_even_below _ _ (2 ^ s)); [lia|lia|nia]. }
  rewrite (shl_neg m u), (shl_nonneg _ s), (shl_nonneg 1 s) by lia.
  rewrite Z.mul_1_l.
  destruct (Z.ltb_spec m (2 ^ 1024 * 2 ^ s)) as [Hfin|Hinf].
  - exists m, s. split; [lia|]. split; [reflexivity|]. exact Hfacts.
  - exfalso. destruct (Hfacts a) as (_ & Hle & _). 
    assert (m <= a * 2 ^ s) by (apply Hle; nia).
    assert (2 ^ 53 < 2 ^ 1024) by (apply Z.pow_lt_mono_r; lia). nia.
Qed.

Lemma Qceiling_between (m D K : Z) :
  0 < D -> (K - 1) * D < m <= K * D -> Qceiling (m # Z.to_pos D) = K.
Proof.
  intros HD Hm. unfold Qceiling, Qfloor, Qopp. simpl. rewrite Z2Pos.id by lia.
  assert (Hdiv : - m / D = - K).
  { symmetry. apply (Z.div_unique_pos _ _ _ (K * D - m)); lia. }
  lia.
Qed.

Lemma Qceiling_opp_between (m D k : Z) :
  0 < D -> k * D <= m < (k + 1) * D -> Qceiling (- (m # Z.to_pos D)) = - k.
Proof.
  intros HD Hm. unfold Qceiling, Qfloor, Qopp. simpl. rewrite Z2Pos.id by lia.
  rewrite Z.opp_involutive.
  assert (Hdiv : m / D = k).
  { symmetry. apply (Z.div_unique_pos _ _ _ (m - k * D)); lia. }
  lia.
Qed.

(** Within the range in which a float tells the integers apart, the row
    count is the exact ceiling of the quotient. *)
Lemma truediv_ceil (a b : Z) :
  0 <= a < 2 ^ 53 -> b <> 0 -> Z.abs b <= 2 ^ 1074 ->
  exists q r, truediv a b = Ok q /\ np_ceil q = inject_Z r
              /\ (0 < b -> (r - 1) * b < a <= r * b)
              /\ (b < 0 -> r * b <= a < (r - 1) * b).
Proof.
  intros Ha Hb Hbound. unfold truediv.
  destruct (Z.eqb_spec b 0) as [|_]; [done|].
  destruct (Z.eqb_spec a 0) as [->|Hpos].
  - exists 0%Q, 0. split; [reflexivity|]. split; [reflexivity|]. lia.
  - destruct (to_binary64_between (Z.abs a) (Z.abs b) ltac:(lia) ltac:(lia))
      as (m & s & Hs & -> & Hfacts).
    assert (Hps : 0 < 2 ^ s) by (apply Z.pow_pos_nonneg; lia).
    rewrite (Z.abs_eq a) in Hfacts by lia.
    destruct (Z_lt_le_dec b 0) as [Hneg|Hnn].
    + rewrite (Z.abs_neq b) in Hfacts by lia.
      replace (Z.sgn a * Z.sgn b <? 0) with true
        by (symmetry; apply Z.ltb_lt; rewrite (Z.sgn_pos a), (Z.sgn_neg b) by lia; lia).
      set (k := a / - b).
      pose proof (Z.div_mod a (- b) ltac:(lia)) as Hdm.
      pose proof (Z.mod_pos_bound a (- b) ltac:(lia)) as Hr. fold k in Hdm.
      exists (- (m # Z.to_pos (2 ^ s)))%Q, (- k). split; [reflexivity|].
      split; [|split; [lia|intros _; nia]].
      unfold np_ceil. f_equal. apply Qceiling_opp_between; [lia|].
      destruct (Hfacts k) as (Hlo & _). destruct (Hfacts (k + 1)) as (_ & _ & _ & Hhi).
      split; [apply Hlo | apply Hhi]; nia.
    + rewrite (Z.abs_eq b) in Hfacts by lia.
      replace (Z.sgn a * Z.sgn b <? 0) with false
        by (symmetry; apply Z.ltb_ge; rewrite (Z.sgn_pos a), (Z.sgn_pos b) by lia; lia).
      set (K := - (- a / b)).
      pose proof (Z.div_mod (- a) b ltac:(lia)) as Hdm.
      pose proof (Z.mod_pos_bound (- a) b ltac:(lia)) as Hr.
      exists (m # Z.to_pos (2 ^ s)), K. split; [reflexivity|].
      split; [|split; [intros _; unfold K; nia|lia]].
      unfold np_ceil. f_equal. apply Qceiling_between; [lia|].
      destruct (Hfacts (K - 1)) as (_ & _ & Hlo & _). destruct (Hfacts K) as (_ & Hhi & _).
      split; [apply Hlo | apply Hhi]; unfold K; nia.
Qed.

Lemma Qdiv_between (a b r : Z) :
  0 < b -> (r - 1) * b < a <= r * b ->
  (inject_Z r - 1 < inject_Z a / inject_Z b)%Q /\ (inject_Z a / inject_Z b <= inject_Z r)%Q.
Proof.
  intros Hb [Hlo Hhi].
  assert (Hbq : (0 < inject_Z b)%Q) by (change (inject_Z 0 < inject_Z b)%Q; by rewrite <- Zlt_Qlt).
  split.
  - apply Qlt_shift_div_l; [done|].
    change 1%Q with (inject_Z 1). unfold Qminus.
    rewrite <- inject_Z_opp, <- inject_Z_plus, <- inject_Z_mult, <- Zlt_Qlt. lia.
  - apply Qle_shift_div_r; [done|]. rewrite <- inject_Z_mult, <- Zle_Qle. lia.
Qed.

(** The row count that [np.ceil] makes of the float quotient is the
    ceiling of the exact quotient. *)
Lemma truediv_rows (a b : Z) :
  0 <= a < 2 ^ 53 -> b <> 0 -> Z.abs b <= 2 ^ 1074 ->
  exists q r, truediv a b = Ok q /\ np_ceil q = inject_Z r
              /\ (inject_Z r - 1 < inject_Z a / inject_Z b)%Q
              /\ (inject_Z a / inject_Z b <= inject_Z r)%Q
              /\ (0 < b -> (r - 1) * b < a <= r * b).
Proof.
  intros Ha Hb Hbound.
  destruct (truediv_ceil a b Ha Hb Hbound) as (q & r & Hq & Hr & Hpos & Hneg).
  exists q, r. split; [done|]. split; [done|].
  destruct (Z_lt_le_dec b 0) as [Hlt|Hge].
  - assert (Hquot : (inject_Z a / inject_Z b == inject_Z (- a) / inject_Z (- b))%Q).
    { rewrite !inject_Z_opp. field. intros Hzero.
      apply (Qlt_irrefl 0). rewrite <- Hzero at 1.
      change (inject_Z b < inject_Z 0)%Q. by rewrite <- Zlt_Qlt. }
    rewrite !Hquot.
    destruct (Qdiv_between (- a) (- b) r) as [Hlo Hhi]; [lia|specialize (Hneg Hlt); lia|].
    split; [done|]. split; [done|]. lia.
  - destruct (Qdiv_between a b r) as [Hlo Hhi]; [lia|apply Hpos; lia|].
    split; [done|]. split; [done|]. done.
Qed.

End float_facts.

(** ** The quantities to plot *)

Section to_plot_facts.
Import plotting statements.
Context `{Libs}.

Lemma string_app_assoc (a b c : string) : (a +:+ b) +:+ c = a +:+ (b +:+ c).
Proof.
  induction a as [|x a IH]; [reflexivity|].
  change (String x ((a +:+ b) +:+ c) = String x (a +:+ (b +:+ c))). by rewrite IH.
Qed.

(** C3, as the code has it. When no [to_plot] is supplied, every value of
    [which] other than ['sim'] and ['scens'] makes [handle_to_plot] raise a
    [NotImplementedError] whose message quotes the value. *)
Theorem handle_to_plot_unknown_which (which : string) (n_cols : Z) :
  which <> "sim" -> which <> "scens" ->
  handle_to_plot which None n_cols = Raise (NotImplementedError (which_msg which))
  /\ exists pre, which_msg which = pre +:+ which +:+ dquote.
Proof.
  intros Hsim Hscens. split.
  - unfold handle_to_plot.
    destruct (String.eqb_spec which "sim"); [done|].
    destruct (String.eqb_spec which "scens"); [done|]. done.
  - unfold which_msg. eexists.
    repeat rewrite <- string_app_assoc. reflexivity.
Qed.

(** C8, as the code has it. With a supplied [to_plot] of fewer than
    [2 ^ 53] panels and a number of columns other than zero and of a
    magnitude up to [2 ^ 1074], [handle_to_plot] does not raise, whatever
    [which] is: it returns the supplied panels and, as a float, the
    ceiling of their number divided by [n_cols]. *)
Theorem handle_to_plot_supplied (which : string) (tp : to_plot_t) (n_cols : Z) :
  n_cols <> 0 -> Z.abs n_cols <= 2 ^ 1074 -> Z.of_nat (length tp) < 2 ^ 53 ->
  exists n_rows : Z,
    handle_to_plot which (Some tp) n_cols = Ok (tp, inject_Z n_rows)
    /\ (inject_Z n_rows - 1 < inject_Z (Z.of_nat (length tp)) / inject_Z n_cols)%Q
    /\ (inject_Z (Z.of_nat (length tp)) / inject_Z n_cols <= inject_Z n_rows)%Q
    /\ (0 < n_cols ->
        (n_rows - 1) * n_cols < Z.of_nat (length tp) <= n_rows * n_cols).
Proof.
  intros Hn Hbound Hlen.
  destruct (truediv_rows (Z.of_nat (length tp)) n_cols ltac:(lia) Hn Hbound)
    as (q & r & Hq & Hr & Hlo & Hhi & Hint).
  exists r. unfold handle_to_plot, odict, dcp. simpl.
  rewrite Hq. simpl. by rewrite Hr.
Qed.

End to_plot_facts.

(** ** The transmission tree *)

Section transtree_facts.
Import plotting.
Context `{Libs}.

(** The module does not bind the name [pd]. *)
Lemma pd_unbound (st : pl_state) : global_name "pd" st = (Raise (NameError "pd"), st).
Proof. reflexivity. Qed.

Lemma plot_transtree_detailed (entries : list (option tt_entry)) (st : pl_state) :
  plot_transtree (Some entries) st = (Raise (NameError "pd"), st).
Proof. unfold plot_transtree, bind. by rewrite pd_unbound. Qed.

(** C4. When the [detailed] attribute of the receiver is [None],
    [plot_transtree] raises a [ValueError] that tells the caller to run
    [sim.people.make_detailed_transtree()] first, before any call to the
    charting library; when it is not [None], no [ValueError] is raised (the
    body then stops at the name [pd], which the module does not bind). *)
Theorem plot_transtree_requires_detailed :
  (forall st,
     plot_transtree None st
     = (Raise (ValueError "Please run sim.people.make_detailed_transtree() before calling plotting"), st))
  /\ (forall entries st msg,
        fst (plot_transtree (Some entries) st) <> Raise (ValueError msg)).
Proof.
  split.
  - reflexivity.
  - intros entries st msg. by rewrite plot_transtree_detailed.
Qed.

End transtree_facts.

(** ** Running plotting code *)

Section run_facts.
Import plotting statements.
Context `{Libs}.

Lemma runs_ret {A} (a : A) st (P : A -> pl_state -> Prop) : P a st -> runs (ret a) st P.
Proof. intros HP. by exists a, st. Qed.

Lemma runs_bind {A B} (m : M A) (k : A -> M B) st (P : B -> pl_state -> Prop) :
  runs m st (fun a st1 => runs (k a) st1 P) -> runs (bind m k) st P.
Proof.
  intros (a & st1 & Hm & b & st2 & Hk & HP). exists b, st2. split; [|done].
  unfold bind. by rewrite Hm.
Qed.

Lemma answer_accepted {A} (tr : list call) (c : call) (a : A) :
  lib_accepts -> answer tr c a = Ok a.
Proof. intros Hlib. unfold answer. by rewrite Hlib. Qed.

Lemma runs_emit (c : call) st (P : unit -> pl_state -> Prop) :
  lib_accepts -> P tt (called c st) -> runs (emit c) st P.
Proof. intros Hlib HP. exists tt, (called c st). unfold emit. by rewrite answer_accepted. Qed.

Lemma runs_when (b : bool) (m : M unit) st (P : unit -> pl_state -> Prop) :
  (b = true -> runs m st P) -> (b = false -> P tt st) -> runs (when b m) st P.
Proof. destruct b; intros Ht Hf; [by apply Ht | by apply runs_ret, Hf]. Qed.

Lemma runs_lift {A} (r : result A) (a : A) st (P : A -> pl_state -> Prop) :
  r = Ok a -> P a st -> runs (lift r) st P.
Proof. intros -> HP. by exists a, st. Qed.

Lemma runs_get_trace st (P : list call -> pl_state -> Prop) :
  P (trace st) st -> runs get_trace st P.
Proof. intros HP. by eexists _, _. Qed.

Lemma runs_set_legend_dict (d : kwargs) st (P : unit -> pl_state -> Prop) :
  P tt {| next_fig := next_fig st; next_ax := next_ax st; trace := trace st;
          legend_dict := d |} ->
  runs (set_legend_dict d) st P.
Proof. intros HP. by eexists _, _. Qed.

Lemma runs_no_repeat (given : list string) (kw : kwargs) st (P : unit -> pl_state -> Prop) :
  Forall (fun key => kw !! key = None) given -> P tt st -> runs (no_repeat given kw) st P.
Proof.
  intros Hgiven HP. exists tt, st. split; [|done]. unfold no_repeat.
  replace (forallb _ given) with true; [done|].
  symmetry. apply forallb_forall. intros key Hkey. apply bool_decide_eq_true.
  rewrite Forall_forall in Hgiven. by apply Hgiven, list_elem_of_In.
Qed.

Lemma runs_pl_figure (kw : kwargs) st (P : nat -> pl_state -> Prop) :
  lib_accepts ->
  P (next_fig st) {| next_fig := S (next_fig st); next_ax := next_ax st;
                     trace := Figure kw (next_fig st) :: trace st;
                     legend_dict := legend_dict st |} ->
  runs (pl_figure kw) st P.
Proof. intros Hlib HP. eexists _, _. unfold pl_figure. by rewrite answer_accepted. Qed.

Lemma runs_pl_subplot pos sharex label st (P : nat -> pl_state -> Prop) :
  lib_accepts ->
  P (next_ax st) {| next_fig := next_fig st; next_ax := S (next_ax st);
                    trace := Subplot pos sharex label (next_ax st) :: trace st;
                    legend_dict := legend_dict st |} ->
  runs (pl_subplot pos sharex label) st P.
Proof. intros Hlib HP. eexists _, _. unfold pl_subplot. by rewrite answer_accepted. Qed.

Lemma runs_weaken {A} (m : M A) st (P Q : A -> pl_state -> Prop) :
  runs m st P -> (forall a st', P a st' -> Q a st') -> runs m st Q.
Proof. intros (a & st' & Hm & HP) HPQ. exists a, st'. eauto. Qed.

Lemma raises_raise {A} (e : exn) st : raises (@raise A e) st e.
Proof. by exists st. Qed.

Lemma raises_lift {A} (r : result A) (e : exn) st : r = Raise e -> raises (lift r) st e.
Proof. intros ->. by exists st. Qed.

Lemma raises_bind_l {A B} (m : M A) (k : A -> M B) st (e : exn) :
  raises m st e -> raises (bind m k) st e.
Proof. intros (st' & Hm). exists st'. unfold bind. by rewrite Hm. Qed.

Lemma raises_bind_r {A B} (m : M A) (k : A -> M B) st (e : exn) :
  runs m st (fun a st1 => raises (k a) st1 e) -> raises (bind m k) st e.
Proof.
  intros (a & st1 & Hm & st2 & Hk). exists st2. unfold bind. by rewrite Hm.
Qed.

Lemma for_each_app {A S} (body : S -> A -> M S) (l1 l2 : list A) (s : S) (st : pl_state) :
  for_each body (l1 ++ l2) s st = bind (for_each body l1 s) (for_each body l2) st.
Proof.
  revert s st. induction l1 as [|x l1 IH]; intros s st; simpl.
  - reflexivity.
  - unfold bind. destruct (body s x st) as [[s'|e] st1]; [|reflexivity].
    rewrite IH. reflexivity.
Qed.

Lemma enumerate_from_app {A} (l1 l2 : list A) (i : nat) :
  enumerate_from i (l1 ++ l2) = enumerate_from i l1 ++ enumerate_from (i + length l1) l2.
Proof.
  revert i. induction l1 as [|x l1 IH]; intros i; simpl.
  - by rewrite Nat.add_0_r.
  - rewrite IH. do 3 f_equal. lia.
Qed.

(** *** What a computation yields when it returns *)

Lemma yields_ret {A} (a : A) st (P : A -> pl_state -> Prop) : P a st -> yields (ret a) st P.
Proof. intros HP a' st' [= <- <-]. exact HP. Qed.

Lemma yields_raise {A} (e : exn) st (P : A -> pl_state -> Prop) : yields (raise e) st P.
Proof. by intros a st'. Qed.

Lemma yields_bind {A B} (m : M A) (k : A -> M B) st (P : B -> pl_state -> Prop) :
  yields m st (fun a st1 => yields (k a) st1 P) -> yields (bind m k) st P.
Proof.
  intros Hm b st2. unfold bind. destruct (m st) as [[a|e] st1] eqn:Hrun; [|done].
  intros Hk. by apply (Hm a st1).
Qed.

Lemma yields_lift {A} (r : result A) st (P : A -> pl_state -> Prop) :
  (forall a, r = Ok a -> P a st) -> yields (lift r) st P.
Proof. intros HP a st' [= -> <-]. by apply HP. Qed.

Lemma yields_weaken {A} (m : M A) st (P Q : A -> pl_state -> Prop) :
  yields m st P -> (forall a st', P a st' -> Q a st') -> yields m st Q.
Proof. intros Hm HPQ a st' Hrun. by apply HPQ, Hm. Qed.

Lemma yields_emit (c : call) st (P : unit -> pl_state -> Prop) :
  P tt (called c st) -> yields (emit c) st P.
Proof. intros HP [] st'. unfold emit. intros [= _ <-]. exact HP. Qed.

Lemma yields_pl_figure (kw : kwargs) st (P : nat -> pl_state -> Prop) :
  P (next_fig st) {| next_fig := S (next_fig st); next_ax := next_ax st;
                     trace := Figure kw (next_fig st) :: trace st;
                     legend_dict := legend_dict st |} ->
  yields (pl_figure kw) st P.
Proof.
  intros HP f st'. unfold pl_figure, answer.
  destruct (lib_error _ _); intros [= <- <-]. exact HP.
Qed.

Lemma yields_when (b : bool) (m : M unit) st (P : unit -> pl_state -> Prop) :
  (b = true -> yields m st P) -> (b = false -> P tt st) -> yields (when b m) st P.
Proof. destruct b; intros Ht Hf; [by apply Ht | by apply yields_ret, Hf]. Qed.

Lemma yields_get_trace st (P : list call -> pl_state -> Prop) :
  P (trace st) st -> yields get_trace st P.
Proof. intros HP tr st' [= <- <-]. exact HP. Qed.

Lemma yields_set_legend_dict (d : kwargs) st (P : unit -> pl_state -> Prop) :
  P tt {| next_fig := next_fig st; next_ax := next_ax st; trace := trace st;
          legend_dict := d |} ->
  yields (set_legend_dict d) st P.
Proof. intros HP [] st' [= <-]. exact HP. Qed.

Lemma yields_pl_subplot pos sharex label st (P : nat -> pl_state -> Prop) :
  P (next_ax st) {| next_fig := next_fig st; next_ax := S (next_ax st);
                    trace := Subplot pos sharex label (next_ax st) :: trace st;
                    legend_dict := legend_dict st |} ->
  yields (pl_subplot pos sharex label) st P.
Proof.
  intros HP a st'. unfold pl_subplot, answer.
  destruct (lib_error _ _); intros [= <- <-]. exact HP.
Qed.

Lemma yields_const {A} (m : M A) st (P : Prop) : P -> yields m st (fun _ _ => P).
Proof. by intros HP a st' _. Qed.

Lemma yields_bind_any {A B} (m : M A) (k : A -> M B) st (P : B -> pl_state -> Prop) :
  (forall a st1, yields (k a) st1 P) -> yields (bind m k) st P.
Proof. intros Hk. apply yields_bind. intros a st1 _. apply Hk. Qed.

(** A loop that returns has returned from its body on every element. *)
Lemma for_each_yields_all {A S} (body : S -> A -> M S) (Q : A -> Prop) (l : list A) (s : S)
    st :
  (forall s x st0, yields (body s x) st0 (fun _ _ => Q x)) ->
  yields (for_each body l s) st (fun _ _ => Forall Q l).
Proof.
  intros Hbody. revert s st. induction l as [|x l IH]; intros s st; simpl.
  - by apply yields_ret.
  - intros s2 st2. unfold bind.
    destruct (body s x st) as [[s1|e] st1] eqn:Hx; [|done]. intros Hrest.
    constructor; [exact (Hbody s x st s1 st1 Hx) | exact (IH s1 st1 s2 st2 Hrest)].
Qed.

Lemma yields_runs {A} (m : M A) st (P Q : A -> pl_state -> Prop) :
  yields m st P -> runs m st Q -> runs m st (fun a st' => P a st' /\ Q a st').
Proof. intros Hy (a & st' & Hrun & HQ). exists a, st'. split; [done|]. split; [by apply Hy|done]. Qed.

(** *** Computations that create no figure *)

Lemma keeps_figs_ret {A} (a : A) : keeps_figs (ret a).
Proof. by intros st. Qed.

Lemma keeps_figs_raise {A} (e : exn) : keeps_figs (@raise A e).
Proof. by intros st. Qed.

Lemma keeps_figs_lift {A} (r : result A) : keeps_figs (lift r).
Proof. by intros st. Qed.

Lemma keeps_figs_get_trace : keeps_figs get_trace.
Proof. by intros st. Qed.

Lemma keeps_figs_emit (c : call) : keeps_figs (emit c).
Proof. by intros st. Qed.

Lemma keeps_figs_set_legend_dict (d : kwargs) : keeps_figs (set_legend_dict d).
Proof. by intros st. Qed.

Lemma keeps_figs_no_repeat (given : list string) (kw : kwargs) :
  keeps_figs (no_repeat given kw).
Proof. intros st. unfold no_repeat. by destruct (forallb _ given). Qed.

Lemma keeps_figs_pl_subplot pos sharex label : keeps_figs (pl_subplot pos sharex label).
Proof. by intros st. Qed.

Lemma keeps_figs_bind {A B} (m : M A) (k : A -> M B) :
  keeps_figs m -> (forall a, keeps_figs (k a)) -> keeps_figs (bind m k).
Proof.
  intros Hm Hk st. unfold bind. specialize (Hm st).
  destruct (m st) as [[a|e] st1]; simpl in *; [|done]. by rewrite Hk.
Qed.

Lemma keeps_figs_when (b : bool) (m : M unit) : keeps_figs m -> keeps_figs (when b m).
Proof. destruct b; [done|]. intros _. apply keeps_figs_ret. Qed.

Lemma keeps_figs_for_each {A S} (body : S -> A -> M S) (l : list A) (s : S) :
  (forall s x, keeps_figs (body s x)) -> keeps_figs (for_each body l s).
Proof.
  intros Hbody. revert s. induction l as [|x l IH]; intros s; simpl.
  - apply keeps_figs_ret.
  - apply keeps_figs_bind; [apply Hbody | apply IH].
Qed.

Lemma keeps_figs_yields {A} (m : M A) st :
  keeps_figs m -> yields m st (fun _ st' => next_fig st' = next_fig st).
Proof. intros Hm a st' Hrun. specialize (Hm st). by rewrite Hrun in Hm. Qed.

End run_facts.

Ltac run_step :=
  first
    [ apply runs_bind
    | apply runs_ret
    | apply runs_emit; [assumption|]
    | apply runs_get_trace
    | apply runs_set_legend_dict
    | apply runs_pl_figure; [assumption|]
    | apply runs_pl_subplot; [assumption|]
    | apply runs_when; intros ? ].

Ltac run := repeat (run_step; simpl).

Ltac yields_step :=
  first
    [ apply yields_bind
    | apply yields_ret
    | apply yields_raise
    | apply yields_emit
    | apply yields_get_trace
    | apply yields_set_legend_dict
    | apply yields_pl_figure
    | apply yields_pl_subplot
    | apply yields_when; intros ? ].

Ltac yield := repeat (yields_step; simpl).

Ltac keeps_step :=
  first
    [ apply keeps_figs_bind; [|intros ?]
    | apply keeps_figs_ret
    | apply keeps_figs_raise
    | apply keeps_figs_lift
    | apply keeps_figs_get_trace
    | apply keeps_figs_emit
    | apply keeps_figs_set_legend_dict
    | apply keeps_figs_no_repeat
    | apply keeps_figs_pl_subplot
    | apply keeps_figs_when
    | apply keeps_figs_for_each; intros ? ?
    | match goal with
      | |- statements.keeps_figs (match ?x with _ => _ end) => destruct x
      | |- statements.keeps_figs (let '(_, _) := ?x in _) => destruct x
      end ].

Ltac keeps := repeat keeps_step.

(** ** The legend dictionary *)

Section legend_facts.
Import plotting statements.
Context `{Libs}.

(** Removing an entry of a dictionary and putting it back gives the
    dictionary. *)
Lemma pop_restore (d : kwargs) (key : string) (v : pyval) :
  d !! key = Some v -> <[key := v]> (delete key d) = d.
Proof. intros Hv. rewrite insert_delete_eq. by apply insert_id. Qed.

(** When the libraries carry out its calls, [title_grid_legend] returns;
    it hands back the dictionary it was given, which is also what the
    caller holds then, and creates no figure. *)
Lemma title_grid_legend_ok (ax : nat) (title : string) (grid commaticks setylim : bool)
    (legend_args : kwargs) (show_legend : pyval) (st : pl_state) :
  lib_accepts ->
  runs (title_grid_legend ax title grid commaticks setylim legend_args show_legend) st
    (fun d st' => d = legend_args /\ legend_dict st' = legend_args
                  /\ next_fig st' = next_fig st).
Proof.
  intros Hlib. unfold title_grid_legend.
  destruct (legend_args !! "show_legend") as [v|] eqn:Hv.
  - rewrite (pop_restore _ _ _ Hv). destruct commaticks; run; done.
  - destruct commaticks; run; done.
Qed.

Lemma title_grid_legend_yields (ax : nat) (title : string) (grid commaticks setylim : bool)
    (legend_args : kwargs) (show_legend : pyval) (st : pl_state) :
  yields (title_grid_legend ax title grid commaticks setylim legend_args show_legend) st
    (fun d st' => d = legend_args /\ legend_dict st' = legend_args).
Proof.
  unfold title_grid_legend.
  destruct (legend_args !! "show_legend") as [v|] eqn:Hv.
  - rewrite (pop_restore _ _ _ Hv). destruct commaticks; yield; done.
  - destruct commaticks; yield; done.
Qed.

(** C9, as the code has it. Whenever [title_grid_legend] returns, its
    [legend_args] dictionary is as it found it: the dictionary that the
    call hands back, and that the caller holds after the call, is the
    dictionary before the call (a ['show_legend'] entry is taken out for
    the legend call and put back with its value). *)
Theorem title_grid_legend_restores (ax : nat) (title : string)
    (grid commaticks setylim : bool) (legend_args : kwargs) (show_legend : pyval)
    (st : pl_state) (d : kwargs) (st' : pl_state) :
  title_grid_legend ax title grid commaticks setylim legend_args show_legend st = (Ok d, st') ->
  d = legend_args /\ legend_dict st' = legend_args.
Proof.
  apply (title_grid_legend_yields ax title grid commaticks setylim legend_args show_legend st).
Qed.

End legend_facts.

(** ** Intervention markers of the Plotly figures *)

Section marker_facts.
Import plotting statements.
Context `{Libs}.

Lemma mark_days_shapes (n_days : Z) (ds : list Z) (fig : go_figure) :
  fig_shapes (fold_left (mark_day n_days) ds fig)
  = fig_shapes fig ++ map marker_shape (List.filter (fun d => (0 <? d) && (d <? n_days)) ds).
Proof.
  revert fig. induction ds as [|d ds IH]; intros fig; simpl.
  - by rewrite app_nil_r.
  - rewrite IH. unfold mark_day. rewrite Z.gtb_ltb.
    destruct ((0 <? d) && (d <? n_days)); simpl; [|done].
    by rewrite <- app_assoc.
Qed.

Lemma interv_loop_shapes (step : go_figure -> intervention -> go_figure)
    (marked : intervention -> list Z) (l : list intervention) (fig : go_figure) :
  (forall f interv,
     fig_shapes (step f interv) = fig_shapes f ++ map marker_shape (marked interv)) ->
  fig_shapes (fold_left step l fig)
  = fig_shapes fig ++ map marker_shape (flat_map marked l).
Proof.
  intros Hstep. revert fig. induction l as [|interv l IH]; intros fig; simpl.
  - by rewrite app_nil_r.
  - by rewrite IH, Hstep, map_app, app_assoc.
Qed.

Lemma sim_markers_shapes (sim : sim_t) (fig : go_figure) :
  fig_shapes (sim_markers sim fig)
  = fig_shapes fig ++ map marker_shape (marker_days false sim).
Proof.
  unfold sim_markers, marker_days.
  rewrite <- (interv_loop_shapes
                (fun fig interv =>
                   match days interv with
                   | Some ds => fold_left (mark_day (n_days sim)) ds fig
                   | None => fig
                   end)).
  - by destruct (interventions sim).
  - intros f interv. destruct (days interv) as [ds|]; simpl; [|by rewrite app_nil_r].
    apply mark_days_shapes.
Qed.

Lemma people_markers_shapes (sim : sim_t) (fig : go_figure) :
  fig_shapes (people_markers sim fig)
  = fig_shapes fig ++ map marker_shape (marker_days true sim).
Proof.
  unfold people_markers, marker_days.
  rewrite <- (interv_loop_shapes
                (fun fig interv =>
                   match days interv with
                   | Some ds =>
                       if do_plot interv then fold_left (mark_day (n_days sim)) ds fig else fig
                   | None => fig
                   end)).
  - by destruct (interventions sim).
  - intros f interv. destruct (days interv) as [ds|]; simpl; [|by rewrite app_nil_r].
    destruct (do_plot interv); simpl; [|by rewrite app_nil_r].
    apply mark_days_shapes.
Qed.

(** Adding traces leaves the shapes of a figure alone. *)
Lemma rfold_keeps_shapes {A} (body : go_figure -> A -> result go_figure) (l : list A)
    (fig fig' : go_figure) :
  (forall f x f', body f x = Ok f' -> fig_shapes f' = fig_shapes f) ->
  rfold body l fig = Ok fig' -> fig_shapes fig' = fig_shapes fig.
Proof.
  intros Hbody. revert fig. induction l as [|x l IH]; intros fig; simpl.
  - by intros [= ->].
  - destruct (body fig x) as [f1|e] eqn:Hb; simpl; [|done].
    intros Hr. rewrite (IH _ Hr). by apply (Hbody fig x).
Qed.

Lemma plotly_sim_key_shapes (sim : sim_t) (fig : go_figure) (key : string) (fig' : go_figure) :
  plotly_sim_key sim fig key = Ok fig' -> fig_shapes fig' = fig_shapes fig.
Proof.
  unfold plotly_sim_key, rbind.
  destruct (dict_get (results sim) key) as [e|]; [|done].
  destruct (attr name "name" e); [|done].
  destruct (attr color "color" e); [|done].
  destruct (dict_get (results sim) "date"); [|done].
  destruct (data sim) as [d|]; [|by intros [= <-]].
  destruct (columns d !! key); [|by intros [= <-]].
  destruct (dict_get (columns d) "date"); [|done]. by intros [= <-].
Qed.

Lemma plotly_sim_panels_shapes (sim : sim_t) (panels : to_plot_t) (acc plots : list go_figure) :
  Forall (fun fig => fig_shapes fig = map marker_shape (marker_days false sim)) acc ->
  rfold (plotly_sim_panel sim) panels acc = Ok plots ->
  Forall (fun fig => fig_shapes fig = map marker_shape (marker_days false sim)) plots.
Proof.
  revert acc. induction panels as [|[title keys] panels IH]; intros acc Hacc; simpl.
  - by intros [= <-].
  - unfold rbind at 2.
    destruct (rfold (plotly_sim_key sim) keys go_Figure) as [fig|e] eqn:Hkeys; simpl; [|done].
    apply IH. apply Forall_app. split; [done|]. constructor; [|constructor].
    simpl. rewrite sim_markers_shapes.
    by rewrite (rfold_keeps_shapes _ _ _ _ (plotly_sim_key_shapes sim) Hkeys).
Qed.

Lemma marker_days_spec (use_flag : bool) (sim : sim_t) (d : Z) :
  d ∈ marker_days use_flag sim
  <-> exists interv ds,
        interv ∈ interventions sim /\ days interv = Some ds /\ d ∈ ds
        /\ 0 < d < n_days sim
        /\ (use_flag = true -> do_plot interv = true).
Proof.
  unfold marker_days. rewrite list_elem_of_In, in_flat_map. split.
  - intros (interv & Hin & Hd). apply list_elem_of_In in Hin.
    destruct (days interv) as [ds|] eqn:Hds; [|done].
    destruct (use_flag && negb (do_plot interv)) eqn:Hflag; [done|].
    apply filter_In in Hd as [Hd Hrange]. apply list_elem_of_In in Hd.
    exists interv, ds. repeat split; try done; try lia.
    intros ->. simpl in Hflag. by destruct (do_plot interv).
  - intros (interv & ds & Hin & Hds & Hd & Hrange & Hflag).
    exists interv. split; [by apply list_elem_of_In|]. rewrite Hds.
    assert (use_flag && negb (do_plot interv) = false) as ->.
    { destruct use_flag; [|done]. by rewrite Hflag. }
    apply filter_In. split; [by apply list_elem_of_In|].
    apply andb_true_iff. split; lia.
Qed.

(** C10. The line shapes of every figure of [plotly_sim] are the markers
    of the days, strictly between 0 and [n_days], of the interventions
    that have days, whatever their [do_plot] flag is; those of the figure
    of [plotly_people] are the markers of such days of the interventions
    whose [do_plot] flag is set. No other day gets a marker. *)
Theorem plotly_markers (sim : sim_t) :
  (forall plots,
     plotly_sim sim = Ok plots ->
     Forall (fun fig => fig_shapes fig = map marker_shape (marker_days false sim)) plots)
  /\ (forall do_show fig shown,
        plotly_people sim do_show = Ok (fig, shown) ->
        fig_shapes fig = map marker_shape (marker_days true sim))
  /\ (forall use_flag d,
        d ∈ marker_days use_flag sim
        <-> exists interv ds,
              interv ∈ interventions sim /\ days interv = Some ds /\ d ∈ ds
              /\ 0 < d < n_days sim
              /\ (use_flag = true -> do_plot interv = true)).
Proof.
  split; [|split].
  - intros plots. unfold plotly_sim. apply plotly_sim_panels_shapes. constructor.
  - intros do_show fig shown. unfold plotly_people, rbind.
    destruct (get_individual_states sim) as [[z sts]|e]; [|done].
    match goal with
    | |- context [rfold ?body ?l ?f] => destruct (rfold body l f) as [fig1|e] eqn:Htraces
    end; [|done].
    intros [= <- _]. simpl. rewrite people_markers_shapes.
    apply rfold_keeps_shapes in Htraces; [by rewrite Htraces|].
    intros f x f'. simpl. destruct (dict_get (results sim) "date"); [|done].
    by intros [= <-].
  - intros use_flag d. apply marker_days_spec.
Qed.

End marker_facts.

(** ** The core plotting functions *)

Section plot_facts.
Import plotting statements.
Context `{Libs}.

Lemma mergedicts_lacks (defaults : kwargs) (user : option kwargs) (key : string) :
  defaults !! key = None -> lacks user key -> mergedicts defaults user !! key = None.
Proof.
  intros Hdef Huser. unfold mergedicts. destruct user as [u|]; [|done].
  apply lookup_union_None. split; [by apply Huser | done].
Qed.

Lemma handle_args_distinct (fa pa sa aa fl la : option kwargs) :
  lacks pa "label" -> lacks pa "c" -> lacks fl "color" -> lacks sa "c" -> lacks sa "label" ->
  args_distinct (handle_args fa pa sa aa fl la).
Proof.
  intros Hlabel Hc Hcolor Hsc Hsl. unfold args_distinct, handle_args. simpl.
  repeat split; by apply mergedicts_lacks.
Qed.

Lemma lacks_None (key : string) : lacks None key.
Proof. by intros u. Qed.

Lemma kw_args_distinct (kw : plot_kw) :
  kw_distinct kw ->
  args_distinct (handle_args (fig_args kw) (plot_args kw) (scatter_args kw)
                   (axis_args kw) (fill_args kw) (legend_args kw)).
Proof. intros (? & ? & ? & ? & ?). by apply handle_args_distinct. Qed.

Lemma plot_data_ok (sim : sim_t) (key : string) (scatter_args : kwargs) (st : pl_state) :
  lib_accepts ->
  scatter_args !! "c" = None -> scatter_args !! "label" = None ->
  data_ok sim key ->
  runs (plot_data sim key scatter_args) st (fun _ st' => next_fig st' = next_fig st).
Proof.
  intros Hlib Hc Hlabel Hok. unfold plot_data.
  destruct (data sim) as [d|] eqn:Hd; [|by run].
  destruct (columns d !! key) as [col|] eqn:Hcol; [|by run].
  destruct col as [|x col]; [by run|].
  destruct (Hok d (x :: col) Hd Hcol) as (r & Hr); [done|].
  apply runs_bind. eapply runs_lift; [unfold dict_get; by rewrite Hr|].
  apply runs_bind. eapply runs_lift; [reflexivity|].
  apply runs_bind, runs_no_repeat; [by repeat constructor|].
  apply runs_bind, runs_emit; [done|].
  apply runs_bind, runs_no_repeat; [by repeat constructor|].
  by apply runs_emit.
Qed.

Lemma reset_ticks_ok (ax : nat) (sim : sim_t) (interval : pyval) (as_dates : bool)
    (st : pl_state) :
  lib_accepts ->
  runs (reset_ticks ax sim interval as_dates) st (fun _ st' => next_fig st' = next_fig st).
Proof.
  intros Hlib. unfold reset_ticks.
  destruct (truthy interval), as_dates; simpl; run;
    try (destruct (get_xlim _ _)); run; done.
Qed.

Lemma plot_interventions_ok (sim : sim_t) (ax : nat) (st : pl_state) :
  lib_accepts ->
  runs (plot_interventions sim ax) st (fun _ st' => next_fig st' = next_fig st).
Proof.
  intros Hlib. unfold plot_interventions. generalize (interventions sim) as l.
  intros l. revert st. induction l as [|i l IH]; intros st; simpl; [by run|].
  apply runs_bind, runs_emit; [done|].
  eapply runs_weaken; [apply IH|]. by intros [] st'.
Qed.

Lemma sim_key_data_ok (sim : sim_t) (kw : plot_kw) (key : string) :
  sim_key_ok sim kw key -> data_ok sim key.
Proof. intros (Hr & _) d col _ _ _. exact Hr. Qed.

Lemma plot_sim_key_ok (sim : sim_t) (kw : plot_kw) (args : args_t) (ax : nat) (key : string)
    (st : pl_state) :
  lib_accepts -> args_distinct args ->
  sim_key_ok sim kw key ->
  runs (plot_sim_key sim kw args ax tt key) st (fun _ st' => next_fig st' = next_fig st).
Proof.
  intros Hlib (Hlabel & Hc & Hcolor & Hsc & Hsl) Hok.
  pose proof (sim_key_data_ok _ _ _ Hok) as Hdata.
  destruct Hok as ((r & Hr) & (rt & Ht) & Hcol & Hlab).
  unfold plot_sim_key.
  apply runs_bind. eapply runs_lift; [unfold dict_get; by rewrite Hr|].
  apply runs_bind. eapply runs_lift; [unfold dict_get; by rewrite Ht|].
  apply runs_bind.
  assert (exists c, (match colors kw with
                     | Some cs => lift (dict_get cs key)
                     | None => lift (attr color "color" (Series r))
                     end) = lift (Ok c)) as (c & ->).
  { destruct (colors kw) as [cs|]; [|by eexists].
    destruct (Hcol cs eq_refl) as (c & Hc'). exists c. unfold dict_get. by rewrite Hc'. }
  eapply runs_lift; [reflexivity|].
  apply runs_bind.
  assert (exists lb, (match labels kw with
                      | Some ls => lift (dict_get ls key)
                      | None => lift (attr name "name" (Series r))
                      end) = lift (Ok lb)) as (lb & ->).
  { destruct (labels kw) as [ls|]; [|by eexists].
    destruct (Hlab ls eq_refl) as (lb & Hlb). exists lb. unfold dict_get. by rewrite Hlb. }
  eapply runs_lift; [reflexivity|].
  apply runs_bind. eapply runs_lift; [reflexivity|].
  apply runs_bind.
  apply runs_weaken with (P := fun _ st' => next_fig st' = next_fig st).
  { destruct (low r); [|by run].
    apply runs_bind. eapply runs_lift; [reflexivity|].
    destruct (high r); [|by run].
    apply runs_bind, runs_no_repeat; [by repeat constructor|]. by apply runs_emit. }
  intros _ st1 Hst1.
  apply runs_bind. eapply runs_lift; [reflexivity|].
  apply runs_bind, runs_no_repeat; [by repeat constructor|].
  apply runs_bind, runs_emit; [done|].
  apply runs_bind.
  eapply runs_weaken; [by apply plot_data_ok|]. simpl. intros _ st2 Hst2.
  eapply runs_weaken; [by apply reset_ticks_ok|]. simpl. intros _ st3 Hst3.
  rewrite Hst3, Hst2. exact Hst1.
Qed.

(** A loop whose body returns normally on every element, and creates no
    figure, does the same. *)
Lemma for_each_unit_ok {A} (body : unit -> A -> M unit) (Q : A -> Prop) (l : list A)
    (st : pl_state) :
  (forall x st0, Q x -> runs (body tt x) st0 (fun _ st' => next_fig st' = next_fig st0)) ->
  Forall Q l ->
  runs (for_each body l tt) st (fun _ st' => next_fig st' = next_fig st).
Proof.
  intros Hbody Hl. revert st. induction Hl as [|x l Hx Hl IH]; intros st; simpl; [by run|].
  apply runs_bind. eapply runs_weaken; [by apply Hbody|]. simpl. intros [] st1 Hst1.
  eapply runs_weaken; [apply IH|]. simpl. intros _ st2 Hst2. congruence.
Qed.

(** A loop raises what its body raises on the first element on which the
    body does not return. *)
Lemma for_each_unit_raises {A} (body : unit -> A -> M unit) (Q : A -> Prop)
    (pre post : list A) (x : A) (e : exn) (st : pl_state) :
  (forall y st0, Q y -> runs (body tt y) st0 (fun _ st' => next_fig st' = next_fig st0)) ->
  Forall Q pre ->
  (forall st0, raises (body tt x) st0 e) ->
  raises (for_each body (pre ++ x :: post) tt) st e.
Proof.
  intros Hbody Hpre Hx.
  destruct (for_each_unit_ok body Q pre st Hbody Hpre) as ([] & st1 & Hrun & _).
  destruct (Hx st1) as (st2 & Hraise).
  exists st2. rewrite for_each_app. unfold bind. rewrite Hrun. simpl.
  unfold bind. by rewrite Hraise.
Qed.

Lemma create_subplots_ok (figs : option (list nat)) (fig shareax : option nat)
    (n_rows : Q) (n_cols : Z) (pnum : nat) (fig_args : kwargs) (sep_figs : bool)
    (log_scale : log_scale_t) (title : string) (st : pl_state) :
  lib_accepts ->
  (sep_figs = true -> is_Some figs) ->
  runs (create_subplots figs fig shareax n_rows n_cols pnum fig_args sep_figs log_scale title) st
    (fun af st' => snd af = grow sep_figs figs (next_fig st) 1
                   /\ next_fig st' = bump sep_figs (next_fig st) 1).
Proof.
  intros Hlib Hfigs. unfold create_subplots, grow, bump.
  apply runs_bind, runs_get_trace. apply runs_bind.
  apply runs_weaken with
    (P := fun af st' => snd af = (if sep_figs
                                  then (fun fs => fs ++ [next_fig st]) <$> figs else figs)
                        /\ next_fig st' = (if sep_figs then S (next_fig st) else next_fig st)).
  - destruct sep_figs.
    + destruct (Hfigs eq_refl) as (fs & ->).
      apply runs_bind, runs_pl_figure; [done|].
      destruct (find_axes _ fig _); run; done.
    + destruct (find_axes _ fig _); run; done.
  - intros [ax figs'] st1 [Hfigs' Hst1]. simpl in Hfigs'. subst figs'.
    apply runs_bind.
    apply runs_weaken with (P := fun _ st' => next_fig st' = next_fig st1).
    + destruct log_scale as [b|titles]; [by run|].
      destruct titles; run; done.
    + intros _ st2 Hst2. apply runs_ret. simpl.
      split; [by destruct sep_figs|]. rewrite Hst2, Hst1.
      destruct sep_figs; lia.
Qed.

Lemma grow_grow (sep_figs : bool) (figs : option (list nat)) (first count : nat) :
  grow sep_figs (grow sep_figs figs first 1) (bump sep_figs first 1) count
  = grow sep_figs figs first (S count).
Proof.
  unfold grow, bump. destruct sep_figs; [|done].
  destruct figs as [fs|]; [|done]. simpl.
  by rewrite <- app_assoc, Nat.add_1_r.
Qed.

Lemma bump_bump (sep_figs : bool) (first count : nat) :
  bump sep_figs (bump sep_figs first 1) count = bump sep_figs first (S count).
Proof. unfold bump. destruct sep_figs; lia. Qed.

Lemma grow_is_Some (sep_figs : bool) (figs : option (list nat)) (first count : nat) :
  (sep_figs = true -> is_Some figs) ->
  sep_figs = true -> is_Some (grow sep_figs figs first count).
Proof.
  intros Hfigs Hsep. destruct (Hfigs Hsep) as (fs & ->). unfold grow. rewrite Hsep. by eexists.
Qed.

(** The panel loop: when the body of the loop returns on every panel whose
    keys satisfy [Q], then so does the loop; with separate figures it
    collects one new figure per panel, and it hands the legend dictionary
    on as it was. *)
Lemma panels_loop_ok (body : panel_state -> nat * (string * list string) -> M panel_state)
    (Q : list string -> Prop) (sep : bool) (tp : to_plot_t) (i : nat)
    (ax : option nat) (figs : option (list nat)) (legend : kwargs) (st : pl_state) :
  (forall ax figs legend pnum title keys st0,
     Q keys -> (sep = true -> is_Some figs) ->
     runs (body (ax, figs, legend) (pnum, (title, keys))) st0
       (fun s' st' => (exists ax', s' = (ax', grow sep figs (next_fig st0) 1, legend))
                      /\ next_fig st' = bump sep (next_fig st0) 1)) ->
  Forall (fun item => Q (snd item)) tp ->
  (sep = true -> is_Some figs) ->
  runs (for_each body (enumerate_from i tp) (ax, figs, legend)) st
    (fun s' st' => (exists ax', s' = (ax', grow sep figs (next_fig st) (length tp), legend))
                   /\ next_fig st' = bump sep (next_fig st) (length tp)).
Proof.
  intros Hbody Htp. revert i ax figs st.
  induction Htp as [|[title keys] tp Hkeys Htp IH]; intros i ax figs st Hfigs; simpl.
  - apply runs_ret. split.
    + exists ax. unfold grow. destruct sep; [|done]. destruct figs; [|done].
      simpl. by rewrite app_nil_r.
    + unfold bump. destruct sep; lia.
  - apply runs_bind. eapply runs_weaken; [by apply Hbody|]. simpl.
    intros s1 st1 [(ax1 & ->) Hst1].
    eapply runs_weaken; [apply IH; by apply grow_is_Some|]. simpl.
    intros s2 st2 [(ax2 & ->) Hst2]. rewrite Hst1 in *. split.
    + exists ax2. by rewrite grow_grow.
    + by rewrite Hst2, bump_bump.
Qed.

Lemma panels_loop_raises (body : panel_state -> nat * (string * list string) -> M panel_state)
    (Q : list string -> Prop) (sep : bool) (pre post : to_plot_t) (item : string * list string)
    (e : exn) (i : nat) (ax : option nat) (figs : option (list nat)) (legend : kwargs)
    (st : pl_state) :
  (forall ax figs legend pnum title keys st0,
     Q keys -> (sep = true -> is_Some figs) ->
     runs (body (ax, figs, legend) (pnum, (title, keys))) st0
       (fun s' st' => (exists ax', s' = (ax', grow sep figs (next_fig st0) 1, legend))
                      /\ next_fig st' = bump sep (next_fig st0) 1)) ->
  Forall (fun item => Q (snd item)) pre ->
  (sep = true -> is_Some figs) ->
  (forall ax figs legend pnum st0,
     (sep = true -> is_Some figs) -> raises (body (ax, figs, legend) (pnum, item)) st0 e) ->
  raises (for_each body (enumerate_from i (pre ++ item :: post)) (ax, figs, legend)) st e.
Proof.
  intros Hbody Hpre Hfigs Hitem.
  destruct (panels_loop_ok body Q sep pre i ax figs legend st Hbody Hpre Hfigs)
    as (s1 & st1 & Hrun & (ax1 & ->) & _).
  destruct (Hitem ax1 (grow sep figs (next_fig st) (length pre)) legend
              (i + length pre)%nat st1) as (st2 & Hraise); [by apply grow_is_Some|].
  exists st2. rewrite enumerate_from_app, for_each_app. unfold bind. rewrite Hrun.
  simpl. unfold bind. by rewrite Hraise.
Qed.

Lemma plot_sim_panel_ok (sim : sim_t) (kw : plot_kw) (args : args_t) (fig : option nat)
    (n_rows : Q) (ax : option nat) (figs : option (list nat)) (legend : kwargs)
    (pnum : nat) (title : string) (keys : list string) (st : pl_state) :
  lib_accepts -> args_distinct args ->
  Forall (sim_key_ok sim kw) keys ->
  (sep_figs kw = true -> is_Some figs) ->
  runs (plot_sim_panel sim kw args fig n_rows (ax, figs, legend) (pnum, (title, keys))) st
    (fun s' st' => (exists ax', s' = (ax', grow (sep_figs kw) figs (next_fig st) 1, legend))
                   /\ next_fig st' = bump (sep_figs kw) (next_fig st) 1).
Proof.
  intros Hlib Hargs Hkeys Hfigs. unfold plot_sim_panel.
  apply runs_bind. eapply runs_weaken; [by apply create_subplots_ok|]. simpl.
  intros [ax1 figs1] st1 [Hfigs1 Hst1]. simpl in Hfigs1. subst figs1.
  apply runs_bind.
  eapply runs_weaken;
    [apply (for_each_unit_ok _ (sim_key_ok sim kw));
       [intros; by apply plot_sim_key_ok | done]|].
  simpl. intros _ st2 Hst2.
  apply runs_bind. eapply runs_weaken; [by apply plot_interventions_ok|]. simpl.
  intros _ st3 Hst3.
  apply runs_bind. eapply runs_weaken; [by apply title_grid_legend_ok|]. simpl.
  intros d st4 (-> & _ & Hst4). apply runs_ret. split; [by eexists|]. congruence.
Qed.

Lemma plot_sim_key_raises (sim : sim_t) (kw : plot_kw) (args : args_t) (ax : nat)
    (key : string) (st : pl_state) :
  results sim !! key = None ->
  raises (plot_sim_key sim kw args ax tt key) st (KeyError key).
Proof.
  intros Hkey. unfold plot_sim_key. apply raises_bind_l, raises_lift.
  unfold dict_get. by rewrite Hkey.
Qed.

Lemma plot_sim_panel_raises (sim : sim_t) (kw : plot_kw) (args : args_t) (fig : option nat)
    (n_rows : Q) (ax : option nat) (figs : option (list nat)) (legend : kwargs)
    (pnum : nat) (title : string) (pre post : list string) (key : string) (st : pl_state) :
  lib_accepts -> args_distinct args ->
  Forall (sim_key_ok sim kw) pre ->
  results sim !! key = None ->
  (sep_figs kw = true -> is_Some figs) ->
  raises (plot_sim_panel sim kw args fig n_rows (ax, figs, legend)
            (pnum, (title, pre ++ key :: post))) st (KeyError key).
Proof.
  intros Hlib Hargs Hpre Hkey Hfigs. unfold plot_sim_panel.
  apply raises_bind_r. eapply runs_weaken; [by apply create_subplots_ok|]. simpl.
  intros [ax1 figs1] st1 _. apply raises_bind_l.
  apply (for_each_unit_raises _ (sim_key_ok sim kw)); [|done|].
  - intros. by apply plot_sim_key_ok.
  - intros. by apply plot_sim_key_raises.
Qed.

Lemma create_figs_ok (args : args_t) (font_size font_family : pyval) (sep_figs : bool)
    (fig : option nat) (st : pl_state) :
  lib_accepts ->
  runs (create_figs args font_size font_family sep_figs fig) st
    (fun ffa st' =>
       ffa = (if sep_figs then None
              else Some (match fig with Some f => f | None => next_fig st end),
              if sep_figs then Some [] else None,
              None)
       /\ next_fig st' = if sep_figs then next_fig st
                         else match fig with Some _ => next_fig st | None => S (next_fig st) end).
Proof.
  intros Hlib. unfold create_figs. destruct sep_figs.
  - run; done.
  - destruct fig as [f|]; run; done.
Qed.

(** The panels that [handle_to_plot] hands back are the supplied ones, or
    the default table. *)
Lemma handle_to_plot_panels (which : string) (table : to_plot_t) (tp : option to_plot_t)
    (n_cols : Z) (panels : to_plot_t) (n_rows : Q) :
  (tp = None -> (if String.eqb which "sim" then Ok get_sim_plots
                 else if String.eqb which "scens" then Ok get_scen_plots
                 else Raise (NotImplementedError (which_msg which))) = Ok table) ->
  handle_to_plot which tp n_cols = Ok (panels, n_rows) ->
  panels = match tp with Some supplied => supplied | None => table end.
Proof.
  intros Htable. unfold handle_to_plot, odict, dcp.
  destruct tp as [supplied|]; simpl.
  - destruct (truediv _ n_cols); simpl; congruence.
  - rewrite (Htable eq_refl). simpl. destruct (truediv _ n_cols); simpl; congruence.
Qed.

Lemma handle_to_plot_grid (which : string) (table : to_plot_t) (tp : option to_plot_t)
    (n_cols : Z) :
  (tp = None -> (if String.eqb which "sim" then Ok get_sim_plots
                 else if String.eqb which "scens" then Ok get_scen_plots
                 else Raise (NotImplementedError (which_msg which))) = Ok table) ->
  let panels := match tp with Some supplied => supplied | None => table end in
  grid_ok n_cols (length panels) ->
  exists n_rows : Z,
    handle_to_plot which tp n_cols = Ok (panels, inject_Z n_rows)
    /\ (n_rows - 1) * n_cols < Z.of_nat (length panels) <= n_rows * n_cols.
Proof.
  intros Htable panels [Hcols Hpanels].
  destruct (truediv_rows (Z.of_nat (length panels)) n_cols) as (q & r & Hq & Hr & _ & _ & Hint);
    [lia|lia|lia|].
  exists r. split; [|apply Hint; lia].
  unfold handle_to_plot, odict, dcp. subst panels.
  destruct tp as [supplied|]; simpl.
  - rewrite Hq. simpl. by rewrite Hr.
  - rewrite (Htable eq_refl). simpl. rewrite Hq. simpl. by rewrite Hr.
Qed.

Lemma handle_to_plot_sim (kw : plot_kw) :
  grid_ok (n_cols kw) (length (sim_to_plot kw)) ->
  exists n_rows, handle_to_plot "sim" (to_plot kw) (n_cols kw) = Ok (sim_to_plot kw, n_rows).
Proof.
  intros Hgrid.
  destruct (handle_to_plot_grid "sim" get_sim_plots (to_plot kw) (n_cols kw)) as (r & Hr & _);
    [done|exact Hgrid|]. by eexists.
Qed.

Lemma handle_to_plot_scens (kw : plot_kw) :
  grid_ok (n_cols kw) (length (scens_to_plot kw)) ->
  exists n_rows, handle_to_plot "scens" (to_plot kw) (n_cols kw) = Ok (scens_to_plot kw, n_rows).
Proof.
  intros Hgrid.
  destruct (handle_to_plot_grid "scens" get_scen_plots (to_plot kw) (n_cols kw)) as (r & Hr & _);
    [done|exact Hgrid|]. by eexists.
Qed.

(** When nothing stands in the way, [plot_sim] reaches its last line. *)
Lemma plot_sim_reaches_tidy_up (sim : sim_t) (kw : plot_kw) (st : pl_state) :
  sim_plots_ok sim kw ->
  exists st1,
    plot_sim sim kw st
    = tidy_up (body_fig kw st) (body_figs kw st (length (sim_to_plot kw))) (sep_figs kw)
        (do_save kw) (fig_path kw) (do_show kw) "covasim.png" st1.
Proof.
  intros (Hlib & Hkw & Hn & Hkeys). destruct (handle_to_plot_sim kw Hn) as (n_rows & Hplot).
  pose proof (kw_args_distinct kw Hkw) as Hargs.
  unfold plot_sim. rewrite Hplot.
  set (args := handle_args _ _ _ _ _ _) in *.
  destruct (create_figs_ok args (font_size kw) (font_family kw) (sep_figs kw) (fig kw) st Hlib)
    as (ffa & st0 & Hfigs & -> & Hst0).
  destruct (panels_loop_ok
              (plot_sim_panel sim kw args
                 (if sep_figs kw then None
                  else Some (match fig kw with Some f => f | None => next_fig st end)) n_rows)
              (Forall (sim_key_ok sim kw)) (sep_figs kw) (sim_to_plot kw) 0 None
              (if sep_figs kw then Some [] else None) (args_legend args) st0)
    as (s & st1 & Hloop & (ax' & ->) & _).
  { intros. by apply plot_sim_panel_ok. }
  { done. }
  { intros ->. by eexists. }
  exists st1. unfold bind at 1. unfold lift. unfold bind at 1. rewrite Hfigs.
  unfold bind at 1. unfold enumerate. rewrite Hloop.
  unfold body_fig, body_figs, grow. destruct (sep_figs kw); [|done].
  simpl. by rewrite Hst0.
Qed.

Lemma plot_scens_scen_ok (scens : scens_t) (kw : plot_kw) (args : args_t) (ax : nat)
    (key : string) (item : nat * (string * scendata_t)) (st : pl_state) :
  lib_accepts -> args_distinct args ->
  scen_ok scens kw key item ->
  runs (plot_scens_scen scens kw args (gridcolors (size (sims scens))) ax key tt item) st
    (fun _ st' => next_fig st' = next_fig st).
Proof.
  intros Hlib (Hlabel & Hc & Hcolor & Hsc & Hsl).
  destruct item as [snum [scenkey sd]]. intros ((sim & rest & Hsims & Hdata) & Hcol & Hlab).
  simpl in *. unfold plot_scens_scen.
  apply runs_bind. eapply runs_lift; [unfold dict_get; by rewrite Hsims|].
  apply runs_bind. eapply runs_lift; [reflexivity|].
  apply runs_bind.
  assert (exists c, (match colors kw with
                     | Some cs => lift (dict_get cs scenkey)
                     | None => lift (getitem (gridcolors (size (sims scens))) snum)
                     end) = lift (Ok c)) as (c & ->).
  { destruct (colors kw) as [cs|]; destruct Hcol as (c & Hc'); exists c.
    - unfold dict_get. by rewrite Hc'.
    - unfold getitem. by rewrite Hc'. }
  eapply runs_lift; [reflexivity|].
  apply runs_bind.
  assert (exists lb, (match labels kw with
                      | Some ls => lift (dict_get ls scenkey)
                      | None => ret (scen_name sd)
                      end) = lift (Ok lb)) as (lb & ->).
  { destruct (labels kw) as [ls|]; [|by eexists].
    destruct (Hlab ls eq_refl) as (lb & Hlb). exists lb. unfold dict_get. by rewrite Hlb. }
  eapply runs_lift; [reflexivity|].
  apply runs_bind, runs_no_repeat; [by repeat constructor|].
  apply runs_bind, runs_emit; [done|].
  apply runs_bind, runs_no_repeat; [by repeat constructor|].
  apply runs_bind, runs_emit; [done|].
  apply runs_bind. eapply runs_weaken; [by apply plot_data_ok|]. simpl. intros _ st1 Hst1.
  apply runs_bind. eapply runs_weaken; [by apply plot_interventions_ok|]. simpl.
  intros _ st2 Hst2.
  eapply runs_weaken; [by apply reset_ticks_ok|]. simpl. intros _ st3 Hst3.
  rewrite Hst3, Hst2. exact Hst1.
Qed.

Lemma plot_scens_key_ok (scens : scens_t) (kw : plot_kw) (args : args_t) (ax : nat)
    (key : string) (st : pl_state) :
  lib_accepts -> args_distinct args ->
  scens_key_ok scens kw key ->
  runs (plot_scens_key scens kw args (gridcolors (size (sims scens))) ax tt key) st
    (fun _ st' => next_fig st' = next_fig st).
Proof.
  intros Hlib Hargs (resdata & Hres & Hall). unfold plot_scens_key.
  apply runs_bind. eapply runs_lift; [unfold dict_get; by rewrite Hres|].
  apply (for_each_unit_ok _ (scen_ok scens kw key)).
  - intros. by apply plot_scens_scen_ok.
  - apply Forall_lookup. intros j [snum [scenkey sd]] Hj.
    unfold enumerate in Hj. rewrite enumerate_from_lookup in Hj.
    destruct (resdata !! j) as [[k d]|] eqn:Hrj; [|done].
    simpl in Hj. injection Hj as <- <- <-. exact (Hall j k d Hrj).
Qed.

Lemma plot_scens_panel_ok (scens : scens_t) (kw : plot_kw) (args : args_t) (fig : option nat)
    (n_rows : Q) (ax : option nat) (figs : option (list nat)) (legend : kwargs)
    (pnum : nat) (title : string) (keys : list string) (st : pl_state) :
  lib_accepts -> args_distinct args ->
  Forall (scens_key_ok scens kw) keys ->
  (sep_figs kw = true -> is_Some figs) ->
  runs (plot_scens_panel scens kw args (gridcolors (size (sims scens))) fig n_rows
          (ax, figs, legend) (pnum, (title, keys))) st
    (fun s' st' => (exists ax', s' = (ax', grow (sep_figs kw) figs (next_fig st) 1, legend))
                   /\ next_fig st' = bump (sep_figs kw) (next_fig st) 1).
Proof.
  intros Hlib Hargs Hkeys Hfigs. unfold plot_scens_panel.
  apply runs_bind. eapply runs_weaken; [by apply create_subplots_ok|]. simpl.
  intros [ax1 figs1] st1 [Hfigs1 Hst1]. simpl in Hfigs1. subst figs1.
  apply runs_bind.
  eapply runs_weaken;
    [apply (for_each_unit_ok _ (scens_key_ok scens kw));
       [intros; by apply plot_scens_key_ok | done]|].
  simpl. intros _ st2 Hst2.
  apply runs_bind. eapply runs_weaken; [by apply title_grid_legend_ok|]. simpl.
  intros d st3 (-> & _ & Hst3). apply runs_ret. split; [by eexists|]. congruence.
Qed.

(** When nothing stands in the way, [plot_scens] reaches its last line. *)
Lemma plot_scens_reaches_tidy_up (scens : scens_t) (kw : plot_kw) (st : pl_state) :
  scens_plots_ok scens kw ->
  exists st1,
    plot_scens scens kw st
    = tidy_up (body_fig kw st) (body_figs kw st (length (scens_to_plot kw))) (sep_figs kw)
        (do_save kw) (fig_path kw) (do_show kw) "covasim_scenarios.png" st1.
Proof.
  intros (Hlib & Hkw & Hn & Hkeys). destruct (handle_to_plot_scens kw Hn) as (n_rows & Hplot).
  pose proof (kw_args_distinct kw Hkw) as Hargs.
  unfold plot_scens. rewrite Hplot.
  set (args := handle_args _ _ _ _ _ _) in *.
  destruct (create_figs_ok args (font_size kw) (font_family kw) (sep_figs kw) (fig kw) st Hlib)
    as (ffa & st0 & Hfigs & -> & Hst0).
  destruct (panels_loop_ok
              (plot_scens_panel scens kw args (gridcolors (size (sims scens)))
                 (if sep_figs kw then None
                  else Some (match fig kw with Some f => f | None => next_fig st end)) n_rows)
              (Forall (scens_key_ok scens kw)) (sep_figs kw) (scens_to_plot kw) 0 None
              (if sep_figs kw then Some [] else None) (args_legend args) st0)
    as (s & st1 & Hloop & (ax' & ->) & _).
  { intros. by apply plot_scens_panel_ok. }
  { done. }
  { intros ->. by eexists. }
  exists st1. unfold bind at 1. unfold lift. unfold bind at 1. rewrite Hfigs.
  unfold bind at 1. unfold enumerate. rewrite Hloop.
  unfold body_fig, body_figs, grow. destruct (sep_figs kw); [|done].
  simpl. by rewrite Hst0.
Qed.

(** The last line of the entry points: what [tidy_up] returns when it
    returns, and what it has added to the calls made so far. *)
Lemma tidy_up_yields (fig : option nat) (figs : option (list nat)) (sep_figs : bool)
    (do_save : pyval) (fig_path : option string) (do_show : bool) (default_name : string)
    (st : pl_state) :
  yields (tidy_up fig figs sep_figs do_save fig_path do_show default_name) st
    (fun r st' =>
       r = (if sep_figs then ManyFigs figs else OneFig fig)
       /\ exists saved,
            trace st' = (if do_show then Show else Close fig) :: saved ++ trace st
            /\ saved_as do_save fig_path default_name saved).
Proof.
  unfold tidy_up, saved_as. destruct (truthy do_save).
  - apply yields_bind, yields_bind, yields_lift. intros p Hp.
    apply yields_emit. destruct do_show, sep_figs; yield;
      (split; [done|]); exists [SaveFig p]; (split; [done|]); by exists p.
  - destruct do_show, sep_figs; yield; (split; [done|]); by exists [].
Qed.

Lemma tidy_up_ok (fig : option nat) (figs : option (list nat)) (sep_figs : bool)
    (do_save : pyval) (fig_path : option string) (do_show : bool) (default_name : string)
    (st : pl_state) :
  lib_accepts -> paths_accepted ->
  runs (tidy_up fig figs sep_figs do_save fig_path do_show default_name) st
    (fun _ _ => True).
Proof.
  intros Hlib Hpaths. unfold tidy_up. destruct (truthy do_save).
  - destruct (Hpaths (match fig_path with None => default_name | Some p => p end))
      as (p & Hp).
    apply runs_bind, runs_bind. eapply runs_lift; [exact Hp|].
    destruct do_show, sep_figs; run; done.
  - destruct do_show, sep_figs; run; done.
Qed.

(** *** What the entry points return, when they return *)

Lemma plot_data_keeps (sim : sim_t) (key : string) (scatter_args : kwargs) :
  keeps_figs (plot_data sim key scatter_args).
Proof. unfold plot_data. keeps. Qed.

Lemma reset_ticks_keeps (ax : nat) (sim : sim_t) (interval : pyval) (as_dates : bool) :
  keeps_figs (reset_ticks ax sim interval as_dates).
Proof. unfold reset_ticks. keeps. Qed.

Lemma plot_interventions_keeps (sim : sim_t) (ax : nat) :
  keeps_figs (plot_interventions sim ax).
Proof. unfold plot_interventions. keeps. Qed.

Lemma title_grid_legend_keeps (ax : nat) (title : string) (grid commaticks setylim : bool)
    (legend_args : kwargs) (show_legend : pyval) :
  keeps_figs (title_grid_legend ax title grid commaticks setylim legend_args show_legend).
Proof. unfold title_grid_legend. keeps. Qed.

Lemma plot_sim_key_keeps (sim : sim_t) (kw : plot_kw) (args : args_t) (ax : nat)
    (u : unit) (key : string) :
  keeps_figs (plot_sim_key sim kw args ax u key).
Proof.
  unfold plot_sim_key.
  repeat first [ apply plot_data_keeps | apply reset_ticks_keeps | keeps_step ].
Qed.

Lemma plot_scens_key_keeps (scens : scens_t) (kw : plot_kw) (args : args_t)
    (default_colors : list pyval) (ax : nat) (u : unit) (key : string) :
  keeps_figs (plot_scens_key scens kw args default_colors ax u key).
Proof.
  unfold plot_scens_key, plot_scens_scen.
  repeat first [ apply plot_data_keeps | apply reset_ticks_keeps
               | apply plot_interventions_keeps | keeps_step ].
Qed.

Lemma create_figs_yields (args : args_t) (font_size font_family : pyval) (sep_figs : bool)
    (fig : option nat) (st : pl_state) :
  yields (create_figs args font_size font_family sep_figs fig) st
    (fun ffa st' =>
       ffa = (if sep_figs then None
              else Some (match fig with Some f => f | None => next_fig st end),
              if sep_figs then Some [] else None,
              None)
       /\ next_fig st' = if sep_figs then next_fig st
                         else match fig with Some _ => next_fig st | None => S (next_fig st) end).
Proof.
  unfold create_figs. destruct sep_figs.
  - yield; done.
  - destruct fig as [f|]; yield; done.
Qed.

Lemma create_subplots_yields (figs : option (list nat)) (fig shareax : option nat)
    (n_rows : Q) (n_cols : Z) (pnum : nat) (fig_args : kwargs) (sep_figs : bool)
    (log_scale : log_scale_t) (title : string) (st : pl_state) :
  yields (create_subplots figs fig shareax n_rows n_cols pnum fig_args sep_figs log_scale title) st
    (fun af st' => snd af = grow sep_figs figs (next_fig st) 1
                   /\ next_fig st' = bump sep_figs (next_fig st) 1).
Proof.
  unfold create_subplots, grow, bump.
  apply yields_bind, yields_get_trace. apply yields_bind.
  apply yields_weaken with
    (P := fun af st' => snd af = (if sep_figs
                                  then (fun fs => fs ++ [next_fig st]) <$> figs else figs)
                        /\ next_fig st' = (if sep_figs then S (next_fig st) else next_fig st)).
  - destruct sep_figs.
    + destruct figs as [fs|]; [|apply yields_raise].
      apply yields_bind, yields_pl_figure.
      destruct (find_axes _ fig _); yield; done.
    + destruct (find_axes _ fig _); yield; done.
  - intros [ax figs'] st1 [Hfigs' Hst1]. simpl in Hfigs'. subst figs'.
    apply yields_bind.
    apply yields_weaken with (P := fun _ st' => next_fig st' = next_fig st1).
    + apply keeps_figs_yields. keeps.
    + intros _ st2 Hst2. apply yields_ret. simpl.
      split; [by destruct sep_figs|]. rewrite Hst2, Hst1.
      destruct sep_figs; lia.
Qed.

(** The panel loop, when it returns: with separate figures it has
    collected one new figure per panel. *)
Lemma panels_loop_yields (body : panel_state -> nat * (string * list string) -> M panel_state)
    (sep : bool) (tp : to_plot_t) (i : nat)
    (ax : option nat) (figs : option (list nat)) (legend : kwargs) (st : pl_state) :
  (forall ax figs legend pnum title keys st0,
     yields (body (ax, figs, legend) (pnum, (title, keys))) st0
       (fun s' st' => snd (fst s') = grow sep figs (next_fig st0) 1
                      /\ next_fig st' = bump sep (next_fig st0) 1)) ->
  yields (for_each body (enumerate_from i tp) (ax, figs, legend)) st
    (fun s' st' => snd (fst s') = grow sep figs (next_fig st) (length tp)
                   /\ next_fig st' = bump sep (next_fig st) (length tp)).
Proof.
  intros Hbody. revert i ax figs legend st.
  induction tp as [|[title keys] tp IH]; intros i ax figs legend st; simpl.
  - apply yields_ret. simpl. split.
    + unfold grow. destruct sep; [|done]. destruct figs; [|done].
      simpl. by rewrite app_nil_r.
    + unfold bump. destruct sep; lia.
  - apply yields_bind. eapply yields_weaken; [apply Hbody|]. simpl.
    intros [[ax1 figs1] legend1] st1 [Hfigs1 Hst1]. simpl in Hfigs1. subst figs1.
    eapply yields_weaken; [apply IH|]. simpl.
    intros s2 st2 [Hfigs2 Hst2]. rewrite Hst1 in *. split.
    + by rewrite Hfigs2, grow_grow.
    + by rewrite Hst2, bump_bump.
Qed.

Lemma plot_sim_panel_yields (sim : sim_t) (kw : plot_kw) (args : args_t) (fig : option nat)
    (n_rows : Q) (ax : option nat) (figs : option (list nat)) (legend : kwargs)
    (pnum : nat) (title : string) (keys : list string) (st : pl_state) :
  yields (plot_sim_panel sim kw args fig n_rows (ax, figs, legend) (pnum, (title, keys))) st
    (fun s' st' => snd (fst s') = grow (sep_figs kw) figs (next_fig st) 1
                   /\ next_fig st' = bump (sep_figs kw) (next_fig st) 1).
Proof.
  unfold plot_sim_panel.
  apply yields_bind. eapply yields_weaken; [apply create_subplots_yields|]. simpl.
  intros [ax1 figs1] st1 [Hfigs1 Hst1]. simpl in Hfigs1. subst figs1.
  apply yields_bind. eapply yields_weaken.
  { apply keeps_figs_yields, keeps_figs_for_each. intros. apply plot_sim_key_keeps. }
  simpl. intros _ st2 Hst2.
  apply yields_bind. eapply yields_weaken;
    [apply keeps_figs_yields, plot_interventions_keeps|].
  simpl. intros _ st3 Hst3.
  apply yields_bind. eapply yields_weaken;
    [apply keeps_figs_yields, title_grid_legend_keeps|].
  simpl. intros d st4 Hst4. apply yields_ret. simpl. split; [done|]. congruence.
Qed.

Lemma plot_scens_panel_yields (scens : scens_t) (kw : plot_kw) (args : args_t)
    (default_colors : list pyval) (fig : option nat)
    (n_rows : Q) (ax : option nat) (figs : option (list nat)) (legend : kwargs)
    (pnum : nat) (title : string) (keys : list string) (st : pl_state) :
  yields (plot_scens_panel scens kw args default_colors fig n_rows
            (ax, figs, legend) (pnum, (title, keys))) st
    (fun s' st' => snd (fst s') = grow (sep_figs kw) figs (next_fig st) 1
                   /\ next_fig st' = bump (sep_figs kw) (next_fig st) 1).
Proof.
  unfold plot_scens_panel.
  apply yields_bind. eapply yields_weaken; [apply create_subplots_yields|]. simpl.
  intros [ax1 figs1] st1 [Hfigs1 Hst1]. simpl in Hfigs1. subst figs1.
  apply yields_bind. eapply yields_weaken.
  { apply keeps_figs_yields, keeps_figs_for_each. intros. apply plot_scens_key_keeps. }
  simpl. intros _ st2 Hst2.
  apply yields_bind. eapply yields_weaken;
    [apply keeps_figs_yields, title_grid_legend_keeps|].
  simpl. intros d st3 Hst3. apply yields_ret. simpl. split; [done|]. congruence.
Qed.

(** The figures and the last calls of [plot_sim], when it returns. *)
Lemma plot_sim_yields (sim : sim_t) (kw : plot_kw) (st : pl_state) :
  yields (plot_sim sim kw) st
    (fun r st' =>
       r = expected_figs kw st (length (sim_to_plot kw))
       /\ exists c saved tr,
            trace st' = c :: saved ++ tr
            /\ saved_as (do_save kw) (fig_path kw) "covasim.png" saved).
Proof.
  unfold plot_sim. set (args := handle_args _ _ _ _ _ _).
  apply yields_bind, yields_lift. intros [tp n_rows] Hplot.
  apply (handle_to_plot_panels "sim" get_sim_plots) in Hplot; [|done].
  change (tp = sim_to_plot kw) in Hplot. subst tp.
  apply yields_bind. eapply yields_weaken; [apply create_figs_yields|]. simpl.
  intros ffa st0 [-> Hst0].
  apply yields_bind. unfold enumerate.
  eapply yields_weaken; [apply (panels_loop_yields _ (sep_figs kw))|].
  { intros. apply plot_sim_panel_yields. }
  simpl. intros [[ax1 figs1] legend1] st1 [Hfigs1 Hst1]. simpl in Hfigs1. subst figs1.
  eapply yields_weaken; [apply tidy_up_yields|]. simpl.
  intros r st2 (-> & saved & Htrace & Hsaved). split.
  - unfold expected_figs, grow. destruct (sep_figs kw); [|done].
    simpl. by rewrite Hst0.
  - by eexists _, saved, _.
Qed.

Lemma plot_scens_yields (scens : scens_t) (kw : plot_kw) (st : pl_state) :
  yields (plot_scens scens kw) st
    (fun r st' =>
       r = expected_figs kw st (length (scens_to_plot kw))
       /\ exists c saved tr,
            trace st' = c :: saved ++ tr
            /\ saved_as (do_save kw) (fig_path kw) "covasim_scenarios.png" saved).
Proof.
  unfold plot_scens. set (args := handle_args _ _ _ _ _ _).
  apply yields_bind, yields_lift. intros [tp n_rows] Hplot.
  apply (handle_to_plot_panels "scens" get_scen_plots) in Hplot; [|done].
  change (tp = scens_to_plot kw) in Hplot. subst tp.
  apply yields_bind. eapply yields_weaken; [apply create_figs_yields|]. simpl.
  intros ffa st0 [-> Hst0].
  apply yields_bind. unfold enumerate.
  eapply yields_weaken; [apply (panels_loop_yields _ (sep_figs kw))|].
  { intros. apply plot_scens_panel_yields. }
  simpl. intros [[ax1 figs1] legend1] st1 [Hfigs1 Hst1]. simpl in Hfigs1. subst figs1.
  eapply yields_weaken; [apply tidy_up_yields|]. simpl.
  intros r st2 (-> & saved & Htrace & Hsaved). split.
  - unfold expected_figs, grow. destruct (sep_figs kw); [|done].
    simpl. by rewrite Hst0.
  - by eexists _, saved, _.
Qed.

(** *** Lookups of result keys are not caught *)

Lemma plot_sim_key_present (sim : sim_t) (kw : plot_kw) (args : args_t) (ax : nat)
    (u : unit) (key : string) (st : pl_state) :
  yields (plot_sim_key sim kw args ax u key) st (fun _ _ => is_Some (results sim !! key)).
Proof.
  unfold plot_sim_key. apply yields_bind, yields_lift. intros res Hres.
  intros a st' _. unfold dict_get in Hres.
  destruct (results sim !! key); [by eexists | done].
Qed.

Lemma plot_sim_panel_present (sim : sim_t) (kw : plot_kw) (args : args_t) (fig : option nat)
    (n_rows : Q) (s : panel_state) (item : nat * (string * list string)) (st : pl_state) :
  yields (plot_sim_panel sim kw args fig n_rows s item) st
    (fun _ _ => Forall (fun key => is_Some (results sim !! key)) (snd (snd item))).
Proof.
  destruct s as [[ax figs] legend], item as [pnum [title keys]]. unfold plot_sim_panel.
  apply yields_bind_any. intros [ax1 figs1] st1.
  apply yields_bind. eapply yields_weaken.
  { apply for_each_yields_all. intros. apply plot_sim_key_present. }
  simpl. intros _ st2 Hkeys. by apply yields_const.
Qed.

Lemma enumerate_from_Forall {A} (Q : A -> Prop) (l : list A) (i : nat) :
  Forall (fun item => Q (snd item)) (enumerate_from i l) -> Forall Q l.
Proof.
  revert i. induction l as [|x l IH]; intros i; simpl; [done|].
  intros Hall. apply Forall_cons in Hall as [Hx Hl]. constructor; [done | by apply (IH (S i))].
Qed.

(** A call of [plot_sim] that returns has found every key of every panel
    in [sim.results]. *)
Lemma plot_sim_present (sim : sim_t) (kw : plot_kw) (st : pl_state) :
  yields (plot_sim sim kw) st
    (fun _ _ => Forall (fun item : string * list string =>
                          Forall (fun key => is_Some (results sim !! key)) (snd item))
                  (sim_to_plot kw)).
Proof.
  unfold plot_sim. set (args := handle_args _ _ _ _ _ _).
  apply yields_bind, yields_lift. intros [tp n_rows] Hplot.
  apply (handle_to_plot_panels "sim" get_sim_plots) in Hplot; [|done].
  change (tp = sim_to_plot kw) in Hplot. subst tp.
  apply yields_bind_any. intros [[fig figs] ax] st0.
  apply yields_bind. eapply yields_weaken.
  { apply for_each_yields_all. intros. apply plot_sim_panel_present. }
  simpl. intros s1 st1 Hall. apply yields_const.
  unfold enumerate in Hall.
  exact (enumerate_from_Forall
           (fun item : string * list string =>
              Forall (fun key => is_Some (results sim !! key)) (snd item)) _ 0 Hall).
Qed.

Lemma plot_result_present (sim : sim_t) (key : string) (kw : plot_kw) (st : pl_state) :
  yields (plot_result sim key kw) st (fun _ _ => is_Some (results sim !! key)).
Proof.
  unfold plot_result. apply yields_bind_any. intros [[fig figs] ax] st0.
  apply yields_bind, yields_lift. intros res Hres.
  intros a st' _. unfold dict_get in Hres.
  destruct (results sim !! key); [by eexists | done].
Qed.

Lemma plot_result_raises (sim : sim_t) (key : string) (kw : plot_kw) (st : pl_state) :
  lib_accepts ->
  results sim !! key = None ->
  raises (plot_result sim key kw) st (KeyError key).
Proof.
  intros Hlib Hkey. unfold plot_result.
  apply raises_bind_r. eapply runs_weaken; [by apply create_figs_ok|]. simpl.
  intros ffa st1 [-> _]. apply raises_bind_l, raises_lift.
  unfold dict_get. by rewrite Hkey.
Qed.

Lemma plot_sim_raises (sim : sim_t) (kw : plot_kw) (key title : string)
    (pre post : list string) (tp_pre tp_post : to_plot_t) (st : pl_state) :
  lib_accepts -> kw_distinct kw ->
  grid_ok (n_cols kw) (length (sim_to_plot kw)) ->
  results sim !! key = None ->
  sim_to_plot kw = tp_pre ++ (title, pre ++ key :: post) :: tp_post ->
  Forall (fun item : string * list string => Forall (sim_key_ok sim kw) (snd item)) tp_pre ->
  Forall (sim_key_ok sim kw) pre ->
  raises (plot_sim sim kw) st (KeyError key).
Proof.
  intros Hlib Hkw Hn Hkey Hplots Htp Hpre.
  destruct (handle_to_plot_sim kw Hn) as (n_rows & Hplot).
  pose proof (kw_args_distinct kw Hkw) as Hargs.
  unfold plot_sim. rewrite Hplot, Hplots.
  set (args := handle_args _ _ _ _ _ _) in *.
  apply raises_bind_r, runs_lift with (a := (tp_pre ++ (title, pre ++ key :: post) :: tp_post, n_rows));
    [done|].
  apply raises_bind_r. eapply runs_weaken; [by apply create_figs_ok|]. simpl.
  intros ffa st1 [-> _]. apply raises_bind_l. unfold enumerate.
  apply (panels_loop_raises _ (Forall (sim_key_ok sim kw)) (sep_figs kw)); [|done| |].
  - intros. by apply plot_sim_panel_ok.
  - intros ->. by eexists.
  - intros. by apply plot_sim_panel_raises.
Qed.

(** C5, as the code has it. When saving is requested and the call returns,
    [plot_sim] has saved the figure under ['covasim.png'] and [plot_scens]
    under ['covasim_scenarios.png'] if no figure path is supplied, and
    under the supplied path otherwise: the call before the last one
    (which shows or closes the figure) is [savefig], with the path that
    sciris' [makefilepath] has made of that name. *)
Theorem plots_saved_under_name (sim : sim_t) (scens : scens_t) (kw : plot_kw) (st : pl_state) :
  truthy (do_save kw) = true ->
  (forall r st',
     plot_sim sim kw st = (Ok r, st') ->
     exists p c tr,
       makefilepath (match fig_path kw with
                     | None => "covasim.png"
                     | Some p => p
                     end) = Ok p
       /\ trace st' = c :: SaveFig p :: tr)
  /\ (forall r st',
        plot_scens scens kw st = (Ok r, st') ->
        exists p c tr,
          makefilepath (match fig_path kw with
                        | None => "covasim_scenarios.png"
                        | Some p => p
                        end) = Ok p
          /\ trace st' = c :: SaveFig p :: tr).
Proof.
  intros Hsave. split; intros r st' Hrun.
  - destruct (plot_sim_yields sim kw st r st' Hrun) as (_ & c & saved & tr & Htrace & Hsaved).
    unfold saved_as in Hsaved. rewrite Hsave in Hsaved.
    destruct Hsaved as (p & Hp & ->). by exists p, c, tr.
  - destruct (plot_scens_yields scens kw st r st' Hrun)
      as (_ & c & saved & tr & Htrace & Hsaved).
    unfold saved_as in Hsaved. rewrite Hsave in Hsaved.
    destruct Hsaved as (p & Hp & ->). by exists p, c, tr.
Qed.

(** C6, as the code has it. An invocation of [plot_sim] or of [plot_scens]
    that returns hands figures to the caller: without [sep_figs] the
    single figure (the one supplied, or the one created for the call),
    whether the figure is shown or closed; with [sep_figs] the list of the
    figures created one per panel. *)
Theorem plots_return_figures (sim : sim_t) (scens : scens_t) (kw : plot_kw) (st : pl_state) :
  (forall r st',
     plot_sim sim kw st = (Ok r, st') ->
     r = expected_figs kw st (length (sim_to_plot kw)))
  /\ (forall r st',
        plot_scens scens kw st = (Ok r, st') ->
        r = expected_figs kw st (length (scens_to_plot kw))).
Proof.
  split; intros r st' Hrun.
  - by destruct (plot_sim_yields sim kw st r st' Hrun) as (-> & _).
  - by destruct (plot_scens_yields scens kw st r st' Hrun) as (-> & _).
Qed.

(** C7. A result key that is absent from [sim.results] is not caught:
    [plot_sim], asked for the key, and [plot_result] never return
    normally; and they end with the [KeyError] of the lookup itself,
    neither caught nor turned into a [ValueError] or a
    [NotImplementedError], when what comes before the lookup goes through
    (the libraries carry out their calls and, for [plot_sim], the caller
    repeats no keyword, the grid can be computed and the keys before the
    absent one can be drawn). *)
Theorem missing_key_propagates (sim : sim_t) (kw : plot_kw) (key title : string)
    (pre post : list string) (tp_pre tp_post : to_plot_t) (st : pl_state) :
  results sim !! key = None ->
  sim_to_plot kw = tp_pre ++ (title, pre ++ key :: post) :: tp_post ->
  (forall r st', plot_sim sim kw st <> (Ok r, st'))
  /\ (forall kw' st0 r st', plot_result sim key kw' st0 <> (Ok r, st'))
  /\ (lib_accepts ->
      kw_distinct kw ->
      grid_ok (n_cols kw) (length (sim_to_plot kw)) ->
      Forall (fun item : string * list string => Forall (sim_key_ok sim kw) (snd item))
        tp_pre ->
      Forall (sim_key_ok sim kw) pre ->
      exists st', plot_sim sim kw st = (Raise (KeyError key), st'))
  /\ (lib_accepts ->
      forall kw' st0, exists st', plot_result sim key kw' st0 = (Raise (KeyError key), st')).
Proof.
  intros Hkey Hplots. split; [|split; [|split]].
  - intros r st' Hrun. pose proof (plot_sim_present sim kw st r st' Hrun) as Hall.
    rewrite Hplots in Hall. apply Forall_app in Hall as [_ Hall].
    apply Forall_cons in Hall as [Hkeys _]. simpl in Hkeys.
    apply Forall_app in Hkeys as [_ Hkeys]. apply Forall_cons in Hkeys as [[x Hx] _].
    congruence.
  - intros kw' st0 r st' Hrun.
    destruct (plot_result_present sim key kw' st0 r st' Hrun) as [x Hx]. congruence.
  - intros Hlib Hkw Hn Htp Hpre.
    by apply (plot_sim_raises sim kw key title pre post tp_pre tp_post).
  - intros Hlib kw' st0. by apply plot_result_raises.
Qed.

End plot_facts.

(** ** The statements at concrete inputs *)

Section concrete.
Import test_variants plotting statements.

Lemma get_ind_of_min_value_latest_witness :
  (exists th, th ∈ [20; 40; 60; 80] /\ th <= 45)
  /\ exists ind th,
       get_ind_of_min_value [20; 40; 60; 80] 45 = Ok ind
       /\ [20; 40; 60; 80] !! ind = Some th /\ th <= 45.
Proof.
  assert (Hex : exists th, th ∈ [20; 40; 60; 80] /\ th <= 45).
  { exists 40. split; [|lia]. apply list_elem_of_In. simpl. tauto. }
  split; [exact Hex|].
  destruct (get_ind_of_min_value_latest [20; 40; 60; 80] 45 Hex)
    as (ind & th & Hget & Hth & Hle & _).
  exists ind, th. auto.
Defined.

Example get_ind_of_min_value_45 : get_ind_of_min_value [20; 40; 60; 80] 45 = Ok 1%nat.
Proof. reflexivity. Qed.

Example get_ind_of_min_value_5 :
  get_ind_of_min_value [20; 40; 60; 80] 5 = Raise (ValueError "5 is not within the list of times").
Proof. reflexivity. Qed.

Example vacc_subtarg_day_45 :
  vacc_subtarg {| vxsubtarg := {| vx_age := [75; 65; 50; 18]%Q;
                                  vx_prob := [5 # 100; 5 # 100; 5 # 100; 5 # 100]%Q;
                                  vx_days := [20; 40; 60; 80] |};
                  test_variants.t := 45;
                  test_variants.people := {| age := [80; 70; 60; 66]%Q;
                                             vaccinated := [false; false; false; true] |} |}
  = Ok {| inds := [0%nat; 1%nat]; vals := [5 # 100; 5 # 100]%Q |}.
Proof. reflexivity. Qed.

(** C3, as it is worded, fails: with a supplied [to_plot] an unrecognised
    category raises nothing. *)
Lemma handle_to_plot_which_unchecked :
  "plots" <> "sim" /\ "plots" <> "scens"
  /\ @handle_to_plot demo_libs "plots" (Some demo_to_plot) 1 = Ok (demo_to_plot, 2%Q).
Proof. split; [discriminate|]. split; [discriminate|]. vm_compute. reflexivity. Qed.

Lemma handle_to_plot_unknown_which_witness :
  "plots" <> "sim" /\ "plots" <> "scens"
  /\ @handle_to_plot demo_libs "plots" None 1 = Raise (NotImplementedError (which_msg "plots")).
Proof.
  assert (Hsim : "plots" <> "sim") by discriminate.
  assert (Hscens : "plots" <> "scens") by discriminate.
  split; [exact Hsim|]. split; [exact Hscens|].
  exact (proj1 (@handle_to_plot_unknown_which demo_libs "plots" 1 Hsim Hscens)).
Defined.

(** C8, as it is worded, fails: with no columns the row count cannot be
    computed, and the division raises; and with more columns than a float
    can tell from infinity the quotient is rounded to zero, so that two
    panels get no row. *)
Lemma handle_to_plot_no_columns :
  @handle_to_plot demo_libs "sim" (Some demo_to_plot) 0 = Raise ZeroDivisionError
  /\ @handle_to_plot demo_libs "sim" (Some demo_to_plot) (10 ^ 400) = Ok (demo_to_plot, 0%Q).
Proof. split; vm_compute; reflexivity. Qed.

Lemma handle_to_plot_supplied_witness :
  2 <> 0 /\ Z.abs 2 <= 2 ^ 1074 /\ Z.of_nat (length demo_to_plot) < 2 ^ 53
  /\ exists n_rows,
       @handle_to_plot demo_libs "plots" (Some demo_to_plot) 2 = Ok (demo_to_plot, inject_Z n_rows)
       /\ (0 < 2 -> (n_rows - 1) * 2 < 2 <= n_rows * 2).
Proof.
  assert (Hn : 2 <> 0) by discriminate.
  assert (Hbound : Z.abs 2 <= 2 ^ 1074) by (vm_compute; discriminate).
  assert (Hlen : Z.of_nat (length demo_to_plot) < 2 ^ 53) by (vm_compute; reflexivity).
  split; [exact Hn|]. split; [exact Hbound|]. split; [exact Hlen|].
  destruct (@handle_to_plot_supplied demo_libs "plots" demo_to_plot 2 Hn Hbound Hlen)
    as (n_rows & Hret & _ & _ & Hint).
  exists n_rows. split; [exact Hret | exact Hint].
Defined.

Example truediv_third : truediv 1 3 = Ok (6004799503160661 # 18014398509481984).
Proof. vm_compute. reflexivity. Qed.

Example truediv_overflow : truediv (10 ^ 400) 3 = Raise OverflowError.
Proof. vm_compute. reflexivity. Qed.

Lemma demo_lib_accepts : @lib_accepts demo_libs.
Proof. by intros tr c. Qed.

Lemma demo_kw_distinct (tp : option to_plot_t) (save : pyval) (path : option string)
    (sep show : bool) (cols : Z) :
  kw_distinct (demo_kw tp save path sep show cols).
Proof. repeat split; by intros u. Qed.

Lemma demo_grid_ok (panels : nat) : (panels < 10)%nat -> grid_ok 1 panels.
Proof.
  intros Hpanels. split; [split; [lia | vm_compute; discriminate]|].
  assert (2 ^ 4 <= 2 ^ 53) by (apply Z.pow_le_mono_r; lia). lia.
Qed.

Ltac demo_key_ok :=
  split; [eexists; vm_compute; reflexivity|];
  split; [eexists; vm_compute; reflexivity|];
  split; (intros ? Hnone; simpl in Hnone; discriminate Hnone).

Ltac demo_keys_ok :=
  repeat first [apply Forall_nil_2 | apply Forall_cons_2; [demo_key_ok|]].

Ltac demo_panels_ok :=
  repeat first [apply Forall_nil_2 | apply Forall_cons_2; [simpl; demo_keys_ok|]].

Lemma demo_sim_plots_ok (tp : option to_plot_t) (save : pyval) (path : option string)
    (sep show : bool) :
  tp = None \/ tp = Some demo_to_plot ->
  @sim_plots_ok demo_libs demo_sim (demo_kw tp save path sep show 1).
Proof.
  intros Htp. split; [apply demo_lib_accepts|]. split; [apply demo_kw_distinct|].
  assert (@sim_to_plot demo_libs (demo_kw tp save path sep show 1) = demo_to_plot) as ->.
  { by destruct Htp as [-> | ->]. }
  split; [apply demo_grid_ok; simpl; lia|].
  unfold demo_to_plot. demo_panels_ok.
Qed.

Lemma demo_scens_plots_ok (save : pyval) (path : option string) (sep show : bool) :
  @scens_plots_ok demo_libs demo_scens (demo_kw None save path sep show 1).
Proof.
  split; [apply demo_lib_accepts|]. split; [apply demo_kw_distinct|].
  split; [apply demo_grid_ok; simpl; lia|].
  apply Forall_cons_2; [|apply Forall_nil_2].
  apply Forall_cons_2; [|apply Forall_nil_2].
  eexists. split; [vm_compute; reflexivity|].
  intros [|snum] scenkey sd Hlook; [|done]. injection Hlook as <- <-.
  split; [|split].
  - eexists _, _. split; [vm_compute; reflexivity|]. by intros d col [=].
  - eexists. vm_compute. reflexivity.
  - intros ? [=].
Qed.

(** C5, as it is worded, fails: saving is requested and no path is
    supplied, but the call ends with an exception before its last line,
    and nothing is saved. *)
Lemma plot_sim_saves_nothing :
  truthy (PBool true) = true
  /\ exists st',
       @plot_sim demo_libs demo_sim (demo_kw None (PBool true) None false true 0) demo_state
       = (Raise ZeroDivisionError, st')
       /\ forall path, SaveFig path ∉ trace st'.
Proof.
  split; [reflexivity|]. eexists. split; [vm_compute; reflexivity|].
  intros path Hin. simpl in Hin. by apply elem_of_nil in Hin.
Qed.

Lemma plots_saved_under_name_witness :
  truthy (PBool true) = true
  /\ (exists r st' c tr,
        @plot_sim demo_libs demo_sim (demo_kw None (PBool true) None false true 1) demo_state
        = (Ok r, st')
        /\ trace st' = c :: SaveFig "covasim.png" :: tr)
  /\ (exists r st' c tr,
        @plot_scens demo_libs demo_scens (demo_kw None (PBool true) None false true 1) demo_state
        = (Ok r, st')
        /\ trace st' = c :: SaveFig "covasim_scenarios.png" :: tr).
Proof.
  split; [reflexivity|].
  destruct (@plots_saved_under_name demo_libs demo_sim demo_scens
              (demo_kw None (PBool true) None false true 1) demo_state eq_refl)
    as [Hsim Hscens].
  split.
  - destruct (@plot_sim demo_libs demo_sim (demo_kw None (PBool true) None false true 1)
                demo_state) as [[r|e] st'] eqn:Hrun; [|vm_compute in Hrun; discriminate].
    destruct (Hsim r st' eq_refl) as (p & c & tr & Hp & Htrace).
    injection Hp as <-. exists r, st', c, tr. split; [reflexivity | exact Htrace].
  - destruct (@plot_scens demo_libs demo_scens (demo_kw None (PBool true) None false true 1)
                demo_state) as [[r|e] st'] eqn:Hrun; [|vm_compute in Hrun; discriminate].
    destruct (Hscens r st' eq_refl) as (p & c & tr & Hp & Htrace).
    injection Hp as <-. exists r, st', c, tr. split; [reflexivity | exact Htrace].
Defined.

Example plot_sim_saves_under_path :
  exists tr,
    trace (snd (@plot_sim demo_libs demo_sim
                  (demo_kw None (PStr "yes") (Some "figs/run1.png") false false 1) demo_state))
    = Close (Some 0%nat) :: SaveFig "figs/run1.png" :: tr.
Proof. eexists. vm_compute. reflexivity. Qed.

(** C6, as it is worded, fails: an invocation that ends with an exception
    hands no figure to the caller. *)
Lemma plot_sim_returns_nothing :
  exists st',
    @plot_sim demo_libs demo_sim (demo_kw None PNone None false true 0) demo_state
    = (Raise ZeroDivisionError, st').
Proof. eexists. vm_compute. reflexivity. Qed.

Lemma plots_return_figures_witness :
  (exists st',
     @plot_sim demo_libs demo_sim (demo_kw None PNone None true false 1) demo_state
     = (Ok (ManyFigs (Some [0%nat; 1%nat])), st'))
  /\ (exists st',
        @plot_scens demo_libs demo_scens (demo_kw None PNone None false true 1) demo_state
        = (Ok (OneFig (Some 0%nat)), st')).
Proof.
  split.
  - destruct (@plot_sim demo_libs demo_sim (demo_kw None PNone None true false 1) demo_state)
      as [[r|e] st'] eqn:Hrun; [|vm_compute in Hrun; discriminate].
    rewrite (proj1 (@plots_return_figures demo_libs demo_sim demo_scens
                      (demo_kw None PNone None true false 1) demo_state) r st' Hrun).
    by exists st'.
  - destruct (@plot_scens demo_libs demo_scens (demo_kw None PNone None false true 1) demo_state)
      as [[r|e] st'] eqn:Hrun; [|vm_compute in Hrun; discriminate].
    rewrite (proj2 (@plots_return_figures demo_libs demo_sim demo_scens
                      (demo_kw None PNone None false true 1) demo_state) r st' Hrun).
    by exists st'.
Defined.

Lemma missing_key_propagates_witness :
  results demo_sim !! "new_tests" = None
  /\ @lib_accepts demo_libs
  /\ (exists st',
        @plot_sim demo_libs demo_sim (demo_kw (Some demo_bad_to_plot) PNone None false true 1)
          demo_state
        = (Raise (KeyError "new_tests"), st'))
  /\ (forall kw' st0,
        exists st', @plot_result demo_libs demo_sim "new_tests" kw' st0
                    = (Raise (KeyError "new_tests"), st')).
Proof.
  assert (Hkey : results demo_sim !! "new_tests" = None) by (vm_compute; reflexivity).
  split; [exact Hkey|]. split; [exact demo_lib_accepts|].
  destruct (@missing_key_propagates demo_libs demo_sim
              (demo_kw (Some demo_bad_to_plot) PNone None false true 1)
              "new_tests" "Daily counts" ["new_infections"] ["cum_deaths"]
              [("Total counts", ["cum_infections"])] [] demo_state Hkey eq_refl)
    as (_ & _ & Hsim & Hresult).
  split; [|exact (Hresult demo_lib_accepts)].
  apply Hsim.
  - exact demo_lib_accepts.
  - apply demo_kw_distinct.
  - apply demo_grid_ok. simpl. lia.
  - demo_panels_ok.
  - demo_keys_ok.
Defined.

(** C9, as it is worded, fails: when the legend call raises, the entry
    that was taken out of the dictionary is not put back. *)
Lemma title_grid_legend_not_restored :
  exists e st',
    @title_grid_legend demo_libs_strict 0 "Daily counts" false true true
      (demo_legend_args true "nowhere") (PBool true) demo_state
    = (Raise e, st')
    /\ legend_dict st' !! "show_legend" = None
    /\ legend_dict st' <> demo_legend_args true "nowhere".
Proof.
  eexists _, _. split; [vm_compute; reflexivity|]. split; [vm_compute; reflexivity|].
  intros Heq. apply (f_equal (fun d : kwargs => d !! "show_legend")) in Heq.
  vm_compute in Heq. discriminate Heq.
Qed.

Lemma title_grid_legend_restores_witness :
  exists st',
    @title_grid_legend demo_libs 0 "Daily counts" false true true
      (demo_legend_args false "best") (PBool true) demo_state
    = (Ok (demo_legend_args false "best"), st')
    /\ legend_dict st' = demo_legend_args false "best".
Proof.
  destruct (@title_grid_legend demo_libs 0 "Daily counts" false true true
              (demo_legend_args false "best") (PBool true) demo_state)
    as [[d|e] st'] eqn:Hrun; [|vm_compute in Hrun; discriminate].
  destruct (@title_grid_legend_restores demo_libs 0 "Daily counts" false true true
              (demo_legend_args false "best") (PBool true) demo_state d st' Hrun)
    as [-> Hdict].
  by exists st'.
Defined.

Lemma plotly_markers_witness :
  (exists plots,
     @plotly_sim demo_libs demo_sim = Ok plots
     /\ length plots = 2%nat
     /\ Forall (fun fig => fig_shapes fig = map marker_shape [10; 30; 20]) plots)
  /\ (exists fig shown,
        @plotly_people demo_libs demo_sim false = Ok (fig, shown)
        /\ fig_shapes fig = map marker_shape [10; 30]).
Proof.
  destruct (@plotly_markers demo_libs demo_sim) as (Hsim & Hpeople & _).
  split.
  - destruct (@plotly_sim demo_libs demo_sim) as [plots|e] eqn:Hplots;
      [|vm_compute in Hplots; discriminate].
    exists plots. split; [reflexivity|]. split.
    + vm_compute in Hplots. injection Hplots as <-. reflexivity.
    + exact (Hsim plots eq_refl).
  - destruct (@plotly_people demo_libs demo_sim false) as [[fig shown]|e] eqn:Hfig;
      [|vm_compute in Hfig; discriminate].
    exists fig, shown. split; [reflexivity|]. exact (Hpeople false fig shown Hfig).
Defined.

End concrete.

(** * Further properties *)

(** ** Sub-targeting over time *)

Section subtargeting_more.
Import test_variants.

Lemma get_ind_Ok_inv (thresholds : list Z) (time : Z) (ind : nat) :
  get_ind_of_min_value thresholds time = Ok ind ->
  exists th, thresholds !! ind = Some th /\ th <= time
             /\ (forall k th', (ind < k)%nat -> thresholds !! k = Some th' -> time < th').
Proof.
  unfold get_ind_of_min_value.
  destruct (min_value_loop_spec thresholds time) as [[_ Hloop] | (i & th & Hi & Hth & Hlast & Hloop)];
    rewrite Hloop; [done|].
  intros [= <-]. by exists th.
Qed.

Lemma sorted_lookup_le (l : list Z) (i j : nat) (x y : Z) :
  StronglySorted Z.le l -> (i <= j)%nat -> l !! i = Some x -> l !! j = Some y -> x <= y.
Proof.
  intros Hs. revert i j. induction Hs as [|a l Hs IH Hall]; intros i j Hij Hi Hj; [done|].
  destruct i as [|i], j as [|j]; simpl in *.
  - injection Hi as <-. injection Hj as <-. lia.
  - injection Hi as <-. rewrite Forall_forall in Hall. apply Hall.
    by apply list_elem_of_lookup_2 in Hj.
  - lia.
  - apply (IH i j); [lia | done | done].
Qed.

(** As the simulated day advances, the index never goes back, and a day
    that has an index keeps having one. *)
Theorem get_ind_of_min_value_monotone (thresholds : list Z) (time1 time2 : Z) (ind1 : nat) :
  time1 <= time2 ->
  get_ind_of_min_value thresholds time1 = Ok ind1 ->
  exists ind2, get_ind_of_min_value thresholds time2 = Ok ind2 /\ (ind1 <= ind2)%nat.
Proof.
  intros Hle Hget1. apply get_ind_Ok_inv in Hget1 as (th1 & Hth1 & Hle1 & _).
  unfold get_ind_of_min_value.
  destruct (min_value_loop_spec thresholds time2)
    as [[Hall _] | (ind2 & th2 & Hth2 & Hle2 & Hlast & ->)].
  - rewrite Forall_lookup in Hall. specialize (Hall ind1 th1 Hth1). lia.
  - exists ind2. split; [done|].
    destruct (le_lt_dec ind1 ind2) as [|Hlt]; [done|].
    specialize (Hlast ind1 th1 Hlt Hth1). lia.
Qed.

(** For a list of thresholds in ascending order, the threshold at the
    returned index is the greatest one that does not exceed the time. *)
Theorem get_ind_of_min_value_sorted (thresholds : list Z) (time : Z) (ind : nat) :
  StronglySorted Z.le thresholds ->
  get_ind_of_min_value thresholds time = Ok ind ->
  exists th,
    thresholds !! ind = Some th /\ th <= time
    /\ forall th', th' ∈ thresholds -> th' <= time -> th' <= th.
Proof.
  intros Hsorted Hget. apply get_ind_Ok_inv in Hget as (th & Hth & Hle & Hlast).
  exists th. split; [done|]. split; [done|].
  intros th' Hin Hle'. apply list_elem_of_lookup in Hin as (k & Hk).
  destruct (le_lt_dec k ind) as [Hki|Hik].
  - by apply (sorted_lookup_le thresholds k ind).
  - specialize (Hlast k th' Hik Hk). lia.
Qed.

(** Without the order this fails: the last position wins, not the
    greatest threshold. *)
Example get_ind_of_min_value_unsorted :
  get_ind_of_min_value [50; 10] 60 = Ok 1%nat.
Proof. reflexivity. Qed.

(** [vacc_subtarg] returns whenever some threshold has been reached, the
    age and probability lists are as long as the list of days, and the
    two arrays of the people have the same length. *)
Theorem vacc_subtarg_returns (sim : sim_t) :
  (exists th, th ∈ vx_days (vxsubtarg sim) /\ th <= t sim) ->
  (length (vx_days (vxsubtarg sim)) <= length (vx_age (vxsubtarg sim)))%nat ->
  (length (vx_days (vxsubtarg sim)) <= length (vx_prob (vxsubtarg sim)))%nat ->
  length (age (people sim)) = length (vaccinated (people sim)) ->
  exists st, vacc_subtarg sim = Ok st.
Proof.
  intros (th0 & Hin & Hle0) Hages Hprobs Hpeople.
  unfold vacc_subtarg, get_ind_of_min_value.
  destruct (min_value_loop_spec (vx_days (vxsubtarg sim)) (t sim))
    as [[Hall _] | (ind & th & Hth & Hle & _ & ->)].
  - rewrite Forall_forall in Hall. specialize (Hall th0 Hin). lia.
  - apply lookup_lt_Some in Hth. simpl. unfold getitem.
    destruct (lookup_lt_is_Some_2 (vx_age (vxsubtarg sim)) ind) as (a & ->); [lia|].
    destruct (lookup_lt_is_Some_2 (vx_prob (vxsubtarg sim)) ind) as (p & ->); [lia|].
    simpl. rewrite eligible_same_length by done. simpl. by eexists.
Qed.

(** The two ways in which [vacc_subtarg] fails on its configuration: before
    the first threshold it raises the [ValueError] of the lookup; with an
    age list that stops before the selected position, an [IndexError]. *)
Theorem vacc_subtarg_failures (sim : sim_t) :
  (Forall (fun th => t sim < th) (vx_days (vxsubtarg sim)) ->
   vacc_subtarg sim = Raise (ValueError (not_within_msg (t sim))))
  /\ (forall ind,
        get_ind_of_min_value (vx_days (vxsubtarg sim)) (t sim) = Ok ind ->
        (length (vx_age (vxsubtarg sim)) <= ind)%nat ->
        vacc_subtarg sim = Raise IndexError).
Proof.
  split.
  - intros Hall. unfold vacc_subtarg, get_ind_of_min_value.
    destruct (min_value_loop_spec (vx_days (vxsubtarg sim)) (t sim))
      as [[_ ->] | (ind & th & Hth & Hle & _ & _)]; [done|].
    rewrite Forall_lookup in Hall. specialize (Hall ind th Hth). lia.
  - intros ind Hget Hshort. unfold vacc_subtarg. rewrite Hget. simpl.
    unfold getitem. by rewrite (lookup_ge_None_2 _ _ Hshort).
Qed.

Lemma findinds_from_sorted (mask : list bool) (i : nat) :
  StronglySorted lt (map fst (filter (fun pb => Is_true (snd pb)) (enumerate_from i mask)))
  /\ Forall (fun k => (i <= k < i + length mask)%nat)
       (map fst (filter (fun pb => Is_true (snd pb)) (enumerate_from i mask))).
Proof.
  revert i. induction mask as [|b mask IH]; intros i.
  - cbn. split; constructor.
  - cbn [enumerate_from]. rewrite filter_cons. cbn [snd].
    destruct (IH (S i)) as [Hs Hr]. destruct b.
    + rewrite decide_True by done. cbn [map fst]. split.
      * constructor; [done|]. eapply Forall_impl; [exact Hr|]. simpl. lia.
      * constructor; [simpl; lia|]. eapply Forall_impl; [exact Hr|]. simpl. lia.
    + rewrite decide_False by (simpl; tauto). split; [done|].
      eapply Forall_impl; [exact Hr|]. simpl. lia.
Qed.

Lemma broadcast_length {A B C} (f : A -> B -> C) (xs : list A) (ys : list B) (zs : list C) :
  broadcast f xs ys = Ok zs -> (length zs <= Nat.max (length xs) (length ys))%nat.
Proof.
  unfold broadcast. destruct (Nat.eqb_spec (length xs) (length ys)) as [Heq|Hne].
  - intros [= <-]. rewrite length_zip_with. lia.
  - destruct xs as [|x [|x' xs]], ys as [|y [|y' ys]]; intros [= <-];
      simpl in *; rewrite ?length_map; lia.
Qed.

(** The people that [vacc_subtarg] selects are listed once each, in
    ascending order, they are positions of the longer of the two arrays
    of the people (numpy stretches an array of length one), hence of the
    population when the arrays have one length, and there is one value
    per selected person. *)
Theorem vacc_subtarg_inds (sim : sim_t) (st : subtarget) :
  vacc_subtarg sim = Ok st ->
  StronglySorted lt (inds st)
  /\ Forall (fun i => (i < Nat.max (length (age (people sim)))
                                   (length (vaccinated (people sim))))%nat) (inds st)
  /\ (length (age (people sim)) = length (vaccinated (people sim)) ->
      Forall (fun i => (i < length (age (people sim)))%nat) (inds st))
  /\ length (vals st) = length (inds st).
Proof.
  unfold vacc_subtarg, rbind.
  destruct (get_ind_of_min_value _ _) as [ind|]; [|done].
  destruct (getitem (vx_age _) ind) as [a|]; [|done].
  destruct (getitem (vx_prob _) ind) as [p|]; [|done].
  destruct (eligible (people sim) a) as [mask|] eqn:Hmask; [|done].
  intros [= <-]. simpl.
  destruct (findinds_from_sorted mask 0) as [Hs Hr]. split; [exact Hs|].
  apply broadcast_length in Hmask.
  assert (Hmax : Forall (fun i => (i < Nat.max (length (age (people sim)))
                                             (length (vaccinated (people sim))))%nat)
                   (findinds mask)).
  { eapply Forall_impl; [exact Hr|]. simpl. lia. }
  split; [exact Hmax|]. split.
  - intros Hlen. eapply Forall_impl; [exact Hmax|]. simpl. lia.
  - by rewrite length_map, repeat_length.
Qed.

End subtargeting_more.

(** ** The array of individual states *)

Section states_facts.
Import plotting statements.
Context `{Libs}.

Lemma lookup_repeat_lt {A} (x : A) (k i : nat) : (i < k)%nat -> repeat x k !! i = Some x.
Proof.
  revert i. induction k as [|k IH]; intros i Hi; [lia|].
  destruct i as [|i]; simpl; [done|]. apply IH. lia.
Qed.

Lemma set_from_length (start v : Z) (row : list Z) :
  length (set_from start v row) = length row.
Proof. unfold set_from. rewrite length_app, length_take, repeat_length. lia. Qed.

(** One pass over the defined dates of a quantity: it succeeds exactly when
    every marked position is a row, keeps the number of rows, and rewrites
    each row from the date of its own person only. *)
Lemma mark_pass (v : Z) (dates : list (option Z)) (k : nat) (z : list (list Z)) :
  match rfold (mark_person v)
          (flat_map (fun id => match snd id with Some d => [(fst id, d)] | None => [] end)
             (enumerate_from k dates)) z with
  | Ok z' =>
      length z' = length z
      /\ (forall j d, dates !! j = Some (Some d) -> (k + j < length z)%nat)
      /\ forall i,
           z' !! i
           = (fun row =>
                if decide (k <= i)%nat
                then match dates !! (i - k)%nat with
                     | Some (Some d) => set_from d v row
                     | _ => row
                     end
                else row) <$> z !! i
  | Raise e =>
      e = IndexError
      /\ exists j d, dates !! j = Some (Some d) /\ (length z <= k + j)%nat
  end.
Proof.
  revert k z. induction dates as [|x dates IH]; intros k z; simpl.
  - split; [done|]. split; [done|]. intros i. destruct (z !! i); simpl; [|done].
    by destruct (decide _); destruct (i - k)%nat.
  - destruct x as [d|]; simpl.
    + destruct (z !! k) as [row|] eqn:Hrow; simpl.
      * specialize (IH (S k) (<[k := set_from d v row]> z)).
        destruct (rfold _ _ _) as [z'|e].
        -- destruct IH as (Hlen & Hin & Hrows). rewrite length_insert in Hlen, Hin.
           split; [done|]. split.
           { intros [|j] d' Hj; simpl in Hj.
             - apply lookup_lt_Some in Hrow. lia.
             - specialize (Hin j d' Hj). lia. }
           intros i. rewrite Hrows. destruct (decide (i = k)) as [->|Hik].
           ++ rewrite list_lookup_insert_eq by (by apply lookup_lt_Some in Hrow).
              rewrite Hrow. simpl. rewrite decide_False by lia.
              rewrite decide_True by lia. by rewrite Nat.sub_diag.
           ++ rewrite list_lookup_insert_ne by done. destruct (z !! i); simpl; [|done].
              destruct (decide (S k <= i)%nat), (decide (k <= i)%nat); try lia; [|done].
              by replace (i - k)%nat with (S (i - S k)) by lia.
        -- destruct IH as (-> & j & d' & Hj & Hlen). rewrite length_insert in Hlen.
           split; [done|]. exists (S j), d'. split; [done | lia].
      * split; [done|]. exists 0%nat, d. split; [done|].
        apply lookup_ge_None in Hrow. lia.
    + specialize (IH (S k) z). destruct (rfold _ _ _) as [z'|e].
      * destruct IH as (Hlen & Hin & Hrows). split; [done|]. split.
        { intros [|j] d' Hj; simpl in Hj; [done|]. specialize (Hin j d' Hj). lia. }
        intros i. rewrite Hrows. destruct (z !! i); simpl; [|done].
        destruct (decide (S k <= i)%nat), (decide (k <= i)%nat); try lia.
        -- by replace (i - k)%nat with (S (i - S k)) by lia.
        -- assert (i = k) as -> by lia. by rewrite Nat.sub_diag.
        -- done.
      * destruct IH as (-> & j & d' & Hj & Hlen).
        split; [done|]. exists (S j), d'. split; [done | lia].
Qed.

(** The loop over the states, from any array: when it returns, each row
    has been rewritten from the dates of its own person; when it raises,
    some quantity is missing, and the exception is that of the people
    object, or has a date beyond the rows, and the exception is an
    [IndexError]. *)
Lemma states_loop (sim : sim_t) (sts : list state_t) (z : list (list Z)) :
  match rfold (fun z state =>
                 match quantity state with
                 | None => Ok z
                 | Some date =>
                     rbind (people_getitem (people sim) date) (fun dates =>
                     rfold (mark_person (value state)) (defined dates) z)
                 end) sts z with
  | Ok z' =>
      length z' = length z
      /\ (forall state q, state ∈ sts -> quantity state = Some q ->
            exists dates, people sim !! q = Some dates
                          /\ forall j d, dates !! j = Some (Some d) -> (j < length z)%nat)
      /\ forall i, z' !! i = (fun row => fold_left (row_step sim i) sts row) <$> z !! i
  | Raise e =>
      exists state q,
        state ∈ sts /\ quantity state = Some q
        /\ ((people sim !! q = None /\ e = missing_attribute q)
            \/ (e = IndexError
                /\ exists dates j d, people sim !! q = Some dates
                                     /\ dates !! j = Some (Some d) /\ (length z <= j)%nat))
  end.
Proof.
  revert z. induction sts as [|state sts IH]; intros z; simpl.
  - split; [done|]. split; [by intros ? ? ?%elem_of_nil|].
    intros i. by destruct (z !! i).
  - destruct (quantity state) as [q|] eqn:Hq; simpl.
    + unfold people_getitem. destruct (people sim !! q) as [dates|] eqn:Hdates; simpl.
      * pose proof (mark_pass (value state) dates 0 z) as Hpass.
        unfold defined, enumerate.
        destruct (rfold (mark_person (value state)) _ z) as [z1|e]; simpl.
        -- destruct Hpass as (Hlen1 & Hin1 & Hrows1). specialize (IH z1).
           destruct (rfold _ sts z1) as [z'|e].
           ++ destruct IH as (Hlen & Hin & Hrows). split; [congruence|]. split.
              { intros state' q' [->|Hin']%elem_of_cons Hq'.
                - rewrite Hq in Hq'. injection Hq' as <-. exists dates. split; [done|].
                  intros j d Hj. apply (Hin1 j d Hj).
                - destruct (Hin state' q' Hin' Hq') as (dates' & ? & Hb).
                  exists dates'. split; [done|]. intros j d Hj. rewrite <- Hlen1. eauto. }
              intros i. rewrite Hrows, Hrows1. destruct (z !! i) as [row|]; simpl; [|done].
              rewrite Nat.sub_0_r. do 2 f_equal.
              unfold row_step, person_date. rewrite Hq, Hdates.
              by destruct (dates !! i) as [[d|]|].
           ++ destruct IH as (state' & q' & Hin' & Hq' & Hbad).
              exists state', q'. split; [by apply list_elem_of_further|]. split; [done|].
              destruct Hbad as [?|(-> & dates' & j & d & ? & ? & ?)]; [by left|].
              right. split; [done|]. exists dates', j, d. split; [done|]. split; [done|]. lia.
        -- destruct Hpass as (-> & j & d & Hj & Hlen).
           exists state, q. split; [by apply list_elem_of_here|]. split; [done|].
           right. split; [done|]. by exists dates, j, d.
      * exists state, q. split; [by apply list_elem_of_here|]. split; [done|]. by left.
    + specialize (IH z). destruct (rfold _ sts z) as [z'|e].
      * destruct IH as (Hlen & Hin & Hrows). split; [done|]. split.
        { intros state' q' [->|Hin']%elem_of_cons Hq'; [congruence | eauto]. }
        intros i. rewrite Hrows. destruct (z !! i); simpl; [|done].
        assert (row_step sim i l state = l) as ->; [|done].
        unfold row_step. by rewrite Hq.
      * destruct IH as (state' & q' & Hin' & Hq' & Hbad).
        exists state', q'. split; [by apply list_elem_of_further|]. done.
Qed.

Lemma state_quantities (state : state_t) (q : string) :
  state ∈ states -> quantity state = Some q ->
  q ∈ ["date_exposed"; "date_infectious"; "date_recovered"; "date_dead"].
Proof.
  unfold states. rewrite !elem_of_cons, elem_of_nil.
  intros [->|[->|[->|[->|[->|[]]]]]]; simpl; intros [= <-]; set_solver.
Qed.

Lemma quantity_states (q : string) :
  q ∈ ["date_exposed"; "date_infectious"; "date_recovered"; "date_dead"] ->
  exists state, state ∈ states /\ quantity state = Some q.
Proof.
  rewrite !elem_of_cons, elem_of_nil.
  intros [->|[->|[->|[->|[]]]]]; eexists.
  - split; [apply (list_elem_of_lookup_2 states 1%nat); reflexivity | reflexivity].
  - split; [apply (list_elem_of_lookup_2 states 2%nat); reflexivity | reflexivity].
  - split; [apply (list_elem_of_lookup_2 states 3%nat); reflexivity | reflexivity].
  - split; [apply (list_elem_of_lookup_2 states 4%nat); reflexivity | reflexivity].
Qed.

(** [get_individual_states] returns exactly when the four date arrays are
    there and no date is defined for a position beyond the population.
    When it raises, a date array is missing and the exception is the one
    with which the people object answers the missing name, or a date is
    defined beyond the population and the exception is an [IndexError]. *)
Theorem get_individual_states_returns (sim : sim_t) :
  ((exists z, get_individual_states sim = Ok (z, states)) <-> people_ok sim)
  /\ forall e,
       get_individual_states sim = Raise e ->
       exists q,
         q ∈ ["date_exposed"; "date_infectious"; "date_recovered"; "date_dead"]
         /\ ((people sim !! q = None /\ e = missing_attribute q)
             \/ (e = IndexError
                 /\ exists dates j d,
                      people sim !! q = Some dates /\ dates !! j = Some (Some d)
                      /\ (n sim <= j)%nat)).
Proof.
  unfold get_individual_states.
  pose proof (states_loop sim states (repeat (repeat 0 (npts sim)) (n sim))) as Hloop.
  destruct (rfold _ states _) as [z'|e]; simpl.
  - split; [|done].
    destruct Hloop as (_ & Hin & _). rewrite repeat_length in Hin. split; [|by eexists].
    intros _ q Hq. destruct (quantity_states q Hq) as (state & Hstate & Hquant). eauto.
  - destruct Hloop as (state & q & Hstate & Hquant & Hbad).
    pose proof (state_quantities state q Hstate Hquant) as Hq.
    rewrite repeat_length in Hbad. split.
    + split; [by intros (z & ?)|]. intros Hok.
      destruct (Hok q Hq) as (dates & Hdates & Hin).
      destruct Hbad as [[Hnone _]|(_ & dates' & j & d & Hdates' & Hj & Hlen)]; [congruence|].
      rewrite Hdates in Hdates'. injection Hdates' as <-.
      specialize (Hin j d Hj). lia.
    + intros e' [= <-]. exists q. split; [done|]. exact Hbad.
Qed.

Lemma individual_states_rows (sim : sim_t) (z : list (list Z)) (sts : list state_t) :
  get_individual_states sim = Ok (z, sts) ->
  sts = states /\ length z = n sim
  /\ forall i, (i < n sim)%nat -> z !! i = Some (person_row sim i).
Proof.
  unfold get_individual_states.
  pose proof (states_loop sim states (repeat (repeat 0 (npts sim)) (n sim))) as Hloop.
  destruct (rfold _ states _) as [z'|e]; simpl; [|done].
  intros [= <- <-]. destruct Hloop as (Hlen & _ & Hrows). rewrite repeat_length in Hlen.
  split; [done|]. split; [done|]. intros i Hi. rewrite Hrows.
  rewrite lookup_repeat_lt by done. reflexivity.
Qed.

(** The rows of the array are independent: the row of each person is the
    healthy row rewritten by that person's own dates, state after state. *)
Theorem get_individual_states_rows (sim : sim_t) (z : list (list Z)) (sts : list state_t) :
  get_individual_states sim = Ok (z, sts) ->
  sts = states /\ length z = n sim
  /\ forall i, (i < n sim)%nat -> z !! i = Some (person_row sim i).
Proof. exact (individual_states_rows sim z sts). Qed.

Lemma set_from_lookup_ge (d v : Z) (row : list Z) (j : nat) :
  0 <= d -> (Z.to_nat d <= j < length row)%nat -> set_from d v row !! j = Some v.
Proof.
  intros Hd Hj. unfold set_from. destruct (Z.ltb_spec d 0) as [|_]; [lia|].
  rewrite lookup_app_r; rewrite length_take; [|lia].
  apply lookup_repeat_lt. lia.
Qed.

Lemma set_from_lookup_lt (d v : Z) (row : list Z) (j : nat) :
  Z.of_nat j < d -> set_from d v row !! j = row !! j.
Proof.
  intros Hj. unfold set_from. destruct (Z.ltb_spec d 0) as [|_]; [lia|].
  destruct (le_lt_dec (length row) j) as [Hlen|Hlen].
  - rewrite (lookup_ge_None_2 row) by done. apply lookup_ge_None_2.
    rewrite length_app, length_take, repeat_length. lia.
  - rewrite lookup_app_l by (rewrite length_take; lia).
    apply lookup_take_lt. lia.
Qed.

Lemma set_from_Forall (P : Z -> Prop) (d v : Z) (row : list Z) :
  P v -> Forall P row -> Forall P (set_from d v row).
Proof.
  intros Hv Hrow. unfold set_from. apply Forall_app. split.
  - by apply Forall_take.
  - apply Forall_forall. intros x Hx. apply list_elem_of_In, repeat_spec in Hx. by subst.
Qed.

Lemma row_steps_length (sim : sim_t) (i : nat) (sts : list state_t) (row : list Z) :
  length (fold_left (row_step sim i) sts row) = length row.
Proof.
  revert row. induction sts as [|state sts IH]; intros row; simpl; [done|].
  rewrite IH. unfold row_step. destruct (quantity state); [|done].
  destruct (person_date _ _ _); [|done]. apply set_from_length.
Qed.

Lemma row_steps_Forall (P : Z -> Prop) (sim : sim_t) (i : nat) (sts : list state_t)
    (row : list Z) :
  Forall (fun state => P (value state)) sts -> Forall P row ->
  Forall P (fold_left (row_step sim i) sts row).
Proof.
  intros Hsts. revert row. induction Hsts as [|state sts Hstate Hsts IH]; intros row Hrow;
    simpl; [done|].
  apply IH. unfold row_step. destruct (quantity state); [|done].
  destruct (person_date _ _ _); [|done]. by apply set_from_Forall.
Qed.

Lemma individual_states_shape (sim : sim_t) (z : list (list Z)) (sts : list state_t) :
  get_individual_states sim = Ok (z, sts) ->
  length z = n sim
  /\ Forall (fun row => length row = npts sim
                        /\ Forall (fun c => c ∈ [0; 2; 3; 4; 5]) row) z.
Proof.
  intros Hget. destruct (individual_states_rows sim z sts Hget) as (_ & Hlen & Hrows).
  split; [done|]. apply Forall_lookup. intros i row Hi.
  assert (Hin : (i < n sim)%nat) by (apply lookup_lt_Some in Hi; lia).
  rewrite (Hrows i Hin) in Hi. injection Hi as <-. unfold person_row. split.
  - by rewrite row_steps_length, repeat_length.
  - apply row_steps_Forall.
    + unfold states. repeat constructor; simpl; set_solver.
    + apply Forall_forall. intros c Hc. apply list_elem_of_In, repeat_spec in Hc.
      subst c. set_solver.
Qed.

(** The array has one row per person and one column per time point, and
    its cells hold the value of a state: 0, 2, 3, 4 or 5. *)
Theorem get_individual_states_shape (sim : sim_t) (z : list (list Z)) (sts : list state_t) :
  get_individual_states sim = Ok (z, sts) ->
  length z = n sim
  /\ Forall (fun row => length row = npts sim
                        /\ Forall (fun c => c ∈ [0; 2; 3; 4; 5]) row) z.
Proof. exact (individual_states_shape sim z sts). Qed.

(** Death has the last word: from the day of death on, the person counts
    as dead, whatever the other dates say. *)
Theorem get_individual_states_dead (sim : sim_t) (z : list (list Z)) (sts : list state_t)
    (i j : nat) (d : Z) :
  get_individual_states sim = Ok (z, sts) ->
  (i < n sim)%nat ->
  person_date sim "date_dead" i = Some d ->
  0 <= d -> (Z.to_nat d <= j < npts sim)%nat ->
  exists row, z !! i = Some row /\ row !! j = Some 5.
Proof.
  intros Hget Hi Hdead Hd Hj.
  destruct (individual_states_rows sim z sts Hget) as (_ & _ & Hrows).
  exists (person_row sim i). split; [by apply Hrows|].
  unfold person_row, states. simpl. unfold row_step at 1. simpl. rewrite Hdead.
  apply set_from_lookup_ge; [done|].
  change (Z.to_nat d <= j < length (fold_left (row_step sim i) (take 4 states)
                                      (repeat 0%Z (npts sim))))%nat.
  by rewrite row_steps_length, repeat_length.
Qed.

Lemma row_steps_before (sim : sim_t) (i j : nat) (sts : list state_t) (row : list Z) :
  (forall state q d, state ∈ sts -> quantity state = Some q ->
     person_date sim q i = Some d -> Z.of_nat j < d) ->
  row !! j = Some 0 ->
  fold_left (row_step sim i) sts row !! j = Some 0.
Proof.
  revert row. induction sts as [|state sts IH]; intros row Hdates Hrow; simpl; [done|].
  apply IH.
  - intros state' q d Hin. apply Hdates. by apply list_elem_of_further.
  - unfold row_step. destruct (quantity state) as [q|] eqn:Hquant; [|done].
    destruct (person_date sim q i) as [d|] eqn:Hq; [|done].
    rewrite set_from_lookup_lt; [done|].
    apply (Hdates state q d); [apply list_elem_of_here | done | done].
Qed.

(** Before the earliest of a person's four dates (and for a person without
    dates, on every day) the person counts as healthy. *)
Theorem get_individual_states_healthy (sim : sim_t) (z : list (list Z)) (sts : list state_t)
    (i j : nat) :
  get_individual_states sim = Ok (z, sts) ->
  (i < n sim)%nat -> (j < npts sim)%nat ->
  (forall q d,
     q ∈ ["date_exposed"; "date_infectious"; "date_recovered"; "date_dead"] ->
     person_date sim q i = Some d -> Z.of_nat j < d) ->
  exists row, z !! i = Some row /\ row !! j = Some 0.
Proof.
  intros Hget Hi Hj Hdates.
  destruct (individual_states_rows sim z sts Hget) as (_ & _ & Hrows).
  exists (person_row sim i). split; [by apply Hrows|].
  unfold person_row. apply row_steps_before; [|by apply lookup_repeat_lt].
  intros state q d Hstate Hquant. apply Hdates. by apply (state_quantities state).
Qed.

End states_facts.

(** ** The Plotly figures *)

Section plotly_more.
Import plotting statements.
Context `{Libs}.

Lemma mark_day_traces (n_days : Z) (fig : go_figure) (d : Z) :
  fig_traces (mark_day n_days fig d) = fig_traces fig.
Proof. unfold mark_day. by destruct (_ && _). Qed.

Lemma mark_days_traces (n_days : Z) (ds : list Z) (fig : go_figure) :
  fig_traces (fold_left (mark_day n_days) ds fig) = fig_traces fig.
Proof.
  revert fig. induction ds as [|d ds IH]; intros fig; simpl; [done|].
  by rewrite IH, mark_day_traces.
Qed.

Lemma people_markers_traces (sim : sim_t) (fig : go_figure) :
  fig_traces (people_markers sim fig) = fig_traces fig.
Proof.
  unfold people_markers. destruct (interventions sim) as [|i0 l0]; [done|].
  generalize (i0 :: l0) as l. intros l. revert fig.
  induction l as [|interv l IH]; intros fig; simpl; [done|].
  rewrite IH. destruct (days interv); [|done]. destruct (do_plot interv); [|done].
  apply mark_days_traces.
Qed.

Lemma count_state_lookup (z : list (list Z)) (ncols : nat) (v : Z) (j : nat) :
  (j < ncols)%nat ->
  count_state z ncols v !! j
  = Some (inject_Z (Z.of_nat (length (filter (fun row => row !! j = Some v) z)))).
Proof.
  intros Hj. unfold count_state. rewrite list_lookup_fmap, lookup_seq_lt by done. done.
Qed.

(** Every row counts for exactly one state at a time point. *)
Lemma state_counts_total (z : list (list Z)) (j : nat) :
  Forall (fun row => exists c, row !! j = Some c /\ c ∈ [0; 2; 3; 4; 5]) z ->
  (length (filter (fun row => row !! j = Some 5%Z) z)
   + length (filter (fun row => row !! j = Some 4%Z) z)
   + length (filter (fun row => row !! j = Some 3%Z) z)
   + length (filter (fun row => row !! j = Some 2%Z) z)
   + length (filter (fun row => row !! j = Some 0%Z) z))%nat
  = length z.
Proof.
  induction 1 as [|row z (c & Hc & Hin) Hz IH]; [done|].
  rewrite !filter_cons, Hc. rewrite !elem_of_cons, elem_of_nil in Hin.
  destruct Hin as [->|[->|[->|[->|[->|[]]]]]];
    repeat (first [rewrite decide_True by done | rewrite decide_False by done]);
    simpl; lia.
Qed.

(** The figure of [plotly_people] before the markers and the layout: the
    five traces, last state first. *)
Lemma plotly_people_inv (sim : sim_t) (do_show : bool) (fig : go_figure) (shown : bool) :
  plotly_people sim do_show = Ok (fig, shown) ->
  exists z date,
    get_individual_states sim = Ok (z, states)
    /\ results sim !! "date" = Some date
    /\ shown = do_show
    /\ fig_traces fig
       = map (fun state =>
                {| tr_x := slice_all date; tr_y := count_state z (npts sim) (value state);
                   tr_name := state_name state; tr_mode := None;
                   tr_color := PStr (state_color state); tr_stackgroup := Some "one" |})
           (rev states).
Proof.
  unfold plotly_people, rbind.
  destruct (get_individual_states sim) as [[z sts]|e] eqn:Hget; [|done].
  destruct (individual_states_rows sim z sts Hget) as (-> & _ & _).
  unfold dict_get. destruct (results sim !! "date") as [date|] eqn:Hdate; [|done].
  simpl. intros [= <- <-]. exists z, date. split; [done|]. split; [done|]. split; [done|].
  simpl. by rewrite people_markers_traces.
Qed.

(** [plotly_people] stacks one trace per state, from dead at the bottom to
    healthy on top, each with one count per time point; and it shows the
    figure exactly when asked to. *)
Theorem plotly_people_traces (sim : sim_t) (do_show : bool) (fig : go_figure) (shown : bool) :
  plotly_people sim do_show = Ok (fig, shown) ->
  shown = do_show
  /\ map tr_name (fig_traces fig) = ["Dead"; "Recovered"; "Infectious"; "Exposed"; "Healthy"]
  /\ Forall (fun tr => length (tr_y tr) = npts sim /\ tr_stackgroup tr = Some "one")
       (fig_traces fig).
Proof.
  intros Hfig. destruct (plotly_people_inv sim do_show fig shown Hfig)
    as (z & date & _ & _ & -> & ->).
  split; [done|]. split; [done|].
  apply Forall_map, Forall_forall. intros state _. simpl. split; [|done].
  unfold count_state. by rewrite length_map, length_seq.
Qed.

(** At every time point the stack of [plotly_people] adds up to the size
    of the population: each person is counted in exactly one state. *)
Theorem plotly_people_total (sim : sim_t) (do_show : bool) (fig : go_figure) (shown : bool)
    (j : nat) :
  plotly_people sim do_show = Ok (fig, shown) ->
  (j < npts sim)%nat ->
  (column_total fig j == inject_Z (Z.of_nat (n sim)))%Q.
Proof.
  intros Hfig Hj. destruct (plotly_people_inv sim do_show fig shown Hfig)
    as (z & date & Hget & _ & _ & Htraces).
  destruct (individual_states_shape sim z states Hget) as (Hlen & Hrows).
  unfold column_total. rewrite Htraces. simpl.
  rewrite !count_state_lookup by done. simpl.
  rewrite <- Hlen, <- (state_counts_total z j).
  - rewrite !Nat2Z.inj_add, !inject_Z_plus. ring.
  - eapply Forall_impl; [exact Hrows|]. simpl. intros row [Hrow Hcells].
    destruct (lookup_lt_is_Some_2 row j) as (c & Hc); [lia|].
    exists c. split; [done|]. rewrite Forall_lookup in Hcells. by apply (Hcells j).
Qed.

Lemma plotly_sim_key_ok (sim : sim_t) (fig : go_figure) (key : string) :
  plotly_key_ok sim key ->
  exists fig', plotly_sim_key sim fig key = Ok fig'
               /\ (length (fig_traces fig) < length (fig_traces fig'))%nat.
Proof.
  intros ((r & Hr) & (date & Hdate) & Hdata). unfold plotly_sim_key, dict_get, rbind.
  rewrite Hr, Hdate. simpl.
  destruct (data sim) as [d|].
  - destruct (columns d !! key) as [ydata|] eqn:Hy.
    + destruct (Hdata d eq_refl) as (xdata & Hx); [by eexists|]. rewrite Hx.
      eexists. split; [reflexivity|]. simpl. rewrite !length_app. simpl. lia.
    + eexists. split; [reflexivity|]. simpl. rewrite length_app. simpl. lia.
  - eexists. split; [reflexivity|]. simpl. rewrite length_app. simpl. lia.
Qed.

Lemma plotly_sim_keys_ok (sim : sim_t) (keys : list string) (fig : go_figure) :
  Forall (plotly_key_ok sim) keys ->
  exists fig', rfold (plotly_sim_key sim) keys fig = Ok fig'.
Proof.
  intros Hkeys. revert fig. induction Hkeys as [|key keys Hkey Hkeys IH]; intros fig; simpl.
  - by eexists.
  - destruct (plotly_sim_key_ok sim fig key Hkey) as (fig1 & -> & _). simpl. apply IH.
Qed.

Lemma plotly_sim_keys_raise (sim : sim_t) (pre post : list string) (key : string)
    (fig : go_figure) :
  Forall (plotly_key_ok sim) pre ->
  results sim !! key = None ->
  rfold (plotly_sim_key sim) (pre ++ key :: post) fig = Raise (KeyError key).
Proof.
  intros Hpre Hkey. revert fig. induction Hpre as [|k pre Hk Hpre IH]; intros fig; simpl.
  - unfold plotly_sim_key, dict_get. by rewrite Hkey.
  - destruct (plotly_sim_key_ok sim fig k Hk) as (fig1 & -> & _). simpl. apply IH.
Qed.

Lemma plotly_sim_panel_title (sim : sim_t) (plots plots' : list go_figure)
    (title : string) (keys : list string) :
  plotly_sim_panel sim plots (title, keys) = Ok plots' ->
  exists fig,
    plots' = plots ++ [fig]
    /\ fig_layout fig !! "title" = Some (PStr title)
    /\ fig_layout fig !! "yaxis_title" = Some (PStr "Count").
Proof.
  unfold plotly_sim_panel, rbind.
  destruct (rfold (plotly_sim_key sim) keys go_Figure) as [fig|e]; [|done].
  intros [= <-]. eexists. split; [done|]. simpl. split.
  - apply lookup_union_Some_l. by rewrite lookup_insert_eq.
  - apply lookup_union_Some_l. rewrite lookup_insert_ne by done. by rewrite lookup_insert_eq.
Qed.

Lemma plotly_sim_panels (sim : sim_t) (panels : to_plot_t) (acc plots : list go_figure) :
  rfold (plotly_sim_panel sim) panels acc = Ok plots ->
  exists figs,
    plots = acc ++ figs
    /\ Forall2 (fun fig item => fig_layout fig !! "title" = Some (PStr (fst item))
                                /\ fig_layout fig !! "yaxis_title" = Some (PStr "Count"))
         figs panels.
Proof.
  revert acc. induction panels as [|[title keys] panels IH]; intros acc; cbn [rfold].
  - intros [= <-]. exists []. split; [by rewrite app_nil_r | constructor].
  - destruct (plotly_sim_panel sim acc (title, keys)) as [acc1|e] eqn:Hpanel;
      cbn [rbind]; [|done].
    intros Hrest. destruct (plotly_sim_panel_title _ _ _ _ _ Hpanel) as (fig & -> & Ht & Hy).
    destruct (IH _ Hrest) as (figs & -> & Hfigs).
    exists (fig :: figs). split; [by rewrite <- app_assoc|]. by constructor.
Qed.

(** [plotly_sim] returns one figure per panel of the default table, in the
    order of the table, each titled after its panel; and it does return
    when every key of the table can be drawn. *)
Theorem plotly_sim_figures (sim : sim_t) :
  (forall plots,
     plotly_sim sim = Ok plots ->
     Forall2 (fun fig item => fig_layout fig !! "title" = Some (PStr (fst item))
                              /\ fig_layout fig !! "yaxis_title" = Some (PStr "Count"))
       plots get_sim_plots)
  /\ (Forall (fun item : string * list string => Forall (plotly_key_ok sim) (snd item))
        get_sim_plots ->
      exists plots, plotly_sim sim = Ok plots).
Proof.
  split.
  - intros plots Hplots. unfold plotly_sim in Hplots.
    by destruct (plotly_sim_panels sim _ _ _ Hplots) as (figs & -> & Hfigs).
  - intros Hall. unfold plotly_sim. generalize (@nil go_figure).
    induction Hall as [|[title keys] panels Hkeys Hpanels IH]; intros acc; cbn [rfold].
    + by eexists.
    + unfold plotly_sim_panel at 1. simpl in Hkeys.
      destruct (plotly_sim_keys_ok sim keys go_Figure Hkeys) as (fig & ->).
      cbn [rbind]. apply IH.
Qed.

(** The first key of the default table that is absent from [sim.results]
    makes [plotly_sim] end with the [KeyError] of the lookup. *)
Theorem plotly_sim_missing_key (sim : sim_t) (key title : string) (pre post : list string)
    (tp_pre tp_post : to_plot_t) :
  get_sim_plots = tp_pre ++ (title, pre ++ key :: post) :: tp_post ->
  Forall (fun item : string * list string => Forall (plotly_key_ok sim) (snd item)) tp_pre ->
  Forall (plotly_key_ok sim) pre ->
  results sim !! key = None ->
  plotly_sim sim = Raise (KeyError key).
Proof.
  intros Hplots Htp Hpre Hkey. unfold plotly_sim. rewrite Hplots. clear Hplots.
  generalize (@nil go_figure).
  induction Htp as [|[title' keys] panels Hkeys Hpanels IH]; intros acc;
    cbn [rfold app].
  - unfold plotly_sim_panel at 1. by rewrite (plotly_sim_keys_raise sim pre post key).
  - unfold plotly_sim_panel at 1. simpl in Hkeys.
    destruct (plotly_sim_keys_ok sim keys go_Figure Hkeys) as (fig & ->).
    cbn [rbind]. apply IH.
Qed.

Lemma last_annotation_app (l1 l2 : list Z) (before : list go_annotation) :
  last_annotation (l1 ++ l2) before = last_annotation l2 (last_annotation l1 before).
Proof.
  unfold last_annotation. rewrite last_app. by destruct (last l2).
Qed.

Lemma mark_days_annotations (n_days : Z) (ds : list Z) (fig : go_figure) :
  fig_annotations (fold_left (mark_day n_days) ds fig)
  = last_annotation (List.filter (fun d => (0 <? d) && (d <? n_days)) ds)
      (fig_annotations fig).
Proof.
  revert fig. induction ds as [|d ds IH]; intros fig; simpl; [done|].
  rewrite IH. unfold mark_day. rewrite Z.gtb_ltb.
  destruct ((0 <? d) && (d <? n_days)); simpl; [|done].
  change (d :: List.filter (fun d0 => (0 <? d0) && (d0 <? n_days)) ds)
    with ([d] ++ List.filter (fun d0 => (0 <? d0) && (d0 <? n_days)) ds).
  by rewrite last_annotation_app.
Qed.

Lemma interv_loop_annotations (step : go_figure -> intervention -> go_figure)
    (marked : intervention -> list Z) (l : list intervention) (fig : go_figure) :
  (forall f interv,
     fig_annotations (step f interv) = last_annotation (marked interv) (fig_annotations f)) ->
  fig_annotations (fold_left step l fig)
  = last_annotation (flat_map marked l) (fig_annotations fig).
Proof.
  intros Hstep. revert fig. induction l as [|interv l IH]; intros fig; simpl; [done|].
  by rewrite IH, Hstep, last_annotation_app.
Qed.

Lemma sim_markers_annotations (sim : sim_t) (fig : go_figure) :
  fig_annotations (sim_markers sim fig)
  = last_annotation (marker_days false sim) (fig_annotations fig).
Proof.
  unfold sim_markers, marker_days.
  rewrite <- (interv_loop_annotations
                (fun fig interv =>
                   match days interv with
                   | Some ds => fold_left (mark_day (n_days sim)) ds fig
                   | None => fig
                   end)).
  - by destruct (interventions sim).
  - intros f interv. destruct (days interv) as [ds|]; simpl; [|done].
    apply mark_days_annotations.
Qed.

Lemma people_markers_annotations (sim : sim_t) (fig : go_figure) :
  fig_annotations (people_markers sim fig)
  = last_annotation (marker_days true sim) (fig_annotations fig).
Proof.
  unfold people_markers, marker_days.
  rewrite <- (interv_loop_annotations
                (fun fig interv =>
                   match days interv with
                   | Some ds =>
                       if do_plot interv then fold_left (mark_day (n_days sim)) ds fig else fig
                   | None => fig
                   end)).
  - by destruct (interventions sim).
  - intros f interv. destruct (days interv) as [ds|]; simpl; [|done].
    destruct (do_plot interv); simpl; [|done].
    apply mark_days_annotations.
Qed.

Lemma rfold_keeps_annotations {A} (body : go_figure -> A -> result go_figure) (l : list A)
    (fig fig' : go_figure) :
  (forall f x f', body f x = Ok f' -> fig_annotations f' = fig_annotations f) ->
  rfold body l fig = Ok fig' -> fig_annotations fig' = fig_annotations fig.
Proof.
  intros Hbody. revert fig. induction l as [|x l IH]; intros fig; simpl.
  - by intros [= ->].
  - destruct (body fig x) as [f1|e] eqn:Hb; simpl; [|done].
    intros Hr. rewrite (IH _ Hr). by apply (Hbody fig x).
Qed.

Lemma plotly_sim_key_annotations (sim : sim_t) (fig : go_figure) (key : string)
    (fig' : go_figure) :
  plotly_sim_key sim fig key = Ok fig' -> fig_annotations fig' = fig_annotations fig.
Proof.
  unfold plotly_sim_key, rbind.
  destruct (dict_get (results sim) key) as [e|]; [|done].
  destruct (attr name "name" e); [|done].
  destruct (attr color "color" e); [|done].
  destruct (dict_get (results sim) "date"); [|done].
  destruct (data sim) as [d|]; [|by intros [= <-]].
  destruct (columns d !! key); [|by intros [= <-]].
  destruct (dict_get (columns d) "date"); [|done]. by intros [= <-].
Qed.

Lemma plotly_sim_panels_annotations (sim : sim_t) (panels : to_plot_t)
    (acc plots : list go_figure) :
  Forall (fun fig => fig_annotations fig = last_annotation (marker_days false sim) []) acc ->
  rfold (plotly_sim_panel sim) panels acc = Ok plots ->
  Forall (fun fig => fig_annotations fig = last_annotation (marker_days false sim) []) plots.
Proof.
  revert acc. induction panels as [|[title keys] panels IH]; intros acc Hacc; cbn [rfold].
  - by intros [= <-].
  - unfold plotly_sim_panel at 1. unfold rbind at 2.
    destruct (rfold (plotly_sim_key sim) keys go_Figure) as [fig|e] eqn:Hkeys;
      cbn [rbind]; [|done].
    apply IH. apply Forall_app. split; [done|]. constructor; [|constructor].
    simpl. rewrite sim_markers_annotations.
    by rewrite (rfold_keeps_annotations _ _ _ _ (plotly_sim_key_annotations sim) Hkeys).
Qed.

(** However many markers a Plotly figure gets, it carries at most one
    annotation: each marker replaces the annotations, so only the last
    marked day is labelled (and no day, when there is no marker). *)
Theorem plotly_annotations (sim : sim_t) :
  (forall plots,
     plotly_sim sim = Ok plots ->
     Forall (fun fig => fig_annotations fig = last_annotation (marker_days false sim) [])
       plots)
  /\ (forall do_show fig shown,
        plotly_people sim do_show = Ok (fig, shown) ->
        fig_annotations fig = last_annotation (marker_days true sim) []).
Proof.
  split.
  - intros plots. unfold plotly_sim. apply plotly_sim_panels_annotations. constructor.
  - intros do_show fig shown. unfold plotly_people, rbind.
    destruct (get_individual_states sim) as [[z sts]|e]; [|done].
    match goal with
    | |- context [rfold ?body ?l ?f] => destruct (rfold body l f) as [fig1|e] eqn:Htraces
    end; [|done].
    intros [= <- _]. simpl. rewrite people_markers_annotations.
    apply rfold_keeps_annotations in Htraces; [by rewrite Htraces|].
    intros f x f'. simpl. destruct (dict_get (results sim) "date"); [|done].
    by intros [= <-].
Qed.

End plotly_more.

(** ** The calls of the plotting functions *)

Section emit_facts.
Import plotting statements.
Context `{Libs}.

Lemma only_emits_ret {A} (P : call -> Prop) (a : A) : only_emits P (ret a).
Proof. intros st. by exists []. Qed.

Lemma only_emits_raise {A} (P : call -> Prop) (e : exn) : only_emits P (@raise A e).
Proof. intros st. by exists []. Qed.

Lemma only_emits_lift {A} (P : call -> Prop) (r : result A) : only_emits P (lift r).
Proof. intros st. by exists []. Qed.

Lemma only_emits_get_trace (P : call -> Prop) : only_emits P get_trace.
Proof. intros st. by exists []. Qed.

Lemma only_emits_set_legend_dict (P : call -> Prop) (d : kwargs) :
  only_emits P (set_legend_dict d).
Proof. intros st. by exists []. Qed.

Lemma only_emits_no_repeat (P : call -> Prop) (given : list string) (kw : kwargs) :
  only_emits P (no_repeat given kw).
Proof. intros st. exists []. unfold no_repeat. by destruct (forallb _ given). Qed.

Lemma only_emits_emit (P : call -> Prop) (c : call) : P c -> only_emits P (emit c).
Proof. intros Hc st. exists [c]. split; [done|]. by constructor. Qed.

Lemma only_emits_pl_figure (P : call -> Prop) (kw : kwargs) :
  (forall f, P (Figure kw f)) -> only_emits P (pl_figure kw).
Proof. intros Hc st. exists [Figure kw (next_fig st)]. split; [done|]. by constructor. Qed.

Lemma only_emits_pl_subplot (P : call -> Prop) pos sharex label :
  (forall a, P (Subplot pos sharex label a)) -> only_emits P (pl_subplot pos sharex label).
Proof.
  intros Hc st. exists [Subplot pos sharex label (next_ax st)]. split; [done|].
  by constructor.
Qed.

Lemma only_emits_bind {A B} (P : call -> Prop) (m : M A) (k : A -> M B) :
  only_emits P m -> (forall a, only_emits P (k a)) -> only_emits P (bind m k).
Proof.
  intros Hm Hk st. destruct (Hm st) as (l1 & Ht1 & Hl1). unfold bind.
  destruct (m st) as [[a|e] st1]; simpl in Ht1.
  - destruct (Hk a st1) as (l2 & Ht2 & Hl2). exists (l2 ++ l1).
    split; [by rewrite Ht2, Ht1, app_assoc | by apply Forall_app].
  - by exists l1.
Qed.

Lemma only_emits_when (P : call -> Prop) (b : bool) (m : M unit) :
  only_emits P m -> only_emits P (when b m).
Proof. intros Hm. destruct b; [done | apply only_emits_ret]. Qed.

Lemma only_emits_bind_lift {A B} (P : call -> Prop) (r : result A) (k : A -> M B) :
  (forall a, r = Ok a -> only_emits P (k a)) -> only_emits P (bind (lift r) k).
Proof.
  intros Hk st. unfold bind, lift. destruct r as [a|e].
  - by apply Hk.
  - by exists [].
Qed.

Lemma only_emits_for_each_in {A S} (P : call -> Prop) (body : S -> A -> M S) (l : list A)
    (s : S) :
  (forall s x, x ∈ l -> only_emits P (body s x)) -> only_emits P (for_each body l s).
Proof.
  revert s. induction l as [|x l IH]; intros s Hbody; simpl.
  - apply only_emits_ret.
  - apply only_emits_bind.
    + apply Hbody. by apply list_elem_of_here.
    + intros s'. apply IH. intros s0 y Hy. apply Hbody. by apply list_elem_of_further.
Qed.

Lemma only_emits_for_each {A S} (P : call -> Prop) (body : S -> A -> M S) (l : list A) (s : S) :
  (forall s x, only_emits P (body s x)) -> only_emits P (for_each body l s).
Proof.
  intros Hbody. revert s. induction l as [|x l IH]; intros s; simpl.
  - apply only_emits_ret.
  - apply only_emits_bind; [apply Hbody | apply IH].
Qed.

End emit_facts.

Ltac emits_step HP :=
  match goal with
  | |- statements.only_emits _ (plotting.bind _ _) => apply only_emits_bind; [|intros ?]
  | |- statements.only_emits _ (plotting.ret _) => apply only_emits_ret
  | |- statements.only_emits _ (plotting.raise _) => apply only_emits_raise
  | |- statements.only_emits _ (plotting.lift _) => apply only_emits_lift
  | |- statements.only_emits _ plotting.get_trace => apply only_emits_get_trace
  | |- statements.only_emits _ (plotting.set_legend_dict _) =>
      apply only_emits_set_legend_dict
  | |- statements.only_emits _ (plotting.no_repeat _ _) => apply only_emits_no_repeat
  | |- statements.only_emits _ (plotting.emit _) => apply only_emits_emit, HP; exact I
  | |- statements.only_emits _ (plotting.when _ _) => apply only_emits_when
  | |- statements.only_emits _ (plotting.pl_figure _) =>
      apply only_emits_pl_figure; solve [auto]
  | |- statements.only_emits _ (plotting.pl_subplot _ _ _) =>
      apply only_emits_pl_subplot; solve [auto]
  | |- statements.only_emits _ (plotting.for_each _ _ _) =>
      apply only_emits_for_each; intros ? ?
  | |- statements.only_emits _ (match ?x with _ => _ end) => destruct x
  end.

Ltac emits HP := repeat (emits_step HP).

Section draw_facts.
Import plotting statements.
Context `{Libs}.
Variable P : call -> Prop.
Hypothesis HP : forall c, plain c -> P c.

Lemma plot_data_emits sim key scatter_args : only_emits P (plot_data sim key scatter_args).
Proof. unfold plot_data. emits HP. Qed.

Lemma plot_interventions_emits sim ax : only_emits P (plot_interventions sim ax).
Proof. unfold plot_interventions. emits HP. Qed.

Lemma title_grid_legend_emits ax title grid commaticks setylim legend_args show_legend :
  only_emits P (title_grid_legend ax title grid commaticks setylim legend_args show_legend).
Proof. unfold title_grid_legend. emits HP. Qed.

Lemma reset_ticks_emits ax sim interval as_dates :
  only_emits P (reset_ticks ax sim interval as_dates).
Proof. unfold reset_ticks. emits HP. Qed.

Lemma plot_sim_key_emits sim kw args ax u key :
  only_emits P (plot_sim_key sim kw args ax u key).
Proof.
  unfold plot_sim_key. emits HP;
    first [apply plot_data_emits | apply reset_ticks_emits].
Qed.

Lemma plot_scens_scen_emits scens kw args default_colors ax reskey u item :
  only_emits P (plot_scens_scen scens kw args default_colors ax reskey u item).
Proof.
  unfold plot_scens_scen. destruct item as [snum [scenkey scendata]].
  emits HP;
    first [ apply plot_data_emits | apply plot_interventions_emits | apply reset_ticks_emits ].
Qed.

Lemma plot_scens_key_emits scens kw args default_colors ax u reskey :
  only_emits P (plot_scens_key scens kw args default_colors ax u reskey).
Proof. unfold plot_scens_key. emits HP. apply plot_scens_scen_emits. Qed.

(** From here on, figures are created. *)
Hypothesis HF : forall kw f, P (Figure kw f).

Lemma create_figs_emits args font_size font_family sep_figs fig :
  only_emits P (create_figs args font_size font_family sep_figs fig).
Proof. unfold create_figs. emits HP. Qed.

(** The axes that [create_subplots] asks for, for the panel [pnum]. *)
Lemma create_subplots_emits figs fig shareax n_rows n_cols pnum fig_args sep_figs log_scale title :
  (forall a, P (Subplot (CodePos 111) None (ax_label pnum) a)) ->
  (forall a, P (Subplot (GridPos (PFloat n_rows) n_cols (Z.of_nat pnum + 1)) shareax (ax_label pnum) a)) ->
  only_emits P (create_subplots figs fig shareax n_rows n_cols pnum fig_args sep_figs
                  log_scale title).
Proof. intros Hcode Hgrid. unfold create_subplots. emits HP. Qed.

Lemma plot_sim_panel_emits sim kw args fig n_rows ax figs legend pnum title keys :
  (forall a, P (Subplot (CodePos 111) None (ax_label pnum) a)) ->
  (forall a, P (Subplot (GridPos (PFloat n_rows) (n_cols kw) (Z.of_nat pnum + 1)) ax (ax_label pnum) a)) ->
  only_emits P (plot_sim_panel sim kw args fig n_rows (ax, figs, legend) (pnum, (title, keys))).
Proof.
  intros Hcode Hgrid. unfold plot_sim_panel.
  emits HP;
    first [ by apply create_subplots_emits | apply plot_sim_key_emits
          | apply plot_interventions_emits | apply title_grid_legend_emits ].
Qed.

Lemma plot_scens_panel_emits scens kw args default_colors fig n_rows ax figs legend pnum
    title keys :
  (forall a, P (Subplot (CodePos 111) None (ax_label pnum) a)) ->
  (forall a, P (Subplot (GridPos (PFloat n_rows) (n_cols kw) (Z.of_nat pnum + 1)) ax (ax_label pnum) a)) ->
  only_emits P (plot_scens_panel scens kw args default_colors fig n_rows (ax, figs, legend)
                  (pnum, (title, keys))).
Proof.
  intros Hcode Hgrid. unfold plot_scens_panel.
  emits HP;
    first [ by apply create_subplots_emits | apply plot_scens_key_emits
          | apply title_grid_legend_emits ].
Qed.

(** [plot_result] asks for one axes at most, at position 111. *)
Lemma plot_result_emits sim key kw :
  (forall a, P (Subplot (CodePos 111) None "plot_result" a)) ->
  only_emits P (plot_result sim key kw).
Proof.
  intros Hcode. unfold plot_result. emits HP;
    first [ apply create_figs_emits | apply plot_data_emits | apply plot_interventions_emits
          | apply title_grid_legend_emits | apply reset_ticks_emits ].
Qed.

(** The panel loops: the axes they ask for are those of the panels of
    the loop, at the grid that they are given. *)
Lemma sim_panels_emits sim kw args fig n_rows (tp : to_plot_t) s :
  (forall pnum a, (pnum < length tp)%nat -> P (Subplot (CodePos 111) None (ax_label pnum) a)) ->
  (forall pnum ax a, (pnum < length tp)%nat ->
     P (Subplot (GridPos (PFloat n_rows) (n_cols kw) (Z.of_nat pnum + 1)) ax (ax_label pnum) a)) ->
  only_emits P (for_each (plot_sim_panel sim kw args fig n_rows) (enumerate tp) s).
Proof.
  intros Hcode Hgrid. apply only_emits_for_each_in.
  intros [[ax figs] legend] [pnum [title keys]] Hin.
  assert (Hpnum : (pnum < length tp)%nat).
  { apply list_elem_of_lookup in Hin as (j & Hj). unfold enumerate in Hj.
    rewrite enumerate_from_lookup in Hj. apply fmap_Some in Hj as (x & Htp & Heq).
    apply lookup_lt_Some in Htp. injection Heq as Hp _. lia. }
  apply plot_sim_panel_emits; auto.
Qed.

Lemma scens_panels_emits scens kw args default_colors fig n_rows (tp : to_plot_t) s :
  (forall pnum a, (pnum < length tp)%nat -> P (Subplot (CodePos 111) None (ax_label pnum) a)) ->
  (forall pnum ax a, (pnum < length tp)%nat ->
     P (Subplot (GridPos (PFloat n_rows) (n_cols kw) (Z.of_nat pnum + 1)) ax (ax_label pnum) a)) ->
  only_emits P (for_each (plot_scens_panel scens kw args default_colors fig n_rows)
                  (enumerate tp) s).
Proof.
  intros Hcode Hgrid. apply only_emits_for_each_in.
  intros [[ax figs] legend] [pnum [title keys]] Hin.
  assert (Hpnum : (pnum < length tp)%nat).
  { apply list_elem_of_lookup in Hin as (j & Hj). unfold enumerate in Hj.
    rewrite enumerate_from_lookup in Hj. apply fmap_Some in Hj as (x & Htp & Heq).
    apply lookup_lt_Some in Htp. injection Heq as Hp _. lia. }
  apply plot_scens_panel_emits; auto.
Qed.

(** [plot_sim] and [plot_scens], with any last line [k] in the place of
    [tidy_up]. *)
Lemma plot_sim_body_emits sim kw (k : option nat -> option (list nat) -> M fig_result) :
  (forall tp n_rows pnum ax a,
     handle_to_plot "sim" (to_plot kw) (n_cols kw) = Ok (tp, n_rows) ->
     (pnum < length tp)%nat ->
     P (Subplot (CodePos 111) None (ax_label pnum) a)
     /\ P (Subplot (GridPos (PFloat n_rows) (n_cols kw) (Z.of_nat pnum + 1)) ax (ax_label pnum) a)) ->
  (forall fig figs, only_emits P (k fig figs)) ->
  only_emits P
    (let args := handle_args (fig_args kw) (plot_args kw) (scatter_args kw)
                   (axis_args kw) (fill_args kw) (legend_args kw) in
     tn <- lift (handle_to_plot "sim" (to_plot kw) (n_cols kw)) ;;
     let '(to_plot, n_rows) := tn in
     ffa <- create_figs args (font_size kw) (font_family kw) (sep_figs kw) (plotting.fig kw) ;;
     let '(fig, figs, ax) := ffa in
     s <- for_each (plot_sim_panel sim kw args fig n_rows) (enumerate to_plot)
            (ax, figs, args_legend args) ;;
     let '(_, figs, _) := s in
     k fig figs).
Proof.
  intros Hsub Hk. cbv zeta. apply only_emits_bind_lift. intros [tp n_rows] Hplot.
  apply only_emits_bind; [apply create_figs_emits|]. intros [[fig figs] ax].
  apply only_emits_bind.
  - apply sim_panels_emits; intros; by apply (Hsub tp n_rows).
  - intros [[? figs'] ?]. apply Hk.
Qed.

Lemma plot_scens_body_emits scens kw (k : option nat -> option (list nat) -> M fig_result) :
  (forall tp n_rows pnum ax a,
     handle_to_plot "scens" (to_plot kw) (n_cols kw) = Ok (tp, n_rows) ->
     (pnum < length tp)%nat ->
     P (Subplot (CodePos 111) None (ax_label pnum) a)
     /\ P (Subplot (GridPos (PFloat n_rows) (n_cols kw) (Z.of_nat pnum + 1)) ax (ax_label pnum) a)) ->
  (forall fig figs, only_emits P (k fig figs)) ->
  only_emits P
    (let args := handle_args (fig_args kw) (plot_args kw) (scatter_args kw)
                   (axis_args kw) (fill_args kw) (legend_args kw) in
     tn <- lift (handle_to_plot "scens" (to_plot kw) (n_cols kw)) ;;
     let '(to_plot, n_rows) := tn in
     ffa <- create_figs args (font_size kw) (font_family kw) (sep_figs kw) (plotting.fig kw) ;;
     let '(fig, figs, ax) := ffa in
     let default_colors := gridcolors (size (sims scens)) in
     s <- for_each (plot_scens_panel scens kw args default_colors fig n_rows) (enumerate to_plot)
            (ax, figs, args_legend args) ;;
     let '(_, figs, _) := s in
     k fig figs).
Proof.
  intros Hsub Hk. cbv zeta. apply only_emits_bind_lift. intros [tp n_rows] Hplot.
  apply only_emits_bind; [apply create_figs_emits|]. intros [[fig figs] ax].
  apply only_emits_bind.
  - apply scens_panels_emits; intros; by apply (Hsub tp n_rows).
  - intros [[? figs'] ?]. apply Hk.
Qed.

End draw_facts.

Section lifecycle_facts.
Import plotting statements.
Context `{Libs}.

Lemma tidy_up_no_save fig figs sep_figs do_save fig_path do_show default_name :
  truthy do_save = false ->
  only_emits (fun c => forall p, c <> SaveFig p)
    (tidy_up fig figs sep_figs do_save fig_path do_show default_name).
Proof.
  intros Hsave. unfold tidy_up. rewrite Hsave.
  repeat first
    [ apply only_emits_bind; [|intros ?]
    | apply only_emits_ret
    | apply only_emits_emit; done
    | match goal with |- only_emits _ (if ?b then _ else _) => destruct b end ].
Qed.

(** Unless saving is asked for, [plot_sim] and [plot_scens] write no file:
    whatever the arguments and the state, and whether they return or
    raise, no call of theirs is [savefig]. *)
Theorem plots_save_only_on_request (sim : sim_t) (scens : scens_t) (kw : plot_kw)
    (st : pl_state) :
  truthy (do_save kw) = false ->
  (exists l, trace (snd (plot_sim sim kw st)) = l ++ trace st
             /\ forall p, SaveFig p ∉ l)
  /\ (exists l, trace (snd (plot_scens scens kw st)) = l ++ trace st
                /\ forall p, SaveFig p ∉ l).
Proof.
  intros Hsave.
  assert (Hdraw : forall c, plain c -> forall p, c <> SaveFig p) by (by intros []).
  split.
  - destruct (plot_sim_body_emits _ Hdraw ltac:(done) sim kw
                (fun fig figs => tidy_up fig figs (sep_figs kw) (do_save kw) (fig_path kw)
                                   (do_show kw) "covasim.png")
                ltac:(done) ltac:(intros; by apply tidy_up_no_save) st) as (l & Hl & Hall).
    exists l. split; [exact Hl|]. intros p Hin. rewrite Forall_forall in Hall.
    by apply (Hall _ Hin p).
  - destruct (plot_scens_body_emits _ Hdraw ltac:(done) scens kw
                (fun fig figs => tidy_up fig figs (sep_figs kw) (do_save kw) (fig_path kw)
                                   (do_show kw) "covasim_scenarios.png")
                ltac:(done) ltac:(intros; by apply tidy_up_no_save) st) as (l & Hl & Hall).
    exists l. split; [exact Hl|]. intros p Hin. rewrite Forall_forall in Hall.
    by apply (Hall _ Hin p).
Qed.

Lemma tidy_up_emits (P : call -> Prop) fig figs sep_figs do_save fig_path do_show
    default_name :
  (forall p, P (SaveFig p)) -> P Show -> (forall f, P (Close f)) ->
  only_emits P (tidy_up fig figs sep_figs do_save fig_path do_show default_name).
Proof.
  intros Hsave Hshow Hclose. unfold tidy_up.
  repeat first
    [ apply only_emits_bind; [|intros ?]
    | apply only_emits_ret
    | apply only_emits_lift
    | apply only_emits_emit; solve [auto]
    | match goal with |- only_emits _ (if ?b then _ else _) => destruct b end ].
Qed.

(** The rows that [handle_to_plot] computes are enough for the panels. *)
Lemma handle_to_plot_rows (which : string) (tpo : option to_plot_t) (n_cols : Z)
    (tp : to_plot_t) (n_rows : Q) :
  handle_to_plot which tpo n_cols = Ok (tp, n_rows) ->
  grid_ok n_cols (length tp) ->
  exists rows : Z, n_rows = inject_Z rows /\ Z.of_nat (length tp) <= rows * n_cols.
Proof.
  unfold handle_to_plot, rbind, odict, dcp.
  destruct (match tpo with
            | Some tp0 => Ok tp0
            | None => _
            end) as [tp0|e]; [|done].
  destruct (truediv (Z.of_nat (length tp0)) n_cols) as [q|e] eqn:Hq; [|done].
  intros [= <- <-] [Hcols Hlen].
  destruct (truediv_rows (Z.of_nat (length tp0)) n_cols)
    as (q' & r & Hq' & Hr & _ & _ & Hint); [lia|lia|lia|].
  rewrite Hq in Hq'. injection Hq' as <-. exists r. split; [done|]. apply Hint. lia.
Qed.

(** What [plots_fit_grid] says of one call. *)
Lemma grid_call_ok (kw : plot_kw) (which : string) (table : to_plot_t)
    (tp : to_plot_t) (n_rows : Q) (pnum : nat) (ax : option nat) (a : nat) :
  let P := fun c0 : call =>
             forall r c num sharex label a,
               c0 = Subplot (GridPos r c num) sharex label a ->
               exists rows : Z,
                 r = PFloat (inject_Z rows) /\ c = n_cols kw
                 /\ 1 <= num <= rows * c /\ label = "ax" +:+ str_of_Z num in
  grid_ok (n_cols kw) (length tp) ->
  handle_to_plot which (to_plot kw) (n_cols kw) = Ok (tp, n_rows) ->
  (pnum < length tp)%nat ->
  P (Subplot (CodePos 111) None (ax_label pnum) a)
  /\ P (Subplot (GridPos (PFloat n_rows) (n_cols kw) (Z.of_nat pnum + 1)) ax (ax_label pnum) a).
Proof.
  intros P Hgrid Hplot Hpnum. split.
  - intros r c num sharex label a' [=].
  - intros r c num sharex label a' [= <- <- <- _ <- _].
    destruct (handle_to_plot_rows _ _ _ _ _ Hplot Hgrid) as (rows & -> & Hrows).
    exists rows. split; [done|]. split; [done|]. split; [lia | done].
Qed.

(** The grid is large enough: with at least one column (and panels and
    columns in the range in which the float division tells the integers
    apart), every axes that [plot_sim] or [plot_scens] asks for on the
    grid is in a row count that is a whole number and a column count of
    [n_cols], at a position between 1 and the number of cells, and is
    labelled after its position. *)
Theorem plots_fit_grid (sim : sim_t) (scens : scens_t) (kw : plot_kw) (st : pl_state) :
  (grid_ok (n_cols kw) (length (sim_to_plot kw)) ->
   exists l, trace (snd (plot_sim sim kw st)) = l ++ trace st
             /\ forall r c num sharex label a,
                  Subplot (GridPos r c num) sharex label a ∈ l ->
                  exists rows : Z,
                    r = PFloat (inject_Z rows) /\ c = n_cols kw
                    /\ 1 <= num <= rows * c /\ label = "ax" +:+ str_of_Z num)
  /\ (grid_ok (n_cols kw) (length (scens_to_plot kw)) ->
      exists l, trace (snd (plot_scens scens kw st)) = l ++ trace st
                /\ forall r c num sharex label a,
                     Subplot (GridPos r c num) sharex label a ∈ l ->
                     exists rows : Z,
                       r = PFloat (inject_Z rows) /\ c = n_cols kw
                       /\ 1 <= num <= rows * c /\ label = "ax" +:+ str_of_Z num).
Proof.
  set (P := fun c0 : call =>
              forall r c num sharex label a,
                c0 = Subplot (GridPos r c num) sharex label a ->
                exists rows : Z,
                  r = PFloat (inject_Z rows) /\ c = n_cols kw
                  /\ 1 <= num <= rows * c /\ label = "ax" +:+ str_of_Z num).
  assert (Hplain : forall c, plain c -> P c).
  { intros c Hc r c' num sharex label a ->. destruct Hc. }
  assert (Hfig : forall kwf f, P (Figure kwf f)) by (intros kwf f r c num sharex label a [=]).
  assert (Htidy : forall default_name fig figs,
             only_emits P (tidy_up fig figs (sep_figs kw) (do_save kw) (fig_path kw)
                             (do_show kw) default_name)).
  { intros. apply tidy_up_emits; intros; intros r c num sharex label a' [=]. }
  split; intros Hgrid.
  - destruct (plot_sim_body_emits P Hplain Hfig sim kw
                (fun fig figs => tidy_up fig figs (sep_figs kw) (do_save kw) (fig_path kw)
                                   (do_show kw) "covasim.png")) with (st := st)
      as (l & Hl & Hall).
    { intros tp n_rows pnum ax a Hplot Hpnum.
      apply (grid_call_ok kw "sim" get_sim_plots tp n_rows); [|done|done].
      apply (handle_to_plot_panels "sim" get_sim_plots) in Hplot; [|done].
      by rewrite Hplot. }
    { apply Htidy. }
    exists l. split; [exact Hl|]. intros r c num sharex label a Hin.
    rewrite Forall_forall in Hall. exact (Hall _ Hin r c num sharex label a eq_refl).
  - destruct (plot_scens_body_emits P Hplain Hfig scens kw
                (fun fig figs => tidy_up fig figs (sep_figs kw) (do_save kw) (fig_path kw)
                                   (do_show kw) "covasim_scenarios.png")) with (st := st)
      as (l & Hl & Hall).
    { intros tp n_rows pnum ax a Hplot Hpnum.
      apply (grid_call_ok kw "scens" get_scen_plots tp n_rows); [|done|done].
      apply (handle_to_plot_panels "scens" get_scen_plots) in Hplot; [|done].
      by rewrite Hplot. }
    { apply Htidy. }
    exists l. split; [exact Hl|]. intros r c num sharex label a Hin.
    rewrite Forall_forall in Hall. exact (Hall _ Hin r c num sharex label a eq_refl).
Qed.

(** [plot_result] has no last line like that of [plot_sim]: it never
    saves, shows or closes a figure, whatever its arguments. *)
Theorem plot_result_only_draws (sim : sim_t) (key : string) (kw : plot_kw) (st : pl_state) :
  exists l, trace (snd (plot_result sim key kw st)) = l ++ trace st
            /\ Forall drawing l.
Proof. apply (plot_result_emits drawing); try done. by intros []. Qed.

End lifecycle_facts.

Section more_plot_facts.
Import plotting statements.
Context `{Libs}.

(** When nothing stands in the way, [plot_sim] and [plot_scens] return:
    the libraries carry out every call and sciris makes every path valid,
    the caller repeats no keyword, the grid can be computed, and every
    key of every panel can be drawn. *)
Theorem plots_return (sim : sim_t) (scens : scens_t) (kw : plot_kw) (st : pl_state) :
  paths_accepted ->
  (sim_plots_ok sim kw -> exists r st', plot_sim sim kw st = (Ok r, st'))
  /\ (scens_plots_ok scens kw -> exists r st', plot_scens scens kw st = (Ok r, st')).
Proof.
  intros Hpaths. split; intros Hok.
  - destruct (plot_sim_reaches_tidy_up sim kw st Hok) as (st1 & ->).
    destruct Hok as (Hlib & _).
    destruct (tidy_up_ok (body_fig kw st) (body_figs kw st (length (sim_to_plot kw)))
                (sep_figs kw) (do_save kw) (fig_path kw) (do_show kw) "covasim.png" st1
                Hlib Hpaths) as (r & st' & Hrun & _).
    by exists r, st'.
  - destruct (plot_scens_reaches_tidy_up scens kw st Hok) as (st1 & ->).
    destruct Hok as (Hlib & _).
    destruct (tidy_up_ok (body_fig kw st) (body_figs kw st (length (scens_to_plot kw)))
                (sep_figs kw) (do_save kw) (fig_path kw) (do_show kw)
                "covasim_scenarios.png" st1 Hlib Hpaths) as (r & st' & Hrun & _).
    by exists r, st'.
Qed.

(** [plot_result] returns the figure it drew on: the one supplied, or the
    one it created; it does so whenever the key is a series of
    [sim.results], the time vector is there, the libraries carry out
    their calls, and the caller's dictionaries repeat none of the
    keywords that [ax.plot] and [pl.scatter] are given by name. *)
Theorem plot_result_returns (sim : sim_t) (key : string) (kw : plot_kw) (st : pl_state) :
  lib_accepts ->
  lacks (plot_args kw) "c" -> lacks (plot_args kw) "label" ->
  lacks (scatter_args kw) "c" -> lacks (scatter_args kw) "label" ->
  (exists r, results sim !! key = Some (Series r)) ->
  is_Some (results sim !! "t") ->
  exists st',
    plot_result sim key kw st
    = (Ok (Some (match plotting.fig kw with Some f => f | None => next_fig st end)), st').
Proof.
  intros Hlib Hpc Hpl Hsc Hsl (r & Hr) (rt & Ht).
  assert (Hdata : data_ok sim key) by (intros d col _ _ _; by exists r).
  cut (runs (plot_result sim key kw) st
         (fun res _ => res = Some (match plotting.fig kw with
                                   | Some f => f
                                   | None => next_fig st
                                   end))).
  { intros (res & st' & Hrun & ->). by exists st'. }
  unfold plot_result.
  set (args := handle_args _ _ _ _ _ _).
  assert (Hargs : args_distinct args).
  { by apply handle_args_distinct. }
  destruct Hargs as (Hlabel & Hc & _ & Hsc' & Hsl').
  apply runs_bind. eapply runs_weaken; [by apply create_figs_ok|]. simpl.
  intros ffa st1 [-> _].
  apply runs_bind. eapply runs_lift; [unfold dict_get; by rewrite Hr|].
  apply runs_bind. eapply runs_lift; [unfold dict_get; by rewrite Ht|].
  apply runs_bind. eapply runs_lift; [reflexivity|].
  apply runs_bind.
  apply runs_weaken with (P := fun _ st' => next_fig st' = next_fig st1).
  { destruct (color_kw kw); [by run|]. by eapply runs_lift. }
  intros c st2 _. apply runs_bind, runs_get_trace. apply runs_bind.
  apply runs_weaken with (P := fun _ _ => True).
  { destruct (reuse_axes _ _ _); run; done. }
  intros ax st3 _. apply runs_bind.
  apply runs_weaken with (P := fun _ _ => True).
  { destruct (label_kw kw); [by run|]. by eapply runs_lift. }
  intros lb st4 _.
  apply runs_bind, runs_no_repeat; [by repeat constructor|].
  apply runs_bind, runs_emit; [done|].
  apply runs_bind. eapply runs_weaken; [by apply plot_data_ok|]. simpl. intros _ st5 _.
  apply runs_bind. eapply runs_weaken; [by apply plot_interventions_ok|]. simpl.
  intros _ st6 _.
  apply runs_bind. eapply runs_lift; [reflexivity|].
  apply runs_bind. eapply runs_weaken; [by apply title_grid_legend_ok|]. simpl.
  intros _ st7 _.
  apply runs_bind. eapply runs_weaken; [by apply reset_ticks_ok|]. simpl. intros _ st8 _.
  by apply runs_ret.
Qed.

Lemma plot_scens_key_raises (scens : scens_t) (kw : plot_kw) (args : args_t)
    (default_colors : list pyval) (ax : nat) (key : string) (st : pl_state) :
  scen_results scens !! key = None ->
  raises (plot_scens_key scens kw args default_colors ax tt key) st (KeyError key).
Proof.
  intros Hkey. unfold plot_scens_key. apply raises_bind_l, raises_lift.
  unfold dict_get. by rewrite Hkey.
Qed.

Lemma plot_scens_panel_raises (scens : scens_t) (kw : plot_kw) (args : args_t)
    (fig : option nat) (n_rows : Q) (ax : option nat) (figs : option (list nat))
    (legend : kwargs) (pnum : nat) (title : string) (pre post : list string) (key : string)
    (st : pl_state) :
  lib_accepts -> args_distinct args ->
  Forall (scens_key_ok scens kw) pre ->
  scen_results scens !! key = None ->
  (sep_figs kw = true -> is_Some figs) ->
  raises (plot_scens_panel scens kw args (gridcolors (size (sims scens))) fig n_rows
            (ax, figs, legend) (pnum, (title, pre ++ key :: post))) st (KeyError key).
Proof.
  intros Hlib Hargs Hpre Hkey Hfigs. unfold plot_scens_panel.
  apply raises_bind_r. eapply runs_weaken; [by apply create_subplots_ok|]. simpl.
  intros [ax1 figs1] st1 _. apply raises_bind_l.
  apply (for_each_unit_raises _ (scens_key_ok scens kw)); [|done|].
  - intros. by apply plot_scens_key_ok.
  - intros. by apply plot_scens_key_raises.
Qed.

(** A result key that is absent from [scens.results] makes [plot_scens]
    (once the keys before it are drawn) end with the [KeyError] of the
    lookup. What comes before the lookup is taken to go through: the
    libraries carry out their calls, the caller repeats no keyword, and
    the grid can be computed. *)
Theorem plot_scens_missing_key (scens : scens_t) (kw : plot_kw) (key title : string)
    (pre post : list string) (tp_pre tp_post : to_plot_t) (st : pl_state) :
  lib_accepts ->
  scen_results scens !! key = None ->
  kw_distinct kw ->
  grid_ok (n_cols kw) (length (scens_to_plot kw)) ->
  scens_to_plot kw = tp_pre ++ (title, pre ++ key :: post) :: tp_post ->
  Forall (fun item : string * list string => Forall (scens_key_ok scens kw) (snd item)) tp_pre ->
  Forall (scens_key_ok scens kw) pre ->
  exists st', plot_scens scens kw st = (Raise (KeyError key), st').
Proof.
  intros Hlib Hkey Hkw Hn Hplots Htp Hpre.
  destruct (handle_to_plot_scens kw Hn) as (n_rows & Hplot).
  pose proof (kw_args_distinct kw Hkw) as Hargs.
  unfold plot_scens. rewrite Hplot, Hplots.
  set (args := handle_args _ _ _ _ _ _) in *.
  apply raises_bind_r, runs_lift with (a := (tp_pre ++ (title, pre ++ key :: post) :: tp_post, n_rows));
    [done|].
  apply raises_bind_r. eapply runs_weaken; [by apply create_figs_ok|]. simpl.
  intros ffa st1 [-> _]. apply raises_bind_l. unfold enumerate.
  apply (panels_loop_raises _ (Forall (scens_key_ok scens kw)) (sep_figs kw)); [|done| |].
  - intros. by apply plot_scens_panel_ok.
  - intros ->. by eexists.
  - intros. by apply plot_scens_panel_raises.
Qed.

(** What [title_grid_legend] does after the legend adds no legend. *)
Lemma title_grid_tail_emits (ax : nat) (title : string) (grid commaticks setylim : bool)
    (d : kwargs) :
  only_emits (fun c => forall a kw, c <> Legend a kw)
    (set_legend_dict d ;;;
     emit (SetTitle ax title) ;;;
     emit (Grid ax grid) ;;;
     when setylim (emit (SetYlimBottom ax 0)) ;;;
     (if commaticks then
        tr <- get_trace ;;
        let ylims := get_ylim tr ax in
        when (Qle_bool 1000 (snd ylims)) (emit Commaticks)
      else ret tt) ;;;
     ret d).
Proof.
  repeat first
    [ apply only_emits_bind; [|intros ?]
    | apply only_emits_ret
    | apply only_emits_get_trace
    | apply only_emits_set_legend_dict
    | apply only_emits_when
    | apply only_emits_emit; done
    | match goal with |- only_emits _ (if ?b then _ else _) => destruct b end ].
Qed.

(** The legend call and what follows it, from the state in which the
    entry has been taken out. *)
Lemma title_grid_legend_from (ax : nat) (title : string) (grid commaticks setylim : bool)
    (popped restored : kwargs) (show : bool) (st : pl_state) :
  exists l,
    trace (snd ((when show (emit (Legend ax popped)) ;;;
                 set_legend_dict restored ;;;
                 emit (SetTitle ax title) ;;;
                 emit (Grid ax grid) ;;;
                 when setylim (emit (SetYlimBottom ax 0)) ;;;
                 (if commaticks then
                    tr <- get_trace ;;
                    let ylims := get_ylim tr ax in
                    when (Qle_bool 1000 (snd ylims)) (emit Commaticks)
                  else ret tt) ;;;
                 ret restored) st))
    = l ++ (if show then [Legend ax popped] else []) ++ trace st
    /\ Forall (fun c => forall a kw, c <> Legend a kw) l.
Proof.
  unfold bind at 1. destruct show; simpl.
  - unfold emit at 1. destruct (answer (trace st) (Legend ax popped) tt).
    + destruct (title_grid_tail_emits ax title grid commaticks setylim restored
                  (called (Legend ax popped) st)) as (l & Hl & Hall).
      exists l. split; [exact Hl | exact Hall].
    + by exists [].
  - destruct (title_grid_tail_emits ax title grid commaticks setylim restored st)
      as (l & Hl & Hall).
    exists l. split; [exact Hl | exact Hall].
Qed.

(** A ['show_legend'] entry of the dictionary decides whether the legend
    is drawn, and the argument of that name only when there is no entry;
    the legend is drawn at most once, first of all calls, and without the
    entry among its keyword arguments. *)
Theorem title_grid_legend_show (ax : nat) (title : string) (grid commaticks setylim : bool)
    (legend_args : kwargs) (show_legend : pyval) (st : pl_state) :
  exists l,
    trace (snd (title_grid_legend ax title grid commaticks setylim legend_args show_legend st))
    = l ++ (if truthy (default show_legend (legend_args !! "show_legend"))
            then [Legend ax (delete "show_legend" legend_args)]
            else [])
        ++ trace st
    /\ Forall (fun c => forall a kw, c <> Legend a kw) l.
Proof.
  unfold title_grid_legend.
  destruct (legend_args !! "show_legend") as [v|] eqn:Hv; simpl.
  - unfold bind at 1. simpl.
    apply (title_grid_legend_from ax title grid commaticks setylim
             (delete "show_legend" legend_args)
             (<["show_legend" := v]> (delete "show_legend" legend_args)) (truthy v)
             {| next_fig := next_fig st; next_ax := next_ax st; trace := trace st;
                legend_dict := delete "show_legend" legend_args |}).
  - rewrite (delete_id legend_args "show_legend") by done.
    unfold bind at 1. simpl.
    apply (title_grid_legend_from ax title grid commaticks setylim
             legend_args legend_args (truthy show_legend)
             {| next_fig := next_fig st; next_ax := next_ax st; trace := trace st;
                legend_dict := legend_args |}).
Qed.

End more_plot_facts.

(** ** The further properties at concrete inputs *)

Section concrete_more.
Import plotting statements.

Lemma get_ind_of_min_value_monotone_witness :
  45 <= 70
  /\ test_variants.get_ind_of_min_value [20; 40; 60; 80] 45 = Ok 1%nat
  /\ exists ind2,
       test_variants.get_ind_of_min_value [20; 40; 60; 80] 70 = Ok ind2 /\ (1 <= ind2)%nat.
Proof.
  assert (Hle : 45 <= 70) by lia.
  split; [exact Hle|]. split; [reflexivity|].
  exact (get_ind_of_min_value_monotone [20; 40; 60; 80] 45 70 1 Hle eq_refl).
Defined.

Lemma get_ind_of_min_value_sorted_witness :
  StronglySorted Z.le [20; 40; 60; 80]
  /\ exists th,
       [20; 40; 60; 80] !! 1%nat = Some th /\ th <= 45
       /\ forall th', th' ∈ [20; 40; 60; 80] -> th' <= 45 -> th' <= th.
Proof.
  assert (Hs : StronglySorted Z.le [20; 40; 60; 80]).
  { repeat (constructor; [|repeat constructor; lia]). constructor. }
  split; [exact Hs|].
  exact (get_ind_of_min_value_sorted [20; 40; 60; 80] 45 1 Hs eq_refl).
Defined.

Lemma vacc_subtarg_returns_witness :
  exists st, test_variants.vacc_subtarg demo_vx_sim = Ok st.
Proof.
  apply vacc_subtarg_returns.
  - exists 40. split; [|simpl; lia]. apply list_elem_of_In. simpl. tauto.
  - simpl. lia.
  - simpl. lia.
  - reflexivity.
Defined.

Lemma vacc_subtarg_failures_witness :
  test_variants.vacc_subtarg
    {| test_variants.vxsubtarg := test_variants.vxsubtarg demo_vx_sim;
       test_variants.t := 5;
       test_variants.people := test_variants.people demo_vx_sim |}
  = Raise (ValueError "5 is not within the list of times")
  /\ test_variants.vacc_subtarg
       {| test_variants.vxsubtarg :=
            {| test_variants.vx_age := [75%Q];
               test_variants.vx_prob := [5 # 100; 5 # 100; 5 # 100; 5 # 100]%Q;
               test_variants.vx_days := [20; 40; 60; 80] |};
          test_variants.t := 45;
          test_variants.people := test_variants.people demo_vx_sim |}
     = Raise IndexError.
Proof.
  split.
  - apply (proj1 (vacc_subtarg_failures
                    {| test_variants.vxsubtarg := test_variants.vxsubtarg demo_vx_sim;
                       test_variants.t := 5;
                       test_variants.people := test_variants.people demo_vx_sim |})).
    simpl. repeat (constructor; [lia|]). constructor.
  - apply (proj2 (vacc_subtarg_failures
                    {| test_variants.vxsubtarg :=
                         {| test_variants.vx_age := [75%Q];
                            test_variants.vx_prob := [5 # 100; 5 # 100; 5 # 100; 5 # 100]%Q;
                            test_variants.vx_days := [20; 40; 60; 80] |};
                       test_variants.t := 45;
                       test_variants.people := test_variants.people demo_vx_sim |}) 1%nat);
      [reflexivity | simpl; lia].
Defined.

Lemma vacc_subtarg_inds_witness :
  test_variants.vacc_subtarg demo_vx_sim
  = Ok {| test_variants.inds := [0%nat; 1%nat]; test_variants.vals := [5 # 100; 5 # 100]%Q |}
  /\ StronglySorted lt [0%nat; 1%nat]
  /\ Forall (fun i => (i < 4)%nat) [0%nat; 1%nat].
Proof.
  split; [reflexivity|].
  destruct (vacc_subtarg_inds demo_vx_sim
              {| test_variants.inds := [0%nat; 1%nat];
                 test_variants.vals := [5 # 100; 5 # 100]%Q |} eq_refl)
    as (Hs & _ & Hr & _).
  split; [exact Hs | exact (Hr eq_refl)].
Defined.

(** With one age for four flags numpy stretches the age, and people are
    selected beyond the end of the age array. *)
Example vacc_subtarg_one_age :
  test_variants.vacc_subtarg demo_vx_sim_one_age
  = Ok {| test_variants.inds := [0%nat; 2%nat; 3%nat];
          test_variants.vals := [5 # 100; 5 # 100; 5 # 100]%Q |}.
Proof. reflexivity. Qed.

Lemma demo_people_ok : people_ok demo_sim.
Proof.
  intros q Hq. rewrite !elem_of_cons, elem_of_nil in Hq.
  destruct Hq as [->|[->|[->|[->|[]]]]]; eexists; (split; [vm_compute; reflexivity|]);
    intros [|[|i]] d Hd; simpl in *; try lia; discriminate.
Qed.

Lemma get_individual_states_returns_witness :
  people_ok demo_sim
  /\ exists z, @get_individual_states demo_libs demo_sim = Ok (z, states).
Proof.
  split; [exact demo_people_ok|].
  exact (proj2 (proj1 (@get_individual_states_returns demo_libs demo_sim)) demo_people_ok).
Defined.

Example get_individual_states_no_deaths :
  @get_individual_states demo_libs demo_sim_no_deaths = Raise (AttributeError "date_dead").
Proof. vm_compute. reflexivity. Qed.

Example get_individual_states_demo :
  @get_individual_states demo_libs demo_sim = Ok ([[2; 3; 4]; [0; 0; 0]], states).
Proof. vm_compute. reflexivity. Qed.

Lemma get_individual_states_rows_witness :
  @get_individual_states demo_libs demo_sim = Ok ([[2; 3; 4]; [0; 0; 0]], states)
  /\ forall i, (i < 2)%nat -> [[2; 3; 4]; [0; 0; 0]] !! i = Some (person_row demo_sim i).
Proof.
  assert (Hget : @get_individual_states demo_libs demo_sim = Ok ([[2; 3; 4]; [0; 0; 0]], states))
    by (vm_compute; reflexivity).
  split; [exact Hget|].
  exact (proj2 (proj2 (get_individual_states_rows demo_sim _ _ Hget))).
Defined.

Lemma get_individual_states_shape_witness :
  @get_individual_states demo_libs demo_sim = Ok ([[2; 3; 4]; [0; 0; 0]], states)
  /\ Forall (fun row => length row = 3%nat /\ Forall (fun c => c ∈ [0; 2; 3; 4; 5]) row)
       [[2; 3; 4]; [0; 0; 0]].
Proof.
  assert (Hget : @get_individual_states demo_libs demo_sim = Ok ([[2; 3; 4]; [0; 0; 0]], states))
    by (vm_compute; reflexivity).
  split; [exact Hget|].
  exact (proj2 (get_individual_states_shape demo_sim _ _ Hget)).
Defined.

Lemma get_individual_states_dead_witness :
  @get_individual_states demo_libs demo_sim_dead = Ok ([[2; 3; 5]; [0; 0; 0]], states)
  /\ person_date demo_sim_dead "date_dead" 0 = Some 2
  /\ exists row, [[2; 3; 5]; [0; 0; 0]] !! 0%nat = Some row /\ row !! 2%nat = Some 5.
Proof.
  assert (Hget : @get_individual_states demo_libs demo_sim_dead = Ok ([[2; 3; 5]; [0; 0; 0]], states))
    by (vm_compute; reflexivity).
  assert (Hdead : person_date demo_sim_dead "date_dead" 0 = Some 2)
    by (vm_compute; reflexivity).
  split; [exact Hget|]. split; [exact Hdead|].
  apply (get_individual_states_dead demo_sim_dead _ _ 0 2 2 Hget); simpl; try lia.
  exact Hdead.
Defined.

Lemma get_individual_states_healthy_witness :
  @get_individual_states demo_libs demo_sim_late = Ok ([[0; 2; 3]; [0; 0; 0]], states)
  /\ person_date demo_sim_late "date_exposed" 0 = Some 1
  /\ exists row, [[0; 2; 3]; [0; 0; 0]] !! 0%nat = Some row /\ row !! 0%nat = Some 0.
Proof.
  assert (Hget : @get_individual_states demo_libs demo_sim_late
                 = Ok ([[0; 2; 3]; [0; 0; 0]], states))
    by (vm_compute; reflexivity).
  split; [exact Hget|]. split; [vm_compute; reflexivity|].
  apply (@get_individual_states_healthy demo_libs demo_sim_late _ _ 0 0 Hget); simpl; try lia.
  intros q d Hq. rewrite !elem_of_cons, elem_of_nil in Hq.
  destruct Hq as [->|[->|[->|[->|[]]]]]; vm_compute; intros [= <-]; reflexivity.
Defined.

Lemma plotly_people_traces_witness :
  exists fig,
    @plotly_people demo_libs demo_sim true = Ok (fig, true)
    /\ map tr_name (fig_traces fig) = ["Dead"; "Recovered"; "Infectious"; "Exposed"; "Healthy"]
    /\ Forall (fun tr => length (tr_y tr) = 3%nat /\ tr_stackgroup tr = Some "one")
         (fig_traces fig).
Proof.
  destruct (@plotly_people demo_libs demo_sim true) as [[fig shown]|e] eqn:Hfig;
    [|vm_compute in Hfig; discriminate].
  destruct (plotly_people_traces demo_sim true fig shown Hfig) as (-> & Hnames & Hall).
  exists fig. split; [reflexivity|]. split; [exact Hnames | exact Hall].
Defined.

Lemma plotly_people_total_witness :
  exists fig shown,
    @plotly_people demo_libs demo_sim false = Ok (fig, shown)
    /\ (column_total fig 1 == 2)%Q.
Proof.
  destruct (@plotly_people demo_libs demo_sim false) as [[fig shown]|e] eqn:Hfig;
    [|vm_compute in Hfig; discriminate].
  exists fig, shown. split; [reflexivity|].
  apply (plotly_people_total demo_sim false fig shown 1 Hfig). simpl. lia.
Defined.

Ltac demo_plotly_key_ok :=
  split; [eexists; vm_compute; reflexivity|];
  split; [eexists; vm_compute; reflexivity|];
  intros ? Hnone; simpl in Hnone; discriminate Hnone.

Lemma plotly_sim_figures_witness :
  exists plots,
    @plotly_sim demo_libs demo_sim = Ok plots
    /\ Forall2 (fun fig item => fig_layout fig !! "title" = Some (PStr (fst item))
                                /\ fig_layout fig !! "yaxis_title" = Some (PStr "Count"))
         plots demo_to_plot.
Proof.
  destruct (@plotly_sim_figures demo_libs demo_sim) as [Htitles Hreturns].
  destruct Hreturns as (plots & Hplots).
  { simpl. unfold demo_to_plot.
    repeat first [ apply Forall_nil_2
                 | apply Forall_cons_2;
                   [simpl; repeat first [apply Forall_nil_2
                                        | apply Forall_cons_2; [demo_plotly_key_ok|]]|] ]. }
  exists plots. split; [exact Hplots|]. exact (Htitles plots Hplots).
Defined.

Lemma plotly_sim_missing_key_witness :
  results demo_sim !! "new_tests" = None
  /\ @plotly_sim demo_libs_bad demo_sim = Raise (KeyError "new_tests").
Proof.
  assert (Hkey : results demo_sim !! "new_tests" = None) by (vm_compute; reflexivity).
  split; [exact Hkey|].
  apply (@plotly_sim_missing_key demo_libs_bad demo_sim "new_tests" "Daily counts"
           ["new_infections"] ["cum_deaths"] [("Total counts", ["cum_infections"])] []).
  - reflexivity.
  - apply Forall_cons_2; [|apply Forall_nil_2]. simpl.
    apply Forall_cons_2; [demo_plotly_key_ok | apply Forall_nil_2].
  - apply Forall_cons_2; [demo_plotly_key_ok | apply Forall_nil_2].
  - exact Hkey.
Defined.

Lemma plotly_annotations_witness :
  (exists plots,
     @plotly_sim demo_libs demo_sim = Ok plots
     /\ Forall (fun fig => fig_annotations fig = [marker_annotation 20]) plots)
  /\ (exists fig shown,
        @plotly_people demo_libs demo_sim false = Ok (fig, shown)
        /\ fig_annotations fig = [marker_annotation 30]).
Proof.
  destruct (@plotly_annotations demo_libs demo_sim) as (Hsim & Hpeople).
  split.
  - destruct (@plotly_sim demo_libs demo_sim) as [plots|e] eqn:Hplots;
      [|vm_compute in Hplots; discriminate].
    exists plots. split; [reflexivity|]. exact (Hsim plots eq_refl).
  - destruct (@plotly_people demo_libs demo_sim false) as [[fig shown]|e] eqn:Hfig;
      [|vm_compute in Hfig; discriminate].
    exists fig, shown. split; [reflexivity|]. exact (Hpeople false fig shown Hfig).
Defined.

Lemma plots_save_only_on_request_witness :
  truthy PNone = false
  /\ (exists l,
        trace (snd (@plot_sim demo_libs demo_sim (demo_kw None PNone None false true 1)
                      demo_state))
        = l ++ []
        /\ forall p, SaveFig p ∉ l)
  /\ (exists l,
        trace (snd (@plot_scens demo_libs demo_scens (demo_kw None PNone None false true 1)
                      demo_state))
        = l ++ []
        /\ forall p, SaveFig p ∉ l).
Proof.
  split; [reflexivity|].
  exact (@plots_save_only_on_request demo_libs demo_sim demo_scens
           (demo_kw None PNone None false true 1) demo_state eq_refl).
Defined.

Lemma demo_grid_ok_2 (panels : nat) : (panels < 10)%nat -> grid_ok 2 panels.
Proof.
  intros Hpanels. split; [split; [lia | vm_compute; discriminate]|].
  assert (2 ^ 4 <= 2 ^ 53) by (apply Z.pow_le_mono_r; lia). lia.
Qed.

Lemma plots_fit_grid_witness :
  grid_ok 2 2
  /\ (exists l,
        trace (snd (@plot_sim demo_libs demo_sim (demo_kw None PNone None false true 2)
                      demo_state))
        = l ++ []
        /\ forall r c num sharex label a,
             Subplot (GridPos r c num) sharex label a ∈ l ->
             exists rows : Z,
               r = PFloat (inject_Z rows) /\ c = 2
               /\ 1 <= num <= rows * c /\ label = "ax" +:+ str_of_Z num).
Proof.
  assert (Hgrid : grid_ok 2 2) by (apply demo_grid_ok_2; lia).
  split; [exact Hgrid|].
  exact (proj1 (@plots_fit_grid demo_libs demo_sim demo_scens
                  (demo_kw None PNone None false true 2) demo_state) Hgrid).
Defined.

Example plot_sim_grid_calls :
  List.filter (fun c => match c with Subplot _ _ _ _ => true | _ => false end)
    (trace (snd (@plot_sim demo_libs demo_sim (demo_kw None PNone None false true 2)
                   demo_state)))
  = [Subplot (GridPos (PFloat 1) 2 2) (Some 0%nat) "ax2" 1;
     Subplot (GridPos (PFloat 1) 2 1) None "ax1" 0].
Proof. vm_compute. reflexivity. Qed.

Lemma plot_result_returns_witness :
  @lib_accepts demo_libs
  /\ (exists r, results demo_sim !! "cum_deaths" = Some (Series r))
  /\ is_Some (results demo_sim !! "t")
  /\ exists st',
       @plot_result demo_libs demo_sim "cum_deaths" default_kw demo_state
       = (Ok (Some 0%nat), st').
Proof.
  assert (Hr : exists r, results demo_sim !! "cum_deaths" = Some (Series r))
    by (eexists; vm_compute; reflexivity).
  assert (Ht : is_Some (results demo_sim !! "t")) by (eexists; vm_compute; reflexivity).
  split; [exact demo_lib_accepts|]. split; [exact Hr|]. split; [exact Ht|].
  exact (@plot_result_returns demo_libs demo_sim "cum_deaths" default_kw demo_state
           demo_lib_accepts (lacks_None "c") (lacks_None "label")
           (lacks_None "c") (lacks_None "label") Hr Ht).
Defined.

(** A caller who repeats a keyword that [plot_result] passes by name gets
    a [TypeError], before the line is drawn. *)
Example plot_result_repeated_keyword :
  fst (@plot_result demo_libs demo_sim "cum_deaths"
         (demo_kw_plot_args (<["c" := PStr "k"]> ∅)) demo_state)
  = Raise TypeError.
Proof. vm_compute. reflexivity. Qed.

Lemma demo_scens_key_ok (kw : plot_kw) :
  colors kw = None -> labels kw = None ->
  @scens_key_ok demo_libs_bad demo_scens kw "cum_infections".
Proof.
  intros Hc Hl. eexists. split; [vm_compute; reflexivity|].
  intros [|snum] scenkey sd Hlook; [|done]. injection Hlook as <- <-.
  split; [|split].
  - eexists _, _. split; [vm_compute; reflexivity|]. by intros d col [=].
  - rewrite Hc. eexists. vm_compute. reflexivity.
  - intros ls Hls. congruence.
Qed.

Lemma plots_return_witness :
  @paths_accepted demo_libs
  /\ @sim_plots_ok demo_libs demo_sim (demo_kw None (PBool true) None true false 1)
  /\ @scens_plots_ok demo_libs demo_scens (demo_kw None (PBool true) None true false 1)
  /\ (exists r st',
        @plot_sim demo_libs demo_sim (demo_kw None (PBool true) None true false 1) demo_state
        = (Ok r, st'))
  /\ (exists r st',
        @plot_scens demo_libs demo_scens (demo_kw None (PBool true) None true false 1)
          demo_state
        = (Ok r, st')).
Proof.
  assert (Hpaths : @paths_accepted demo_libs) by (intros name; by exists name).
  assert (Hsim : @sim_plots_ok demo_libs demo_sim (demo_kw None (PBool true) None true false 1))
    by (apply demo_sim_plots_ok; by left).
  assert (Hscens : @scens_plots_ok demo_libs demo_scens
                     (demo_kw None (PBool true) None true false 1))
    by apply demo_scens_plots_ok.
  split; [exact Hpaths|]. split; [exact Hsim|]. split; [exact Hscens|].
  destruct (@plots_return demo_libs demo_sim demo_scens
              (demo_kw None (PBool true) None true false 1) demo_state Hpaths)
    as [Hs Hc].
  split; [exact (Hs Hsim) | exact (Hc Hscens)].
Defined.

Lemma demo_bad_lib_accepts : @lib_accepts demo_libs_bad.
Proof. by intros tr c. Qed.

Lemma plot_scens_missing_key_witness :
  @lib_accepts demo_libs_bad
  /\ scen_results demo_scens !! "cum_deaths" = None
  /\ exists st',
       @plot_scens demo_libs_bad demo_scens (demo_kw None PNone None false true 1) demo_state
       = (Raise (KeyError "cum_deaths"), st').
Proof.
  assert (Hkey : scen_results demo_scens !! "cum_deaths" = None) by (vm_compute; reflexivity).
  split; [exact demo_bad_lib_accepts|]. split; [exact Hkey|].
  apply (@plot_scens_missing_key demo_libs_bad demo_scens
           (demo_kw None PNone None false true 1) "cum_deaths" "Deaths"
           ["cum_infections"] [] [] [] demo_state demo_bad_lib_accepts Hkey).
  - apply demo_kw_distinct.
  - apply demo_grid_ok. simpl. lia.
  - reflexivity.
  - apply Forall_nil_2.
  - apply Forall_cons_2; [by apply demo_scens_key_ok | apply Forall_nil_2].
Defined.

Example title_grid_legend_entry_wins :
  trace (snd (@title_grid_legend demo_libs 0 "Daily counts" false false false
                (<["show_legend" := PBool false]> (<["loc" := PStr "best"]> ∅))
                (PBool true) demo_state))
  = [Grid 0 false; SetTitle 0 "Daily counts"].
Proof. vm_compute. reflexivity. Qed.

End concrete_more.
